(** * mcp_cog: connection supervisor, tool router and conversation engine

    A shallow embedding of [src/mcp_cog.py] (class [MCPCog]) and the
    properties of its specification.

    Conventions of the embedding:
    - a Python [dict] is an insertion-ordered association list with unique
      keys ([PyDict]); iteration order is list order;
    - a Python [int] is a [Z], a Python [float] a binary64 [float];
    - a Python [str] is held as its UTF-8 bytes; lengths, slices and
      [strip] go by code points ([chars]);
    - a coroutine is cut at its [await]s: the code between two suspension
      points is one function from state to state, and what the awaited
      operation delivers (a result, an exception, a timeout, a cancellation)
      is an explicit input;
    - the attributes of [self] that the code mutates live in the record
      [Cog]. *)

From Stdlib Require Import ZArith String Ascii List Bool Lia Floats DecimalString.
From Stdlib Require Import Sorted Permutation.
Import ListNotations.
Open Scope string_scope.
Open Scope Z_scope.

Set Implicit Arguments.

(** ** Python dictionaries *)

Class KeyEq (K : Type) := {
  keqb : K -> K -> bool;
  keqb_eq : forall a b, keqb a b = true <-> a = b
}.

#[export] Instance string_KeyEq : KeyEq string :=
  {| keqb := String.eqb; keqb_eq := String.eqb_eq |}.

#[export] Instance Z_KeyEq : KeyEq Z :=
  {| keqb := Z.eqb; keqb_eq := Z.eqb_eq |}.

Module PyDict.
Section Dict.
Context {K V : Type} `{KeyEq K}.

(** [d.get(k)] *)
Fixpoint get (k : K) (d : list (K * V)) : option V :=
  match d with
  | [] => None
  | (k', v) :: d' => if keqb k k' then Some v else get k d'
  end.

(** [k in d] *)
Definition mem (k : K) (d : list (K * V)) : bool :=
  match get k d with Some _ => true | None => false end.

(** [d[k] = v]: an existing key keeps its position, a new key goes last. *)
Fixpoint set (k : K) (v : V) (d : list (K * V)) : list (K * V) :=
  match d with
  | [] => [(k, v)]
  | (k', v') :: d' =>
      if keqb k k' then (k', v) :: d' else (k', v') :: set k v d'
  end.

(** [if k in d: del d[k]] (also [d.pop(k, None)]) *)
Definition del (k : K) (d : list (K * V)) : list (K * V) :=
  filter (fun kv => negb (keqb k (fst kv))) d.

Definition keys (d : list (K * V)) : list K := map fst d.
End Dict.
End PyDict.

(** ** Python values that travel through the cog *)

(** Tool results and JSON arguments: [None], [bool], [int], [float], [str],
    [list], [dict] with string keys, and any other object, of which only its
    [str()] is ever used. *)
#[local] Unset Elimination Schemes.
Inductive pyval : Type :=
| PNone
| PBool (b : bool)
| PInt (z : Z)
| PFloat (f : float)
| PStr (s : string)
| PList (l : list pyval)
| PDict (d : list (string * pyval))
| PObject (shown : string).
#[local] Set Elimination Schemes.

(** Truth value of a Python object, as [if x:] tests it. *)
Definition truthy (v : pyval) : bool :=
  match v with
  | PNone => false
  | PBool b => b
  | PInt z => negb (z =? 0)
  | PFloat f => negb (PrimFloat.eqb f 0%float)
  | PStr s => negb (s =? "")%string
  | PList l => match l with [] => false | _ => true end
  | PDict d => match d with [] => false | _ => true end
  | PObject _ => true
  end.

Definition str_truthy (s : string) : bool := negb (s =? "")%string.

(** [str(z)] for an [int]. *)
Definition str_int (z : Z) : string := NilZero.string_of_int (Z.to_int z).

(** *** Characters

    A Python [str] is a sequence of code points and is held here as its
    UTF-8 bytes. [len], indexing, slicing and [strip] count code points, so
    they go through [chars]: one character is a byte together with the
    continuation bytes ([10xxxxxx]) that follow it. *)
Definition is_continuation (c : ascii) : bool :=
  let n := nat_of_ascii c in ((128 <=? n) && (n <? 192))%nat.

Definition starts_with_continuation (s : string) : bool :=
  match s with
  | String c _ => is_continuation c
  | EmptyString => false
  end.

Fixpoint chars (s : string) : list string :=
  match s with
  | EmptyString => []
  | String c s' =>
      match chars s' with
      | ch :: rest =>
          if starts_with_continuation ch then String c ch :: rest
          else String c EmptyString :: ch :: rest
      | [] => [String c EmptyString]
      end
  end.

(** [len(s)] *)
Definition py_len (s : string) : nat := length (chars s).

(** [s[start:stop]] for [0 <= start <= stop] *)
Definition py_slice (start stop : nat) (s : string) : string :=
  String.concat "" (firstn (stop - start) (skipn start (chars s))).

(** [s[:n]] *)
Definition py_take (n : nat) (s : string) : string := py_slice 0 n s.

(** Whitespace as [str.strip()] and [str.isspace()] see it: U+0009 to
    U+000D, U+001C to U+0020, U+0085, U+00A0, U+1680, U+2000 to U+200A,
    U+2028, U+2029, U+202F, U+205F and U+3000, each by its UTF-8 bytes. *)
Definition is_whitespace (ch : string) : bool :=
  match map nat_of_ascii (list_ascii_of_string ch) with
  | [a] => ((9 <=? a) && (a <=? 13) || (28 <=? a) && (a <=? 32))%nat
  | [a; b] => ((a =? 194) && ((b =? 133) || (b =? 160)))%nat
  | [a; b; c] =>
      ((a =? 225) && (b =? 154) && (c =? 128)
       || (a =? 226) && (b =? 128)
          && ((128 <=? c) && (c <=? 138) || (c =? 168) || (c =? 169)
              || (c =? 175))
       || (a =? 226) && (b =? 129) && (c =? 159)
       || (a =? 227) && (b =? 128) && (c =? 128))%nat
  | _ => false
  end.

(** [bool(s.strip())]: some character of [s] is not whitespace. *)
Definition strip_truthy (s : string) : bool :=
  existsb (fun ch => negb (is_whitespace ch)) (chars s).

(** [s.strip()] *)
Fixpoint drop_whitespace (l : list string) : list string :=
  match l with
  | ch :: rest => if is_whitespace ch then drop_whitespace rest else l
  | [] => []
  end.

Definition py_strip (s : string) : string :=
  String.concat ""
    (rev (drop_whitespace (rev (drop_whitespace (chars s))))).

(** [s.lower()], on ASCII. *)
Definition lower_ascii (c : ascii) : ascii :=
  let n := nat_of_ascii c in
  if ((65 <=? n) && (n <=? 90))%nat then ascii_of_nat (n + 32) else c.

Fixpoint str_lower (s : string) : string :=
  match s with
  | EmptyString => EmptyString
  | String c s' => String (lower_ascii c) (str_lower s')
  end.

(** ** Data model *)

(** [mcp_sse_client.ToolParameter]; an absent description is the empty
    string, an absent default is [PNone]. *)
Record ToolParameter := {
  param_name : string;
  parameter_type : string;
  param_description : string;
  param_required : bool;
  param_default : pyval;
  param_enum : option (list pyval)
}.

(** [mcp_sse_client.ToolDef] *)
Record ToolDef := {
  tool_name : string;
  tool_description : string;
  tool_parameters : list ToolParameter
}.

(** [mcp_sse_client.MCPClient]: an opaque handle on a session. *)
Record MCPClient := { client_url : string }.

(** [mcp_sse_client.ToolInvocationResult] *)
Record ToolInvocationResult := {
  content : pyval;
  error_code : option Z
}.

Inductive Role := system | user | assistant | tool.

(** One entry of [tool_calls]: [{'id', 'type', 'function': {'name',
    'arguments'}}]. The id is [None] until the stream delivers one. *)
Record ToolCall := {
  tc_id : option string;
  tc_type : string;
  fn_name : string;
  fn_arguments : string
}.

(** A history message; the optional keys are absent when [None], except
    [msg_content], which the assistant message carries as [None]. *)
Record Message := {
  role : Role;
  msg_content : option string;
  tool_calls : option (list ToolCall);
  tool_call_id : option string;
  msg_name : option string
}.

(** The mutable attributes of [MCPCog]. *)
Record Cog := {
  mcp_connections : list (string * MCPClient);
  mcp_tools : list (string * list ToolDef);
  message_history : list (Z * list Message);
  shutdown_event : bool
}.

Definition with_registry (c : Cog) conns tools : Cog :=
  {| mcp_connections := conns; mcp_tools := tools;
     message_history := message_history c;
     shutdown_event := shutdown_event c |}.

Definition with_history (c : Cog) (h : list (Z * list Message)) : Cog :=
  {| mcp_connections := mcp_connections c; mcp_tools := mcp_tools c;
     message_history := h; shutdown_event := shutdown_event c |}.

Definition with_shutdown (c : Cog) (b : bool) : Cog :=
  {| mcp_connections := mcp_connections c; mcp_tools := mcp_tools c;
     message_history := message_history c; shutdown_event := b |}.

(** [MCPCog.__init__]: empty registries, empty history, event clear. *)
Definition new_cog : Cog :=
  {| mcp_connections := []; mcp_tools := []; message_history := [];
     shutdown_event := false |}.

(** The two lines every eviction site repeats:
    [if name in self.mcp_connections: del self.mcp_connections[name]]
    [if name in self.mcp_tools: del self.mcp_tools[name]] *)
Definition evict (name : string) (c : Cog) : Cog :=
  with_registry c (PyDict.del name (mcp_connections c))
                  (PyDict.del name (mcp_tools c)).

(** ** Connection supervisor: [_manage_mcp_connection] *)

Module Supervisor.

(** The suspension point a task is parked at: [Listing] is the attempt of
    steps 1 and 2 (the specification's Connecting and Listing), [Ready] the
    wait of step 4, [Backoff t] the wait of step 6,
    [wait_for(self._shutdown_event.wait(), timeout=t)] (Disconnected), and
    [Finished] the end of the coroutine (Terminated). *)
Inductive Phase :=
| Listing
| Ready
| Backoff (timeout : Z)
| Finished.

Record Task := {
  name : string;
  url : string;
  reconnect_delay : Z;
  phase : Phase
}.

Definition max_reconnect_delay : Z := 300.

Definition at_phase (t : Task) (p : Phase) : Task :=
  {| name := name t; url := url t;
     reconnect_delay := reconnect_delay t; phase := p |}.

Definition with_delay (t : Task) (d : Z) : Task :=
  {| name := name t; url := url t; reconnect_delay := d; phase := phase t |}.

(** What [MCPClient(url)] followed by [wait_for(client.list_tools(), 45.0)]
    delivers. A constructor that raises is delivered here as well. *)
Inductive AttemptOutcome :=
| Listed (tools : list ToolDef)
| ConnFailed      (* ConnectError, ReadTimeout, ConnectionRefusedError *)
| ListTimeout     (* asyncio.TimeoutError *)
| Unexpected.     (* any other Exception *)

(** What wakes a parked task. *)
Inductive Wake :=
| AttemptDone (o : AttemptOutcome)
| EventSet          (* self._shutdown_event.wait() returned *)
| TimerElapsed      (* the timeout of wait_for expired *)
| TaskCancelled.    (* asyncio.CancelledError *)

(** Leaving the loop: the final cleanup after [while]. *)
Definition finish (t : Task) (c : Cog) : Task * Cog :=
  (at_phase t Finished, evict (name t) c).

(** [while not self._shutdown_event.is_set():] and the code up to the
    first [await] of the body. *)
Definition loop_head (t : Task) (c : Cog) : Task * Cog :=
  if shutdown_event c then finish t c else (at_phase t Listing, c).

(** Steps 5 and 6: cleanup, then the interruptible wait. *)
Definition cleanup_and_wait (t : Task) (c : Cog) : Task * Cog :=
  let c' := evict (name t) c in
  if shutdown_event c' then loop_head t c'
  else (at_phase t (Backoff (reconnect_delay t)), c').

(** Step 3: store client and tools, reset the delay. *)
Definition publish (t : Task) (tools : list ToolDef) (c : Cog) : Task * Cog :=
  (with_delay t 15,
   with_registry c
     (PyDict.set (name t) {| client_url := url t |} (mcp_connections c))
     (PyDict.set (name t) tools (mcp_tools c))).

(** Task creation: the code from entry to the first suspension point. *)
Definition start (nm u : string) (c : Cog) : Task * Cog :=
  loop_head {| name := nm; url := u; reconnect_delay := 15; phase := Listing |} c.

(** One resumption: the code from the suspension point [phase t] to the
    next one. [None] when [w] cannot wake a task parked there. *)
Definition resume (t : Task) (c : Cog) (w : Wake) : option (Task * Cog) :=
  match phase t, w with
  | Listing, AttemptDone (Listed tools) =>
      let '(t1, c1) := publish t tools c in
      (* step 4: await self._shutdown_event.wait() *)
      if shutdown_event c1 then Some (cleanup_and_wait t1 c1)
      else Some (at_phase t1 Ready, c1)
  | Listing, AttemptDone _ => Some (cleanup_and_wait t c)
  | Listing, TaskCancelled => Some (finish t c)
  | Ready, EventSet =>
      if shutdown_event c then Some (cleanup_and_wait t c) else None
  | Ready, TaskCancelled => Some (finish t c)
  | Backoff _, EventSet =>
      if shutdown_event c then Some (finish t c) else None
  | Backoff _, TimerElapsed =>
      Some (loop_head
              (with_delay t (Z.min (reconnect_delay t * 2) max_reconnect_delay)) c)
  | Backoff _, TaskCancelled => Some (finish t c)
  | _, _ => None
  end.

(** A run: the phases a task is parked at while the wakes of [ws] arrive
    in order; a wake that does not apply leaves the task parked. *)
Fixpoint run (t : Task) (c : Cog) (ws : list Wake) : list Phase * (Task * Cog) :=
  match ws with
  | [] => ([], (t, c))
  | w :: ws' =>
      match resume t c w with
      | Some (t', c') =>
          let '(ps, r) := run t' c' ws' in (phase t' :: ps, r)
      | None => run t c ws'
      end
  end.

(** The timeouts of the backoff waits among the phases of a run. *)
Fixpoint backoff_delays (ps : list Phase) : list Z :=
  match ps with
  | [] => []
  | Backoff d :: ps' => d :: backoff_delays ps'
  | _ :: ps' => backoff_delays ps'
  end.

(** [_manage_mcp_connection(url, name)], driven by the wakes of [ws]. *)
Definition manage_mcp_connection (u nm : string) (c : Cog) (ws : list Wake)
  : list Phase * (Task * Cog) :=
  let '(t, c0) := start nm u c in
  let '(ps, r) := run t c0 ws in
  (phase t :: ps, r).

Definition is_failure (o : AttemptOutcome) : bool :=
  match o with Listed _ => false | _ => true end.

Definition not_cancelled (w : Wake) : bool :=
  match w with TaskCancelled => false | _ => true end.

(** The wakes of a run of failed attempts, each followed by a full wait. *)
Definition failure_wakes (os : list AttemptOutcome) : list Wake :=
  flat_map (fun o => [AttemptDone o; TimerElapsed]) os.

End Supervisor.

(** ** Library functions the cog calls *)

(** What a call into the Python runtime delivers: its value, or the
    exception it raises, held as the [str()] of the exception. *)
Inductive Try (A : Type) : Type :=
| Returns (a : A)
| Throws (e : string).
Arguments Returns {A} a.
Arguments Throws {A} e.

(** What [json.dumps(v, indent=2)] delivers: the document, a [TypeError]
    (a value that is not serializable), or another exception (a
    [ValueError] for a circular reference, a [RecursionError], ...). *)
Inductive Dumped :=
| DumpOk (document : string)
| DumpTypeError
| DumpOther (e : string).

(** The parts of the Python runtime that are not modelled: [str()] of a
    float and of a container, the exceptions of [str()], and the [json]
    module. *)
Class PyLib := {
  float_str : float -> string;
  container_str : pyval -> string;
  (** the exception [str(v)] raises, when the [__str__] or [__repr__] of an
      object, or of an object held in a container, raises one *)
  str_raises : pyval -> option string;
  json_dumps : pyval -> Dumped;
  (** [json.loads(s)]; [None] when it raises [JSONDecodeError] or [TypeError] *)
  json_loads : string -> option pyval
}.

(** [str(v)] *)
Definition py_str `{PyLib} (v : pyval) : string :=
  match v with
  | PNone => "None"
  | PBool true => "True"
  | PBool false => "False"
  | PInt z => str_int z
  | PFloat f => float_str f
  | PStr s => s
  | PList _ | PDict _ => container_str v
  | PObject shown => shown
  end.

(** [str(v)] as the call it is: [None], a boolean, an integer, a float and
    a string always have a [str()]. *)
Definition try_str `{PyLib} (v : pyval) : Try string :=
  match v with
  | PList _ | PDict _ | PObject _ =>
      match str_raises v with
      | Some e => Throws e
      | None => Returns (py_str v)
      end
  | PNone | PBool _ | PInt _ | PFloat _ | PStr _ => Returns (py_str v)
  end.

Definition dq : string := String (ascii_of_nat 34) EmptyString.
Definition nl : string := String (ascii_of_nat 10) EmptyString.

(** ** Tool router: [execute_tool] *)

Module Router.

(** What [wait_for(mcp_client.invoke_tool(...), timeout=120.0)] delivers. *)
Inductive InvokeOutcome :=
| Returned (r : ToolInvocationResult)
| TimedOut          (* asyncio.TimeoutError *)
| ConnectionFault   (* ConnectError, ReadTimeout, BrokenResourceError,
                       ClosedResourceError, ConnectionError, WouldBlock *)
| Raised (msg : string).  (* any other Exception e, msg = str(e) *)

(** One constructor per [return {'error': ...}] of [execute_tool]. *)
Inductive ExecError :=
| NoServersConnected
| ServerUnavailable (origin : string)
| ClientMismatch
| ToolNotFound
| ToolReported (code : Z) (reported : pyval)
| CallTimedOut
| ConnectionLost
| CallFailed (msg : string).

Inductive ExecResult :=
| Succeeded (r : ToolInvocationResult)
| Failed (e : ExecError).

(** The value of the ['error'] key. *)
Definition error_text `{PyLib} (tool_name : string) (e : ExecError) : string :=
  match e with
  | NoServersConnected =>
      "Tool " ++ dq ++ tool_name ++ dq
      ++ " cannot be executed: No MCP servers currently connected."
  | ServerUnavailable origin =>
      "Tool " ++ dq ++ tool_name ++ dq ++ " exists (on server " ++ dq ++ origin
      ++ dq ++ "), but the server is currently disconnected or unavailable."
  | ClientMismatch =>
      "Internal state error: Tool " ++ dq ++ tool_name ++ dq
      ++ " found but client mismatch."
  | ToolNotFound =>
      "Tool " ++ dq ++ tool_name ++ dq
      ++ " not found on any configured and connected MCP server."
  | ToolReported code reported =>
      "Tool reported error code " ++ str_int code
      ++ (if truthy reported then ": " ++ py_str reported else "")
  | CallTimedOut => "Tool call " ++ dq ++ tool_name ++ dq ++ " timed out."
  | ConnectionLost =>
      "Connection error executing tool " ++ dq ++ tool_name ++ dq
      ++ ". The server may be temporarily unavailable. Please try again."
  | CallFailed msg => "Error calling tool " ++ dq ++ tool_name ++ dq ++ ": " ++ msg
  end.

(** [any(tool.name == tool_name for tool in tools)] *)
Definition lists_tool (tn : string) (tools : list ToolDef) : bool :=
  existsb (fun t => (tool_name t =? tn)%string) tools.

(** The [for server_name, client in self.mcp_connections.items()] scan:
    the first connected server whose tool list has the name. *)
Fixpoint find_client (tn : string) (conns : list (string * MCPClient))
         (tools : list (string * list ToolDef)) : option (string * MCPClient) :=
  match conns with
  | [] => None
  | (server_name, client) :: rest =>
      if match PyDict.get server_name tools with
         | Some ts => lists_tool tn ts
         | None => false
         end
      then Some (server_name, client)
      else find_client tn rest tools
  end.

(** The [for s_name, tools in self.mcp_tools.items()] scan. *)
Fixpoint find_origin (tn : string) (tools : list (string * list ToolDef))
  : option string :=
  match tools with
  | [] => None
  | (s_name, ts) :: rest =>
      if lists_tool tn ts then Some s_name else find_origin tn rest
  end.

(** The [if not mcp_client or not server_name_found:] branch. The loop
    over the servers of the configuration has an empty body ([pass]); its
    entries are taken to be dicts, as [cog_load] expects them. *)
Definition unresolved (c : Cog) (tn : string) : ExecError :=
  match mcp_connections c with
  | [] => NoServersConnected
  | _ :: _ =>
      match find_origin tn (mcp_tools c) with
      | Some origin =>
          if str_truthy origin then
            if negb (PyDict.mem origin (mcp_connections c))
            then ServerUnavailable origin
            else ClientMismatch
          else ToolNotFound
      | None => ToolNotFound
      end
  end.

(** [execute_tool] up to its [await]: an error, or the server and client
    the call goes to. A client object is true; a server name is true when
    it is not empty. *)
Definition resolve (c : Cog) (tn : string) : ExecError + (string * MCPClient) :=
  match find_client tn (mcp_connections c) (mcp_tools c) with
  | Some (server_name_found, mcp_client) =>
      if str_truthy server_name_found then inr (server_name_found, mcp_client)
      else inl (unresolved c tn)
  | None => inl (unresolved c tn)
  end.

(** [execute_tool] after its [await], on the registry as it is then. *)
Definition settle (c : Cog) (server_name_found : string) (o : InvokeOutcome)
  : ExecResult * Cog :=
  match o with
  | Returned r =>
      match error_code r with
      | Some code =>
          if negb (code =? 0) then (Failed (ToolReported code (content r)), c)
          else (Succeeded r, c)
      | None => (Succeeded r, c)
      end
  | TimedOut => (Failed CallTimedOut, c)
  | ConnectionFault => (Failed ConnectionLost, evict server_name_found c)
  | Raised msg => (Failed (CallFailed msg), c)
  end.

Definition Invoker := MCPClient -> string -> pyval -> InvokeOutcome.

(** [execute_tool] when nothing else runs during its [await]. *)
Definition execute_tool (invoke : Invoker) (c : Cog) (tn : string)
           (tool_input : pyval) : ExecResult * Cog :=
  match resolve c tn with
  | inl e => (Failed e, c)
  | inr (server_name_found, mcp_client) =>
      settle c server_name_found (invoke mcp_client tn tool_input)
  end.

End Router.

(** ** Result formatting: [format_calltoolresult_content] *)

Module Formatter.

(** The argument of the formatter: a [ToolInvocationResult], a dict with an
    ['error'] key, or any other value. *)
Inductive ToolOutcome :=
| Invocation (r : ToolInvocationResult)
| ErrorDict (err : string)
| OtherValue (other : pyval).

Definition of_exec `{PyLib} (tn : string) (r : Router.ExecResult) : ToolOutcome :=
  match r with
  | Router.Succeeded r => Invocation r
  | Router.Failed e => ErrorDict (Router.error_text tn e)
  end.

(** [content.get('type') == 'text' and 'text' in content] *)
Definition is_text_block (d : list (string * pyval)) : bool :=
  match PyDict.get "type" d with
  | Some (PStr t) => (t =? "text")%string && PyDict.mem "text" d
  | _ => false
  end.

(** [try: return json.dumps(content, indent=2)]
    [except TypeError: return str(content)]: any other exception of
    [json.dumps] leaves the function. *)
Definition pretty `{PyLib} (v : pyval) : Try string :=
  match json_dumps v with
  | DumpOk document => Returns document
  | DumpTypeError => try_str v
  | DumpOther e => Throws e
  end.

Definition no_content : string :=
  "Tool executed successfully but returned no content.".

Definition unexpected : string := "Unexpected tool result format: ".

Definition format_calltoolresult_content `{PyLib} (result : ToolOutcome)
  : Try string :=
  match result with
  | Invocation r =>
      match content r with
      | PNone => Returns no_content
      | PDict d =>
          if is_text_block d then
            match PyDict.get "text" d with
            | Some PNone | None => Returns ""
            | Some text_content => try_str text_content
            end
          else pretty (PDict d)
      | PStr _ | PInt _ | PFloat _ | PBool _ => try_str (content r)
      | PList l => pretty (PList l)
      | PObject _ => try_str (content r)
      end
  | ErrorDict err => Returns ("Tool Error: " ++ err)
  | OtherValue other =>
      match try_str other with
      | Returns shown => Returns (unexpected ++ py_take 200 shown)
      | Throws e => Throws e
      end
  end.

End Formatter.

(** ** Schema formatter: [format_tools_for_openai] *)

Module Schema.

(** A parameter's JSON schema; [ps_items] is the ['items': {'type': ...}]
    placeholder and [ps_properties] the presence of ['properties': {}]. *)
Record ParamSchema := {
  ps_type : string;
  ps_description : string;
  ps_enum : option (list pyval);
  ps_default : option pyval;
  ps_items : option string;
  ps_properties : bool
}.

(** One entry of the [tools] parameter: [{'type': 'function', 'function':
    {'name', 'description', 'parameters': {'type': 'object', 'properties',
    'required'?}}}]. *)
Record OpenAITool := {
  ot_name : string;
  ot_description : string;
  ot_properties : list (string * ParamSchema);
  ot_required : option (list string)
}.

Definition type_map : list (string * string) :=
  [("string", "string"); ("integer", "integer"); ("number", "number");
   ("boolean", "boolean"); ("array", "array"); ("object", "object")].

Definition map_mcp_type_to_json_type (mcp_type : string) : string :=
  match PyDict.get (str_lower mcp_type) type_map with
  | Some t => t
  | None => "string"
  end.

Definition param_schema (p : ToolParameter) : ParamSchema :=
  let ty := map_mcp_type_to_json_type (parameter_type p) in
  {| ps_type := ty;
     ps_description :=
       if str_truthy (param_description p) then param_description p
       else "Parameter " ++ param_name p;
     ps_enum :=
       match param_enum p with
       | Some ((_ :: _) as e) => Some e
       | _ => None
       end;
     ps_default :=
       match param_default p with PNone => None | d => Some d end;
     ps_items := if (ty =? "array")%string then Some "string" else None;
     ps_properties := (ty =? "object")%string |}.

(** The loop over [tool.parameters]: the properties dict and the list of
    required names; parameters without a name are skipped. *)
Fixpoint build_parameters (ps : list ToolParameter)
         (properties : list (string * ParamSchema)) (required_params : list string)
  : list (string * ParamSchema) * list string :=
  match ps with
  | [] => (properties, required_params)
  | p :: ps' =>
      if str_truthy (param_name p) then
        build_parameters ps'
          (PyDict.set (param_name p) (param_schema p) properties)
          (if param_required p then (required_params ++ [param_name p])%list
           else required_params)
      else build_parameters ps' properties required_params
  end.

Definition openai_tool (t : ToolDef) : OpenAITool :=
  let '(properties, required_params) := build_parameters (tool_parameters t) [] [] in
  {| ot_name := tool_name t;
     ot_description :=
       if str_truthy (tool_description t) then tool_description t
       else "Executes the " ++ tool_name t ++ " tool.";
     ot_properties := properties;
     ot_required :=
       match required_params with [] => None | _ => Some required_params end |}.

Definition format_tools_for_openai (c : Cog) : list OpenAITool :=
  flat_map
    (fun server_name =>
       match PyDict.get server_name (mcp_tools c) with
       | None => []
       | Some tool_defs =>
           map openai_tool
               (filter (fun t => str_truthy (tool_name t)) tool_defs)
       end)
    (PyDict.keys (mcp_connections c)).

End Schema.

(** ** Conversation engine: [get_channel_history], [_handle_chat_logic] *)

Module Engine.

Record Config := {
  system_message : string;
  (** [config.get('max_history_length', 20)] *)
  max_history_length : Z;
  (** [self.llm_chat_params] *)
  llm_chat_params : list (string * pyval)
}.

(** A value of the keyword arguments of [chat.completions.create]. *)
Inductive ParamValue :=
| PV (v : pyval)
| PVTools (ts : list Schema.OpenAITool).

Definition ChatParams := list (string * ParamValue).

Definition plain (role : Role) (text : string) : Message :=
  {| role := role; msg_content := Some text; tool_calls := None;
     tool_call_id := None; msg_name := None |}.

Definition system_entry (cfg : Config) : Message :=
  plain system (system_message cfg).

(** [get_channel_history]: the list for the channel and the cog with the
    list stored. [None] stands for the [IndexError] of [h[0]] on an empty
    stored list. *)
Definition get_channel_history (cfg : Config) (c : Cog) (channel_id : Z)
  : option (list Message * Cog) :=
  let max_history_len := max_history_length cfg in
  match PyDict.get channel_id (message_history c) with
  | None =>
      let h := [system_entry cfg] in
      Some (h, with_history c (PyDict.set channel_id h (message_history c)))
  | Some h =>
      let current_len := Z.of_nat (length h) in
      let target_len := max_history_len + 1 in
      if current_len >? target_len then
        let amount_to_remove := current_len - target_len in
        match h with
        | [] => None
        | h0 :: _ =>
            let h' := ([h0] ++ skipn (Z.to_nat (amount_to_remove + 1)) h)%list in
            Some (h', with_history c (PyDict.set channel_id h' (message_history c)))
        end
      else Some (h, c)
  end.

(** [channel_history.append(m)] / [.extend(ms)] on the list stored for the
    channel (the local name is an alias of the stored list). *)
Definition extend_history (channel_id : Z) (ms : list Message) (c : Cog) : Cog :=
  match PyDict.get channel_id (message_history c) with
  | Some h => with_history c (PyDict.set channel_id (h ++ ms)%list (message_history c))
  | None => c
  end.

Definition history_of (channel_id : Z) (c : Cog) : list Message :=
  match PyDict.get channel_id (message_history c) with
  | Some h => h
  | None => []
  end.

(** *** The reasoning backend *)

Record ChunkFunction := {
  chunk_name : option string;
  chunk_arguments : option string
}.

(** [ChoiceDeltaToolCall]; the index is the stream-assigned slot number,
    a non-negative integer. *)
Record ToolCallChunk := {
  index : nat;
  chunk_id : option string;
  chunk_function : option ChunkFunction
}.

Record Delta := {
  delta_content : option string;
  delta_tool_calls : option (list ToolCallChunk)
}.

(** A streamed chunk: [chunk.choices] empty, or [chunk.choices[0].delta]. *)
Inductive Chunk :=
| NoChoices
| Choice (delta : option Delta).

(** [ChatCompletionMessageToolCall] *)
Record RawToolCall := {
  raw_id : string;
  raw_type : string;
  raw_function : option (string * string)
}.

(** [ChatCompletionMessage] *)
Record ResponseMessage := {
  resp_content : option string;
  resp_tool_calls : option (list RawToolCall)
}.

Inductive Failure :=
| OpenAIError (msg : string)
| OtherError (msg : string).

(** [self.llm_client.chat.completions.create(messages=..., **params)]:
    with [stream=True] the chunks of the stream (a failure while iterating
    is a failure of the whole), otherwise [response.choices[0].message], or
    [None] when [choices] is empty. *)
Record Backend := {
  create_stream : list Message -> ChatParams -> Failure + list Chunk;
  create : list Message -> ChatParams -> Failure + option ResponseMessage
}.

(** *** Streaming aggregation *)

Definition empty_slot : ToolCall :=
  {| tc_id := None; tc_type := "function"; fn_name := ""; fn_arguments := "" |}.

Definition opt_text (o : option string) : string :=
  match o with Some s => s | None => "" end.

(** [while len(current_tool_calls) <= idx: current_tool_calls.append(...)] *)
Definition ensure_slot (idx : nat) (slots : list ToolCall) : list ToolCall :=
  (slots ++ repeat empty_slot (S idx - length slots))%list.

(** The three updates of [tc_ref] by one fragment. *)
Definition absorb (tc : ToolCall) (f : ToolCallChunk) : ToolCall :=
  {| tc_id :=
       match chunk_id f with
       | Some i => if str_truthy i then Some i else tc_id tc
       | None => tc_id tc
       end;
     tc_type := tc_type tc;
     fn_name :=
       match chunk_function f with
       | Some fn =>
           match chunk_name fn with
           | Some n => if str_truthy n then fn_name tc ++ n else fn_name tc
           | None => fn_name tc
           end
       | None => fn_name tc
       end;
     fn_arguments :=
       match chunk_function f with
       | Some fn =>
           match chunk_arguments fn with
           | Some a => if str_truthy a then fn_arguments tc ++ a else fn_arguments tc
           | None => fn_arguments tc
           end
       | None => fn_arguments tc
       end |}.

(** [l[i] = x] for [i < len(l)] *)
Fixpoint update_at {A} (i : nat) (g : A -> A) (l : list A) : list A :=
  match l, i with
  | [], _ => []
  | x :: l', O => g x :: l'
  | x :: l', S i' => x :: update_at i' g l'
  end.

(** The body of [for tool_call_chunk in delta.tool_calls]. *)
Definition apply_fragment (slots : list ToolCall) (f : ToolCallChunk)
  : list ToolCall :=
  update_at (index f) (fun tc => absorb tc f) (ensure_slot (index f) slots).

(** The body of [async for chunk in llm_stream] of the first call. *)
Definition absorb_chunk (acc : string * list ToolCall) (ch : Chunk)
  : string * list ToolCall :=
  match ch with
  | NoChoices | Choice None => acc
  | Choice (Some delta) =>
      (fst acc ++ opt_text (delta_content delta),
       match delta_tool_calls delta with
       | Some frags => fold_left apply_fragment frags (snd acc)
       | None => snd acc
       end)
  end.

Definition complete_slot (tc : ToolCall) : bool :=
  match tc_id tc with
  | Some i => str_truthy i && str_truthy (fn_name tc)
  | None => false
  end.

(** The streamed text and [tool_calls_aggregated] of a whole stream. *)
Definition aggregate (chunks : list Chunk) : string * list ToolCall :=
  let '(text, current_tool_calls) := fold_left absorb_chunk chunks ("", []) in
  (text, filter complete_slot current_tool_calls).

(** [tool_calls_aggregated] of a non-streaming response. *)
Definition of_raw (raw : list RawToolCall) : list ToolCall :=
  flat_map
    (fun tc =>
       match raw_function tc with
       | Some (n, a) =>
           if (raw_type tc =? "function")%string && str_truthy (raw_id tc)
              && str_truthy n
           then [{| tc_id := Some (raw_id tc); tc_type := raw_type tc;
                    fn_name := n; fn_arguments := a |}]
           else []
       | None => []
       end)
    raw.

(** *** One turn: [_handle_chat_logic] *)

(** The effects of a turn that leave the cog or change the history. A
    call of [send_long_message] is recorded with its text and is taken to
    return; the requests it makes are the subject of [Delivery]. *)
Inductive Event :=
| Send (text : string)                                  (* send_long_message *)
| Completion (messages : list Message) (params : ChatParams)
| Append (ms : list Message).                (* channel_history.append/extend *)

Section Turn.
Context `{PyLib}.
Variable cfg : Config.
Variable backend : Backend.
(** The tool-provider behind the [n]-th tool call of the turn. *)
Variable invoke : nat -> Router.Invoker.
Variable channel_id : Z.
Variable stream : bool.

(** [{**self.llm_chat_params, 'stream': stream}] *)
Definition base_params : ChatParams :=
  PyDict.set "stream" (PV (PBool stream))
             (map (fun kv => (fst kv, PV (snd kv))) (llm_chat_params cfg)).

Definition first_params (c : Cog) : ChatParams :=
  match Schema.format_tools_for_openai c with
  | [] => base_params
  | openai_tools =>
      PyDict.set "tool_choice" (PV (PStr "auto"))
                 (PyDict.set "tools" (PVTools openai_tools) base_params)
  end.

(** [follow_up_params.pop('tools', None)], [.pop('tool_choice', None)] *)
Definition follow_up_params : ChatParams :=
  PyDict.del "tool_choice" (PyDict.del "tools" base_params).

Inductive FirstReply :=
| Aborted (notice : string)
| Replied (initial_response_content : string)
          (tool_calls_aggregated : list ToolCall).

Definition first_failure (f : Failure) : string :=
  match f with
  | OpenAIError m => "⚠️ Error communicating with AI: " ++ m
  | OtherError m => "⚠️ Unexpected error communicating with AI: " ++ m
  end.

(** [await self.llm_client.chat.completions.create(messages=...,
    user=str(user_id), **params)] without streaming: the call made, and
    the response or the exception it delivers. *)
Definition request (messages : list Message) (params : ChatParams)
  : Event * (Failure + option ResponseMessage) :=
  (Completion messages params, create backend messages params).

(** The same call with streaming, and the chunks of the stream. *)
Definition request_stream (messages : list Message) (params : ChatParams)
  : Event * (Failure + list Chunk) :=
  (Completion messages params, create_stream backend messages params).

(** The first call to the backend and what the code makes of its
    response. *)
Definition first_call (messages : list Message) (params : ChatParams)
  : Event * FirstReply :=
  if stream then
    let '(made, delivered) := request_stream messages params in
    (made,
     match delivered with
     | inl f => Aborted (first_failure f)
     | inr chunks => let '(text, calls) := aggregate chunks in Replied text calls
     end)
  else
    let '(made, delivered) := request messages params in
    (made,
     match delivered with
     | inl f => Aborted (first_failure f)
     | inr None => Aborted "⚠️ Received an empty response from AI."
     | inr (Some response_message) =>
         Replied (opt_text (resp_content response_message))
                 (match resp_tool_calls response_message with
                  | Some raw_tool_calls => of_raw raw_tool_calls
                  | None => []
                  end)
     end).

(** The reply of the first call. *)
Definition first_reply (messages : list Message) (params : ChatParams)
  : FirstReply :=
  snd (first_call messages params).

Definition tool_entry (tool_call : ToolCall) (text : string) : Message :=
  {| role := tool; msg_content := Some text; tool_calls := None;
     tool_call_id := tc_id tool_call; msg_name := Some (fn_name tool_call) |}.

(** [for tool_call in tool_calls_aggregated]: the entries of
    [tool_results_for_history], with the messages sent and the cog after
    the executions. The aggregated calls are dictionaries with all their
    keys, so the two structure checks pass; [execute_tool] returns a value
    on every input, so the handler of the inner [except Exception] is
    entered from the formatter only. *)
Fixpoint run_tool_calls (n : nat) (calls : list ToolCall) (c : Cog)
  : list Message * list Event * Cog :=
  match calls with
  | [] => ([], [], c)
  | tool_call :: rest =>
      let tool_name := fn_name tool_call in
      let arguments_str := fn_arguments tool_call in
      let '(text, sent, c1) :=
        match json_loads arguments_str with
        | Some (PDict tool_args) =>
            let '(tool_result_obj, c1) :=
              Router.execute_tool (invoke n) c tool_name (PDict tool_args) in
            match Formatter.format_calltoolresult_content
                    (Formatter.of_exec tool_name tool_result_obj) with
            | Returns tool_result_content_formatted =>
                (tool_result_content_formatted,
                 Send ("```Tool Call: " ++ tool_name ++ nl ++ "Result:" ++ nl
                       ++ tool_result_content_formatted ++ "```"),
                 c1)
            | Throws exec_e =>
                ("Error during tool execution phase for " ++ dq ++ tool_name
                 ++ dq ++ ": " ++ exec_e,
                 Send ("⚠️ Unexpected Error running tool `" ++ tool_name
                       ++ "`: " ++ exec_e),
                 c1)
            end
        | _ =>
            ("Error: Invalid JSON object arguments provided for tool " ++ dq
             ++ tool_name ++ dq ++ ". LLM sent: " ++ arguments_str,
             Send ("⚠️ Error: Couldn't understand arguments for tool `"
                   ++ tool_name ++ "`. LLM provided malformed JSON: `"
                   ++ arguments_str ++ "`"),
             c)
        end in
      let '(entries, evs, c2) := run_tool_calls (S n) rest c1 in
      (tool_entry tool_call text :: entries, sent :: evs, c2)
  end.

(** [follow_up_text += chunk.choices[0].delta.content or ''] over the
    follow-up stream; a chunk without choices or delta raises. *)
Fixpoint follow_up_stream_text (chunks : list Chunk) (acc : string)
  : Failure + string :=
  match chunks with
  | [] => inr acc
  | Choice (Some delta) :: rest =>
      follow_up_stream_text rest (acc ++ opt_text (delta_content delta))
  | NoChoices :: _ => inl (OtherError "list index out of range")
  | Choice None :: _ =>
      inl (OtherError "'NoneType' object has no attribute 'content'")
  end.

(** The follow-up call to the backend and the text it gives. *)
Definition follow_up_call (messages : list Message)
  : Event * (Failure + string) :=
  if stream then
    let '(made, delivered) := request_stream messages follow_up_params in
    (made,
     match delivered with
     | inl f => inl f
     | inr chunks => follow_up_stream_text chunks ""
     end)
  else
    let '(made, delivered) := request messages follow_up_params in
    (made,
     match delivered with
     | inl f => inl f
     | inr None => inr ""
     | inr (Some follow_up_message) =>
         inr (opt_text (resp_content follow_up_message))
     end).

(** [follow_up_text] after the follow-up call. *)
Definition follow_up_text (messages : list Message) : Failure + string :=
  snd (follow_up_call messages).

Definition follow_up_failure (f : Failure) : string :=
  match f with
  | OpenAIError m => "⚠️ Error getting follow-up response from AI: " ++ m
  | OtherError m => "⚠️ Unexpected error getting follow-up AI response: " ++ m
  end.

(** The follow-up call after the tool results and what follows it. *)
Definition follow_up (results : list Message) (c : Cog) : Cog * list Event :=
  match results with
  | [] => (c, [])
  | _ :: _ =>
      let c1 := extend_history channel_id results c in
      let messages := history_of channel_id c1 in
      let '(made, delivered) := follow_up_call messages in
      let call := [Append results; made] in
      match delivered with
      | inl f => (c1, call ++ [Send (follow_up_failure f)])%list
      | inr text =>
          if strip_truthy text then
            let reply := plain assistant text in
            (extend_history channel_id [reply] c1,
             call ++ [Send text; Append [reply]])%list
          else (c1, call)
      end
  end.

Definition assistant_message (text : string) (calls : list ToolCall) : Message :=
  {| role := assistant;
     msg_content := if strip_truthy text then Some text else None;
     tool_calls := match calls with [] => None | _ => Some calls end;
     tool_call_id := None; msg_name := None |}.

Definition generic_failure : string :=
  "An unexpected error occurred while processing your request. Please check the logs.".

Definition nothing_to_do : string :=
  "I received your message but didn't have anything specific to add or do.".

(** [_handle_chat_logic(sendable, message, channel_id, user_id, stream)]:
    the cog after the turn and the effects of the turn, in order. *)
Definition handle_chat_logic (c : Cog) (message : string) : Cog * list Event :=
  match get_channel_history cfg c channel_id with
  | None => (c, [Send generic_failure])
  | Some (_, c0) =>
      let asked := plain user message in
      let c1 := extend_history channel_id [asked] c0 in
      let params := first_params c1 in
      let messages := history_of channel_id c1 in
      let '(made, reply) := first_call messages params in
      let call := [Append [asked]; made] in
      match reply with
      | Aborted notice => (c1, call ++ [Send notice])%list
      | Replied text calls =>
          let said := if strip_truthy text then [Send text] else [] in
          match strip_truthy text, calls with
          | false, [] => (c1, call ++ [Send nothing_to_do])%list
          | _, _ =>
              let answer := assistant_message text calls in
              let c2 := extend_history channel_id [answer] c1 in
              let '(results, sent, c3) := run_tool_calls 0 calls c2 in
              let '(c4, after) := follow_up results c3 in
              (c4, call ++ said ++ [Append [answer]] ++ sent ++ after)%list
          end
      end
  end.
End Turn.

End Engine.

(** ** Life cycle: [cog_load], [cog_unload], and the steps of the system *)

Module Lifecycle.

(** [cog_load]: [self._shutdown_event.clear()] *)
Definition cog_load (c : Cog) : Cog := with_shutdown c false.

(** [cog_unload], up to its wait: [self._shutdown_event.set()] *)
Definition cog_unload_signal (c : Cog) : Cog := with_shutdown c true.

(** [cog_unload], after its wait: [self.mcp_connections.clear()],
    [self.mcp_tools.clear()] *)
Definition cog_unload_clear (c : Cog) : Cog := with_registry c [] [].

(** Every server name has a connection exactly when it has a tool list. *)
Definition keys_agree (c : Cog) : Prop :=
  forall s : string,
    PyDict.mem s (mcp_connections c) = PyDict.mem s (mcp_tools c).

(** One uninterrupted piece of code of the cog, run by any of its tasks:
    the cog before and after. *)
Inductive step `{PyLib} : Cog -> Cog -> Prop :=
| step_load c : step c (cog_load c)
| step_start nm u c : step c (snd (Supervisor.start nm u c))
| step_resume t c w t' c' :
    Supervisor.resume t c w = Some (t', c') -> step c c'
| step_settle c server o : step c (snd (Router.settle c server o))
| step_turn cfg backend invoke channel_id stream c message :
    step c (fst (Engine.handle_chat_logic cfg backend invoke channel_id
                                          stream c message))
| step_unload_signal c : step c (cog_unload_signal c)
| step_unload_clear c : step c (cog_unload_clear c).

(** The cogs at the suspension points of any interleaving. *)
Inductive reachable `{PyLib} : Cog -> Prop :=
| reach_new : reachable new_cog
| reach_step c c' : reachable c -> step c c' -> reachable c'.

End Lifecycle.

(** ** Closed forms and sample data used by the properties *)

(** The delay after [k] doublings from the initial 15 seconds. *)
Definition nth_delay (k : nat) : Z := Z.min (15 * 2 ^ Z.of_nat k) 300.

(** The delays of [n] consecutive waits when the first one lasts [d]. *)
Fixpoint delays_from (d : Z) (n : nat) : list Z :=
  match n with
  | O => []
  | S n' => d :: delays_from (Z.min (d * 2) Supervisor.max_reconnect_delay) n'
  end.

(** A concrete server, used to evaluate the code. *)
Module Sample.

Definition lookup : ToolDef :=
  {| tool_name := "lookup"; tool_description := "Looks a word up";
     tool_parameters :=
       [{| param_name := "word"; parameter_type := "String";
           param_description := ""; param_required := true;
           param_default := PNone; param_enum := None |}] |}.

(** The task of server [srv], just created on a new cog. *)
Definition task0 : Supervisor.Task :=
  fst (Supervisor.start "srv" "http://srv/sse" new_cog).

(** The same task parked in [Ready] after a successful listing, and the
    cog with its connection and tools published. *)
Definition ready : Supervisor.Task * Cog :=
  match Supervisor.resume task0 new_cog
          (Supervisor.AttemptDone (Supervisor.Listed [lookup])) with
  | Some r => r
  | None => (task0, new_cog)
  end.

Definition broken : Router.Invoker := fun _ _ _ => Router.ConnectionFault.

(** A second server, [aux] with the tool [clock], supervised beside
    [srv]; and the cog after a connection fault during a call on [srv]. *)
Definition clock : ToolDef :=
  {| tool_name := "clock"; tool_description := "Tells the time";
     tool_parameters := [] |}.

Definition aux0 : Supervisor.Task * Cog :=
  Supervisor.start "aux" "http://aux/sse" (snd ready).

Definition both : Supervisor.Task * Cog :=
  match Supervisor.resume (fst aux0) (snd aux0)
          (Supervisor.AttemptDone (Supervisor.Listed [clock])) with
  | Some r => r
  | None => aux0
  end.

Definition faulted : Cog :=
  snd (Router.settle (snd both) "srv" Router.ConnectionFault).

(** A library whose [json] knows one document. *)
Definition lib : PyLib :=
  {| float_str := fun _ => "0.0";
     container_str := fun _ => "{}";
     str_raises := fun _ => None;
     json_dumps := fun _ => DumpOk "{}";
     json_loads := fun s => if (s =? "{}")%string then Some (PDict []) else None |}.

(** A library whose [json.dumps] raises [ValueError]. *)
Definition cyclic : PyLib :=
  {| float_str := fun _ => "0.0";
     container_str := fun _ => "[[...]]";
     str_raises := fun _ => None;
     json_dumps := fun _ => DumpOther "Circular reference detected";
     json_loads := fun _ => None |}.

(** An object whose [str()] has 300 characters. *)
Definition long_text : string := string_of_list_ascii (repeat "x"%char 300).

(** A text of [n] characters of two bytes each. *)
Definition accents (n : nat) : string := String.concat "" (repeat "é" n).

(** A tab, a no-break space (U+00A0) and an ideographic space (U+3000). *)
Definition spaces : string :=
  string_of_list_ascii
    (map ascii_of_nat [9; 194; 160; 227; 128; 128]%nat).

(** A cap of two entries and a stored history of six messages. *)
Definition cfg2 : Engine.Config :=
  {| Engine.system_message := "You are a helpful AI assistant.";
     Engine.max_history_length := 2;
     Engine.llm_chat_params :=
       [("model", PStr "local-model"); ("temperature", PFloat 0.5%float)] |}.

Definition sys : Message := Engine.system_entry cfg2.
Definition u1 : Message := Engine.plain user "u1".
Definition a1 : Message := Engine.plain assistant "a1".
Definition u2 : Message := Engine.plain user "u2".
Definition a2 : Message := Engine.plain assistant "a2".
Definition u3 : Message := Engine.plain user "u3".

Definition cog6 : Cog :=
  with_history new_cog [(7, [sys; u1; a1; u2; a2; u3])].

(** The same history on the cog where [srv] is connected. *)
Definition cog6_ready : Cog :=
  with_history (snd ready) [(7, [sys; u1; a1; u2; a2; u3])].

(** A backend that asks for one [lookup] call while tools are offered and
    answers in plain text otherwise. *)
Definition asks_lookup : Engine.ResponseMessage :=
  {| Engine.resp_content := None;
     Engine.resp_tool_calls :=
       Some [{| Engine.raw_id := "call_1"; Engine.raw_type := "function";
                Engine.raw_function := Some ("lookup", "{}") |}] |}.

Definition says_done : Engine.ResponseMessage :=
  {| Engine.resp_content := Some "done"; Engine.resp_tool_calls := None |}.

Definition backend : Engine.Backend :=
  {| Engine.create_stream := fun _ _ => inr [];
     Engine.create := fun _ params =>
       if PyDict.mem "tools" params then inr (Some asks_lookup)
       else inr (Some says_done) |}.

(** A tool-provider that answers every call with the text block "42". *)
Definition answers42 : nat -> Router.Invoker :=
  fun _ _ _ _ =>
    Router.Returned
      {| content := PDict [("type", PStr "text"); ("text", PStr "42")];
         error_code := Some 0 |}.



End Sample.

(** ** What the history properties speak of *)

Module History.

(** Every stored history starts with the system message. *)
Definition well_formed (cfg : Engine.Config) (c : Cog) : Prop :=
  forall channel_id h,
    PyDict.get channel_id (message_history c) = Some h ->
    exists rest, h = Engine.system_entry cfg :: rest.

(** The histories of the other channels are the same in [c] and [c']. *)
Definition others_kept (channel_id : Z) (c c' : Cog) : Prop :=
  forall other,
    other <> channel_id ->
    PyDict.get other (message_history c')
    = PyDict.get other (message_history c).

(** From [c] to [c'] the history of the channel only grew at its end. *)
Definition grows (channel_id : Z) (c c' : Cog) : Prop :=
  others_kept channel_id c c'
  /\ exists h ms,
      PyDict.get channel_id (message_history c) = Some h
      /\ PyDict.get channel_id (message_history c') = Some (h ++ ms)%list.

(** What a read keeps of a stored history under the cap: its first
    message and the last [cap] of the others, in their order. *)
Definition kept (cap : Z) (h : list Message) : list Message :=
  match h with
  | [] => []
  | h0 :: rest => h0 :: skipn (Z.to_nat (Z.of_nat (length rest) - cap)) rest
  end.

(** What a read gives for a channel: the system message alone when the
    channel is new, and what is kept of its stored history otherwise. *)
Definition read (cfg : Engine.Config) (channel_id : Z) (c : Cog)
  : list Message :=
  match PyDict.get channel_id (message_history c) with
  | None => [Engine.system_entry cfg]
  | Some old => kept (Engine.max_history_length cfg) old
  end.

End History.

(** ** What the aggregation property speaks of *)

(** The slot table as the specification words it: slot [i] is made of the
    fragments addressed to [i], in stream order. *)
Module Slots.
Import Engine.

(** The tool-call fragments of a stream, in order. *)
Definition fragments (chunks : list Chunk) : list ToolCallChunk :=
  flat_map
    (fun ch =>
       match ch with
       | Choice (Some delta) =>
           match delta_tool_calls delta with Some fs => fs | None => [] end
       | _ => []
       end)
    chunks.

(** The text fragments of a stream, concatenated in order. *)
Definition streamed_text (chunks : list Chunk) : string :=
  String.concat ""
    (map (fun ch =>
            match ch with
            | Choice (Some delta) => opt_text (delta_content delta)
            | _ => ""
            end)
         chunks).

Definition name_part (f : ToolCallChunk) : string :=
  match chunk_function f with
  | Some fn => opt_text (chunk_name fn)
  | None => ""
  end.

Definition arguments_part (f : ToolCallChunk) : string :=
  match chunk_function f with
  | Some fn => opt_text (chunk_arguments fn)
  | None => ""
  end.

(** The id a fragment provides, if any. *)
Definition id_part (f : ToolCallChunk) : option string :=
  match chunk_id f with
  | Some i => if str_truthy i then Some i else None
  | None => None
  end.

Definition addressed (i : nat) (frags : list ToolCallChunk) : list ToolCallChunk :=
  filter (fun f => (index f =? i)%nat) frags.

(** The last id provided, starting from [id0]. *)
Definition last_id (id0 : option string) (frags : list ToolCallChunk)
  : option string :=
  fold_left (fun acc f => match id_part f with Some i => Some i | None => acc end)
            frags id0.

Definition slot_of (i : nat) (frags : list ToolCallChunk) : ToolCall :=
  {| tc_id := last_id None (addressed i frags);
     tc_type := "function";
     fn_name := String.concat "" (map name_part (addressed i frags));
     fn_arguments := String.concat "" (map arguments_part (addressed i frags)) |}.

(** One more than the largest index addressed, 0 without fragments. *)
Definition slot_count (frags : list ToolCallChunk) : nat :=
  fold_left (fun n f => Nat.max n (S (index f))) frags O.

Definition slot_table (frags : list ToolCallChunk) : list ToolCall :=
  map (fun i => slot_of i frags) (seq 0 (slot_count frags)).

(** A slot is finalized when its id and its name are both non-empty. *)
Definition finalized (tc : ToolCall) : bool :=
  match tc_id tc with
  | Some i => negb (i =? "")%string && negb (fn_name tc =? "")%string
  | None => false
  end.

(** The stream of the example: slot 0 gets id [a], the name in two parts
    and the arguments in two parts; slot 1 gets a name and no id. *)
Definition fragment (i : nat) (id name args : option string) : ToolCallChunk :=
  {| index := i; chunk_id := id;
     chunk_function := Some {| chunk_name := name; chunk_arguments := args |} |}.

Definition tools_delta (fs : list ToolCallChunk) : Chunk :=
  Choice (Some {| delta_content := None; delta_tool_calls := Some fs |}).

Definition weather_stream : list Chunk :=
  [ tools_delta [fragment 0 (Some "a") (Some "get") None];
    tools_delta [fragment 0 None (Some "Weather") (Some ("{" ++ dq ++ "city" ++ dq ++ ":"));
                 fragment 1 None (Some "getTime") None];
    NoChoices;
    tools_delta [fragment 0 None None (Some (dq ++ "NY" ++ dq ++ "}"));
                 fragment 1 None None (Some "{}")] ].

Definition weather_call : ToolCall :=
  {| tc_id := Some "a"; tc_type := "function"; fn_name := "getWeather";
     fn_arguments := "{" ++ dq ++ "city" ++ dq ++ ":" ++ dq ++ "NY" ++ dq ++ "}" |}.

End Slots.

(** ** What the follow-up property speaks of *)

Module Trace.
Import Engine.

(** The calls to the reasoning backend among the effects of a turn, with
    the messages and the parameters of each. *)
Definition completions (evs : list Event) : list (list Message * ChatParams) :=
  flat_map (fun e => match e with Completion m p => [(m, p)] | _ => [] end) evs.

(** The messages added to the history, in order. *)
Definition appended (evs : list Event) : list Message :=
  flat_map (fun e => match e with Append ms => ms | _ => [] end) evs.

Definition is_tool (m : Message) : bool :=
  match role m with tool => true | _ => false end.

(** The [tool] entries added to the history. *)
Definition tool_entries (evs : list Event) : list Message :=
  filter is_tool (appended evs).

(** The text that the backend gives to a call with these messages and
    parameters: the [content] of the message of the response, or the
    [content] of the chunks of the stream, one after the other. *)
Definition response_text (backend : Backend) (stream : bool)
           (messages : list Message) (params : ChatParams) : Failure + string :=
  if stream then
    match create_stream backend messages params with
    | inl f => inl f
    | inr chunks => follow_up_stream_text chunks ""
    end
  else
    match create backend messages params with
    | inl f => inl f
    | inr None => inr ""
    | inr (Some response) => inr (opt_text (resp_content response))
    end.

(** What a turn does with the text of the follow-up call. *)
Definition after_follow_up (delivered : Failure + string) : list Event :=
  match delivered with
  | inl f => [Send (follow_up_failure f)]
  | inr text =>
      if strip_truthy text then [Send text; Append [plain assistant text]]
      else []
  end.

End Trace.

(** ** What the resolution properties speak of *)

Module Resolution.

(** Server [s] has a tool list that names the tool:
    [s in self.mcp_tools and any(tool.name == tn for tool in self.mcp_tools[s])]. *)
Definition serves (c : Cog) (s tn : string) : bool :=
  match PyDict.get s (mcp_tools c) with
  | Some ts => Router.lists_tool tn ts
  | None => false
  end.

(** The entries of server [s] in the two registries. *)
Definition entries (c : Cog) (s : string)
  : option MCPClient * option (list ToolDef) :=
  (PyDict.get s (mcp_connections c), PyDict.get s (mcp_tools c)).

(** From [c] to [c'] no entry was added or replaced and the shutdown event
    was not touched: each server has its two entries as before, or none. *)
Definition only_removed (c c' : Cog) : Prop :=
  shutdown_event c' = shutdown_event c
  /\ forall s, entries c' s = entries c s \/ entries c' s = (None, None).

(** Two servers, [alpha] registered before [beta], both with [lookup]. *)
Definition two_servers : Cog :=
  with_registry new_cog
    [("alpha", {| client_url := "http://alpha/sse" |});
     ("beta", {| client_url := "http://beta/sse" |})]
    [("beta", [Sample.lookup]); ("alpha", [Sample.lookup])].

End Resolution.

(** ** A task among the others *)

Module Interleaving.
Import Supervisor.

(** The phases of a task that is resumed among other tasks: each wake finds
    the cog as the others have left it, whatever that is. *)
Fixpoint run_within (t : Task) (steps : list (Cog * Wake)) : list Phase * Task :=
  match steps with
  | [] => ([], t)
  | (c, w) :: rest =>
      match resume t c w with
      | Some (t', _) =>
          let '(ps, r) := run_within t' rest in (phase t' :: ps, r)
      | None => run_within t rest
      end
  end.

Definition in_bounds (d : Z) : Prop := 15 <= d <= max_reconnect_delay.

(** From cog [c], the task and cog [p] differ from a task named [nm] with
    url [u] and from [c] at most in the two entries of [nm]. *)
Definition own_key_only (nm u : string) (c : Cog) (p : Task * Cog) : Prop :=
  name (fst p) = nm
  /\ url (fst p) = u
  /\ (forall s, s <> nm -> Resolution.entries (snd p) s = Resolution.entries c s)
  /\ shutdown_event (snd p) = shutdown_event c
  /\ message_history (snd p) = message_history c.

End Interleaving.

(** ** What the schema properties speak of *)

Module SchemaSpec.
Import Schema.

(** What the loop over the parameters keeps true of its two accumulators:
    distinct property names, each non-empty and with the schema of a
    parameter of that name, and required names among the property names. *)
Definition built (ps : list ToolParameter)
           (acc : list (string * ParamSchema) * list string) : Prop :=
  NoDup (PyDict.keys (fst acc))
  /\ (forall k sch, In (k, sch) (fst acc) ->
                    k <> "" /\ exists p, In p ps /\ param_name p = k
                                         /\ sch = param_schema p)
  /\ (forall k, In k (snd acc) -> In k (PyDict.keys (fst acc))).

(** Tool [td] is in the tool list of a connected server and has a name. *)
Definition published (c : Cog) (td : ToolDef) : Prop :=
  exists server client tool_defs,
    In (server, client) (mcp_connections c)
    /\ PyDict.get server (mcp_tools c) = Some tool_defs
    /\ In td tool_defs
    /\ tool_name td <> "".

End SchemaSpec.

(** ** What the tool-loop properties speak of *)

Module ToolLoop.
Import Engine.





End ToolLoop.

(** ** Message delivery: [send_long_message] *)

Module Delivery.

(** [commands.Context], or [discord.Interaction] with the value of
    [sendable.response.is_done()] when the function is entered. *)
Inductive Sendable :=
| Context
| Interaction (done : bool).

Inductive Endpoint :=
| ContextSend            (* sendable.send *)
| ResponseSendMessage    (* sendable.response.send_message *)
| FollowupSend.          (* sendable.followup.send *)

(** What a request to Discord does: it returns, it raises
    [discord.HTTPException] with a code, or it raises another exception. *)
Inductive Outcome :=
| Sent
| HTTPException (code : Z)
| OtherException.

(** One request to Discord: where it went, what it carried, and what it
    did. *)
Record Attempt := {
  endpoint : Endpoint;
  text : string;
  as_ephemeral : bool;
  outcome : Outcome
}.

(** The network: what the [k]-th request of a call does. *)
Definition Wire := nat -> Outcome.

(** How a call ends: it returns, or an exception leaves it. *)
Inductive Exit := Completed | Escaped.

Definition max_length : nat := 2000.

(** [content_str[start:start + max_length]] *)
Definition slice (start : nat) (content_str : string) : string :=
  py_slice start (start + max_length) content_str.

Definition error_msg (code : Z) : string :=
  "Error sending part of the message (Code: " ++ str_int code
  ++ "). Please check channel permissions or message content.".

(** Where a chunk of an interaction goes and whether it is ephemeral. The
    response is answered through [send_message] only while it is not done,
    so [InteractionResponded] is not among the outcomes. *)
Definition route (followup ephemeral : bool) (total start : nat)
           (first_chunk done : bool) : Endpoint * bool :=
  let use_followup := followup || (0 <? start)%nat || done in
  let can_be_ephemeral :=
    (use_followup && first_chunk)
    || (negb use_followup && (total <=? max_length)%nat) in
  let send_ephemeral := ephemeral && can_be_ephemeral in
  if use_followup then
    if negb done then (ResponseSendMessage, send_ephemeral)
    else (FollowupSend, send_ephemeral)
  else (ResponseSendMessage, send_ephemeral).

(** The handler of [discord.HTTPException]: the notice to the user, sent
    for an interaction only; whatever this request does is ignored
    ([except Exception: pass]). *)
Definition notice (wire : Wire) (interaction done : bool) (code : Z) (k : nat)
  : list Attempt :=
  if interaction then
    [{| endpoint := if done then FollowupSend else ResponseSendMessage;
        text := error_msg code; as_ephemeral := true; outcome := wire k |}]
  else [].

(** The [while start < len(content_str)] loop; [k] counts the requests
    made so far. An [HTTPException] ends the loop after the notice; any
    other exception of a request leaves the function at once. The pause
    between chunks is not modelled. *)
Fixpoint send_chunks (wire : Wire) (interaction followup ephemeral : bool)
         (content_str : string) (fuel start k : nat) (first_chunk done : bool)
  : list Attempt * Exit :=
  match fuel with
  | O => ([], Completed)
  | S fuel' =>
      if (start <? py_len content_str)%nat then
        let chunk := slice start content_str in
        let '(ep, eph) :=
          if interaction
          then route followup ephemeral (py_len content_str) start
                     first_chunk done
          else (ContextSend, false) in
        let request :=
          {| endpoint := ep; text := chunk; as_ephemeral := eph;
             outcome := wire k |} in
        match wire k with
        | Sent =>
            let '(more, exit) :=
              send_chunks wire interaction followup ephemeral content_str fuel'
                (start + max_length) (S k) false
                (done || match ep with ResponseSendMessage => true | _ => false end) in
            (request :: more, exit)
        | HTTPException code =>
            (request :: notice wire interaction done code (S k), Completed)
        | OtherException => ([request], Escaped)
        end
      else ([], Completed)
  end.

(** [send_long_message(sendable, content, followup, ephemeral)]: the
    requests it makes, in order, and how it ends. Every turn of the loop
    moves [start] forward, so the length of the content bounds the number
    of turns. *)
Definition send_long_message (wire : Wire) (sendable : Sendable)
           (content : string) (followup ephemeral : bool) : list Attempt * Exit :=
  if strip_truthy content then
    match sendable with
    | Context =>
        send_chunks wire false followup ephemeral content
                    (py_len content) 0 0 true false
    | Interaction done =>
        send_chunks wire true followup ephemeral content
                    (py_len content) 0 0 true done
    end
  else ([], Completed).

(** A network without failures. *)
Definition reliable : Wire := fun _ => Sent.

End Delivery.

(** ** Start-up: [__init__] and [cog_load] *)

Module Loader.

Definition ALLOWED_FOR_LLM_CHAT : list string :=
  ["model"; "temperature"; "max_tokens"; "top_p"].

(** [k in ALLOWED_FOR_LLM_CHAT] *)
Definition allowed (k : string) : bool :=
  existsb (fun a => (a =? k)%string) ALLOWED_FOR_LLM_CHAT.

(** [d.update(other)] *)
Definition update {V} (d other : list (string * V)) : list (string * V) :=
  fold_left (fun acc kv => PyDict.set (fst kv) (snd kv) acc) other d.

(** [self.llm_chat_params] as [__init__] leaves it: the defaults, updated
    with the allowed keys of the [llm_endpoint] section. *)
Definition init_chat_params (llm_endpoint_config : list (string * pyval))
  : list (string * pyval) :=
  update [("model", PStr "local-model");
          ("temperature", PFloat 0x1.3333333333333p-2%float)]
         (filter (fun kv => allowed (fst kv)) llm_endpoint_config).

(** An [asyncio.Task] running [_manage_mcp_connection(url, name)];
    [handle_done] is [task.done()]. *)
Record Handle := {
  handle_name : string;
  handle_url : string;
  handle_done : bool
}.

(** [asyncio.create_task(self._manage_mcp_connection(url, name), ...)] *)
Definition create_task (url name : string) : Handle :=
  {| handle_name := name; handle_url := url; handle_done := false |}.

(** The name and url of a server entry of the configuration, when the
    entry is a dict with string values under ['name'] and ['url']. *)
Definition valid_entry (server : pyval) : option (string * string) :=
  match server with
  | PDict d =>
      match PyDict.get "url" d, PyDict.get "name" d with
      | Some (PStr url), Some (PStr name) => Some (name, url)
      | _, _ => None
      end
  | _ => None
  end.

(** The [for server in mcp_servers] loop of [cog_load] on
    [self._connection_tasks], with [active_task_count]. *)
Fixpoint load_servers (mcp_servers : list pyval)
         (tasks : list (string * Handle)) (active_task_count : nat)
  : list (string * Handle) * nat :=
  match mcp_servers with
  | [] => (tasks, active_task_count)
  | server :: rest =>
      match valid_entry server with
      | Some (name, url) =>
          let fresh :=
            match PyDict.get name tasks with
            | None => true
            | Some task => handle_done task
            end in
          if fresh
          then load_servers rest (PyDict.set name (create_task url name) tasks)
                            (S active_task_count)
          else load_servers rest tasks (S active_task_count)
      | None => load_servers rest tasks active_task_count
      end
  end.

(** [cog_load], from [config['mcp']['server']]: the tasks and the cog
    after it. The shutdown event is cleared first. *)
Definition cog_load (mcp_servers : list pyval) (tasks : list (string * Handle))
           (c : Cog) : list (string * Handle) * Cog :=
  (fst (load_servers mcp_servers tasks 0), Lifecycle.cog_load c).

(** A task that is still running. *)
Definition running (tasks : list (string * Handle)) (name : string) : bool :=
  match PyDict.get name tasks with
  | Some task => negb (handle_done task)
  | None => false
  end.

(** A configuration entry for server [srv] and one without url. *)
Definition srv_entry : pyval :=
  PDict [("name", PStr "srv"); ("url", PStr "http://srv/sse")].

Definition no_url_entry : pyval := PDict [("name", PStr "lost")].

End Loader.

(** ** Status query: [mcp_list_slash] *)

Module StatusList.

Inductive Status :=
| ConnectedListed
| ConnectedNoTools
| Connecting
| Disconnected
| UnknownState.

(** [f'{status_icon} {status}'] *)
Definition status_text (st : Status) : string :=
  match st with
  | ConnectedListed => "🟢 Connected & Tools Listed"
  | ConnectedNoTools => "🟡 Connected (Listing Tools Failed?)"
  | Connecting => "🟠 Connecting / Initializing..."
  | Disconnected => "🔴 Disconnected / Unavailable"
  | UnknownState => "⚪ Unknown State (Stale Data?)"
  end.

(** The [if]/[elif] chain on one server name. [configured] holds the names
    of the configuration, [{s['name'] for s in ... if 'name' in s}]. *)
Definition status_of (configured : list string)
           (tasks : list (string * Loader.Handle)) (c : Cog) (name : string)
  : Status :=
  let connected := PyDict.mem name (mcp_connections c) in
  let with_tools := PyDict.mem name (mcp_tools c) in
  if connected && with_tools then ConnectedListed
  else if connected && negb with_tools then ConnectedNoTools
  else if Loader.running tasks name then Connecting
  else if existsb (String.eqb name) configured then Disconnected
  else UnknownState.

Definition tool_limit : nat := 7.

(** The line of a displayed tool; [i] is its index in the list. *)
Definition tool_line (i : nat) (t : ToolDef) : string :=
  let shown_name :=
    if str_truthy (tool_name t) then tool_name t
    else "Unnamed Tool " ++ str_int (Z.of_nat (i + 1)) in
  let desc :=
    if str_truthy (tool_description t) then tool_description t
    else "No description" in
  "    - `" ++ shown_name ++ "`: " ++ py_take 100 desc
  ++ (if (100 <? py_len desc)%nat then "..." else "") ++ nl.

Definition more_line (remaining : Z) : string :=
  "    - ... and " ++ str_int remaining ++ " more" ++ nl.

(** [for i, tool in enumerate(tools)]: the lines added to the message;
    [total] is [len(tools)] of the whole list. *)
Fixpoint preview (tools : list ToolDef) (total i displayed_count : nat)
  : list string :=
  match tools with
  | [] => []
  | t :: rest =>
      if (displayed_count <? tool_limit)%nat then
        tool_line i t :: preview rest total (S i) (S displayed_count)
      else if (displayed_count =? tool_limit)%nat then
        let remaining := Z.of_nat total - Z.of_nat tool_limit in
        if 0 <? remaining then [more_line remaining] else []
      else preview rest total (S i) displayed_count
  end.

(** The lines of one server. *)
Definition server_lines (configured : list string)
           (tasks : list (string * Loader.Handle)) (c : Cog) (name : string)
  : list string :=
  ("- **" ++ name ++ "**: " ++ status_text (status_of configured tasks c name)
   ++ nl)
  :: match PyDict.get name (mcp_tools c) with
     | None => []
     | Some [] => ["  *Connected, but server reported no tools.*" ++ nl]
     | Some tools =>
         ("  **Tools (" ++ str_int (Z.of_nat (length tools)) ++ "):**" ++ nl)
         :: preview tools (length tools) 0 0
     end
  ++ [nl].

(** [sorted(...)] of distinct strings, by insertion. *)
Fixpoint insert (x : string) (l : list string) : list string :=
  match l with
  | [] => [x]
  | y :: l' => if String.leb x y then x :: l else y :: insert x l'
  end.

Definition sorted (l : list string) : list string := fold_right insert [] l.

(** [sorted(list(configured.union(connected).union(with_tools)))] *)
Definition all_server_names (configured : list string) (c : Cog) : list string :=
  sorted (nodup string_dec
                (configured ++ PyDict.keys (mcp_connections c)
                 ++ PyDict.keys (mcp_tools c))).

(** [mcp_list_slash]: the text it sends (as a follow-up). *)
Definition mcp_list (configured : list string)
           (tasks : list (string * Loader.Handle)) (c : Cog) : string :=
  match mcp_connections c, mcp_tools c with
  | [], [] =>
      match tasks with
      | [] => "No MCP servers are configured."
      | _ :: _ =>
          if forallb (fun nt => Loader.handle_done (snd nt)) tasks
          then "MCP servers are configured, but none are currently connected. Check server status and bot logs."
          else "MCP servers are configured and attempting to connect/reconnect. Please wait a moment and try again."
      end
  | _, _ =>
      match all_server_names configured c with
      | [] => "No MCP servers found in configuration or current state."
      | names =>
          py_strip ("**MCP Server Status & Tools:**" ++ nl ++ nl
                 ++ String.concat ""
                      (flat_map (server_lines configured tasks c) names))
      end
  end.

End StatusList.

(** ** The chat commands: [chat_command] and [chat_slash] *)

Module Commands.
Import Engine.

Definition blank_notice : string :=
  "⚠️ Please provide a message to chat about!".

Section Chat.
Context `{PyLib}.
Variable cfg : Config.
Variable backend : Backend.
Variable invoke : nat -> Router.Invoker.

(** [chat_command(ctx, message)], with [channel_id = ctx.channel.id]: a
    message that is blank after stripping is answered with [ctx.send] and
    nothing else happens; any other message is one turn with
    [stream=False]. *)
Definition chat_command (channel_id : Z) (c : Cog) (message : string)
  : Cog * list Event :=
  if negb (strip_truthy message) then (c, [Send blank_notice])
  else handle_chat_logic cfg backend invoke channel_id false c message.

(** [chat_slash(interaction, message)], with
    [channel_id = interaction.channel_id]: the blank message is answered
    with [interaction.response.send_message]; otherwise the response is
    deferred and the turn runs with [stream=False]. *)
Definition chat_slash (channel_id : Z) (c : Cog) (message : string)
  : Cog * list Event :=
  if negb (strip_truthy message) then (c, [Send blank_notice])
  else handle_chat_logic cfg backend invoke channel_id false c message.
End Chat.

(** The texts sent to the user in a trace. *)
Definition sent (evs : list Event) : list string :=
  flat_map (fun e => match e with Send text => [text] | _ => [] end) evs.

End Commands.

(** ** What the character properties speak of *)

Module Text.

Fixpoint all_continuation (s : string) : bool :=
  match s with
  | EmptyString => true
  | String c s' => is_continuation c && all_continuation s'
  end.

(** A character: one byte and the continuation bytes after it. *)
Definition is_char (g : string) : Prop :=
  exists c t, g = String c t /\ all_continuation t = true.

(** A character that can follow another one. *)
Definition proper (g : string) : Prop :=
  is_char g /\ starts_with_continuation g = false.

(** A list of characters as [chars] gives them. *)
Definition split_ok (gs : list string) : Prop :=
  match gs with
  | [] => True
  | g :: rest => is_char g /\ Forall proper rest
  end.

End Text.

(** * Properties *)

Unset Implicit Arguments.

(** ** Dictionaries *)

Section DictFacts.
Context {K V : Type} `{KeyEq K}.

Lemma keqb_refl (k : K) : keqb k k = true.
Proof. now apply keqb_eq. Qed.

Lemma keqb_neq (a b : K) : a <> b -> keqb a b = false.
Proof.
  intros Hne. destruct (keqb a b) eqn:E; [|reflexivity].
  apply keqb_eq in E. contradiction.
Qed.

Lemma keqb_sym (a b : K) : keqb a b = keqb b a.
Proof.
  destruct (keqb a b) eqn:E.
  - apply keqb_eq in E. subst. symmetry. apply keqb_refl.
  - destruct (keqb b a) eqn:E'; [|reflexivity].
    apply keqb_eq in E'. subst. now rewrite keqb_refl in E.
Qed.

Lemma get_set (k k' : K) (v : V) (d : list (K * V)) :
  PyDict.get k' (PyDict.set k v d)
  = if keqb k' k then Some v else PyDict.get k' d.
Proof.
  induction d as [|[k0 v0] d IH]; simpl.
  - destruct (keqb k' k); reflexivity.
  - destruct (keqb k k0) eqn:E; simpl.
    + apply keqb_eq in E. subst k0. destruct (keqb k' k); reflexivity.
    + rewrite IH. destruct (keqb k' k0) eqn:E0; [|reflexivity].
      apply keqb_eq in E0. subst k0.
      rewrite keqb_sym, E. reflexivity.
Qed.

Lemma get_del (k k' : K) (d : list (K * V)) :
  PyDict.get k' (PyDict.del k d)
  = if keqb k' k then None else PyDict.get k' d.
Proof.
  induction d as [|[k0 v0] d IH]; simpl.
  - destruct (keqb k' k); reflexivity.
  - destruct (keqb k k0) eqn:E; simpl.
    + apply keqb_eq in E. subst k0. rewrite IH.
      destruct (keqb k' k); reflexivity.
    + rewrite IH. destruct (keqb k' k0) eqn:E0; [|reflexivity].
      apply keqb_eq in E0. subst k0.
      rewrite keqb_sym, E. reflexivity.
Qed.

Lemma mem_set (k k' : K) (v : V) (d : list (K * V)) :
  PyDict.mem k' (PyDict.set k v d) = keqb k' k || PyDict.mem k' d.
Proof.
  unfold PyDict.mem. rewrite get_set. destruct (keqb k' k); reflexivity.
Qed.

Lemma mem_del (k k' : K) (d : list (K * V)) :
  PyDict.mem k' (PyDict.del k d) = negb (keqb k' k) && PyDict.mem k' d.
Proof.
  unfold PyDict.mem. rewrite get_del. destruct (keqb k' k); reflexivity.
Qed.

Lemma del_absent (k : K) (d : list (K * V)) :
  PyDict.mem k d = false -> PyDict.del k d = d.
Proof.
  unfold PyDict.mem.
  induction d as [|[k0 v0] d IH]; simpl; [reflexivity|].
  destruct (keqb k k0); simpl; [discriminate|].
  intros Hd. now rewrite (IH Hd).
Qed.
End DictFacts.

(** ** Calls to the backend *)

(** Each call puts its own entry in the trace; what the turn does with the
    response is a function of the response alone. *)
Module CallFacts.
Import Engine.

Lemma first_call_eq backend stream messages params :
  first_call backend stream messages params
  = (Completion messages params, first_reply backend stream messages params).
Proof. unfold first_reply, first_call. destruct stream; reflexivity. Qed.

Lemma first_reply_eq backend stream messages params :
  first_reply backend stream messages params
  = if stream then
      match create_stream backend messages params with
      | inl f => Aborted (first_failure f)
      | inr chunks => let '(text, calls) := aggregate chunks in Replied text calls
      end
    else
      match create backend messages params with
      | inl f => Aborted (first_failure f)
      | inr None => Aborted "⚠️ Received an empty response from AI."
      | inr (Some response_message) =>
          Replied (opt_text (resp_content response_message))
                  (match resp_tool_calls response_message with
                   | Some raw_tool_calls => of_raw raw_tool_calls
                   | None => []
                   end)
      end.
Proof. unfold first_reply, first_call. destruct stream; reflexivity. Qed.

Lemma follow_up_call_eq cfg backend stream messages :
  follow_up_call cfg backend stream messages
  = (Completion messages (follow_up_params cfg stream),
     follow_up_text cfg backend stream messages).
Proof. unfold follow_up_text, follow_up_call. destruct stream; reflexivity. Qed.

Lemma follow_up_eq cfg backend ch stream results c :
  follow_up cfg backend ch stream results c
  = match results with
    | [] => (c, [])
    | _ :: _ =>
        let c1 := extend_history ch results c in
        let messages := history_of ch c1 in
        let call := [Append results;
                     Completion messages (follow_up_params cfg stream)] in
        match follow_up_text cfg backend stream messages with
        | inl f => (c1, call ++ [Send (follow_up_failure f)])%list
        | inr text =>
            if strip_truthy text then
              let reply := plain assistant text in
              (extend_history ch [reply] c1,
               call ++ [Send text; Append [reply]])%list
            else (c1, call)
        end
    end.
Proof.
  unfold follow_up. destruct results; [reflexivity|].
  cbv zeta. now rewrite follow_up_call_eq.
Qed.

Lemma handle_chat_logic_eq `{PyLib} cfg backend invoke ch stream c message :
  handle_chat_logic cfg backend invoke ch stream c message
  = match get_channel_history cfg c ch with
    | None => (c, [Send generic_failure])
    | Some (_, c0) =>
        let asked := plain user message in
        let c1 := extend_history ch [asked] c0 in
        let params := first_params cfg stream c1 in
        let messages := history_of ch c1 in
        let call := [Append [asked]; Completion messages params] in
        match first_reply backend stream messages params with
        | Aborted notice => (c1, call ++ [Send notice])%list
        | Replied text calls =>
            let said := if strip_truthy text then [Send text] else [] in
            match strip_truthy text, calls with
            | false, [] => (c1, call ++ [Send nothing_to_do])%list
            | _, _ =>
                let answer := assistant_message text calls in
                let c2 := extend_history ch [answer] c1 in
                let '(results, sent, c3) := run_tool_calls invoke 0 calls c2 in
                let '(c4, after) := follow_up cfg backend ch stream results c3 in
                (c4, call ++ said ++ [Append [answer]] ++ sent ++ after)%list
            end
        end
    end.
Proof.
  unfold handle_chat_logic.
  destruct (get_channel_history cfg c ch) as [[h c0]|]; [|reflexivity].
  cbv zeta. now rewrite first_call_eq.
Qed.

End CallFacts.

(** ** Supervisor *)

Module SupervisorFacts.
Import Supervisor.

Lemma shutdown_evict nm c : shutdown_event (evict nm c) = shutdown_event c.
Proof. reflexivity. Qed.

Lemma nth_delay_next k :
  Z.min (nth_delay k * 2) max_reconnect_delay = nth_delay (S k).
Proof.
  unfold nth_delay, max_reconnect_delay.
  rewrite Nat2Z.inj_succ, Z.pow_succ_r by lia.
  assert (0 < 2 ^ Z.of_nat k) by (apply Z.pow_pos_nonneg; lia).
  lia.
Qed.

Lemma delays_from_nth k n :
  delays_from (nth_delay k) n = map nth_delay (seq k n).
Proof.
  revert k. induction n as [|n IH]; intros k; simpl; [reflexivity|].
  now rewrite nth_delay_next, IH.
Qed.

Lemma nth_delay_capped k : (5 <= k)%nat -> nth_delay k = 300.
Proof.
  intros Hk. unfold nth_delay.
  assert (2 ^ 5 <= 2 ^ Z.of_nat k) by (apply Z.pow_le_mono_r; lia).
  change (2 ^ 5) with 32 in *. lia.
Qed.

(** A failed attempt followed by a full wait brings a parked task back to
    the attempt, with the delay doubled up to the cap. *)
Lemma failure_cycle t c o ws :
  phase t = Listing -> shutdown_event c = false -> is_failure o = true ->
  run t c (AttemptDone o :: TimerElapsed :: ws)
  = let t' := at_phase
                (with_delay t (Z.min (reconnect_delay t * 2) max_reconnect_delay))
                Listing in
    let '(ps, r) := run t' (evict (name t) c) ws in
    (Backoff (reconnect_delay t) :: Listing :: ps, r).
Proof.
  intros Hp Hs Ho.
  assert (Hr : resume t c (AttemptDone o)
               = Some (at_phase t (Backoff (reconnect_delay t)), evict (name t) c)).
  { unfold resume. rewrite Hp.
    destruct o; try discriminate;
      unfold cleanup_and_wait; rewrite shutdown_evict, Hs; reflexivity. }
  cbn [run]. rewrite Hr.
  cbn [resume phase at_phase reconnect_delay name url loop_head with_delay].
  unfold loop_head. cbn [name url reconnect_delay phase with_delay at_phase].
  rewrite shutdown_evict, Hs. cbn [at_phase phase name url reconnect_delay].
  destruct (run _ _ ws) as [ps r]. reflexivity.
Qed.

Lemma failure_run os : forall t c,
  phase t = Listing -> shutdown_event c = false ->
  forallb is_failure os = true ->
  backoff_delays (fst (run t c (failure_wakes os)))
  = delays_from (reconnect_delay t) (length os).
Proof.
  induction os as [|o os IH]; intros t c Hp Hs Hf; [reflexivity|].
  simpl in Hf. apply andb_true_iff in Hf as [Ho Hf].
  change (failure_wakes (o :: os))
    with (AttemptDone o :: TimerElapsed :: failure_wakes os).
  rewrite (failure_cycle t c o (failure_wakes os) Hp Hs Ho). cbv zeta.
  specialize (IH (at_phase
                    (with_delay t (Z.min (reconnect_delay t * 2) max_reconnect_delay))
                    Listing)
                 (evict (name t) c) eq_refl Hs Hf).
  destruct (run _ _ (failure_wakes os)) as [ps r].
  simpl in *. now rewrite IH.
Qed.

End SupervisorFacts.

(** In [Ready] with the event clear, only a cancellation wakes the task,
    whatever the registry holds. *)
Lemma ready_parked t c w t' c' :
  Supervisor.phase t = Supervisor.Ready -> shutdown_event c = false ->
  Supervisor.resume t c w = Some (t', c') ->
  w = Supervisor.TaskCancelled /\ Supervisor.phase t' = Supervisor.Finished.
Proof.
  intros Hp Hs. unfold Supervisor.resume. rewrite Hp, Hs.
  destruct w; try discriminate.
  intros [= <- <-]. split; reflexivity.
Qed.

(** C1 (the code departs from the claim). After the router has evicted the
    connection and the tool list of server [srv] on a connection fault, with
    the shutdown event clear, the supervisor of [srv] is still parked in
    [Ready]: its registry entries are gone, and no wake other than a
    cancellation resumes it, so it never returns to connecting. *)
Theorem ready_wait_ignores_router_eviction :
  let '(t, c) := Sample.ready in
  let '(r, c') := Router.execute_tool Sample.broken c "lookup" (PDict []) in
  Supervisor.phase t = Supervisor.Ready
  /\ PyDict.mem "srv" (mcp_connections c) = true
  /\ r = Router.Failed Router.ConnectionLost
  /\ PyDict.mem "srv" (mcp_connections c') = false
  /\ PyDict.mem "srv" (mcp_tools c') = false
  /\ shutdown_event c' = false
  /\ (forall w, Supervisor.resume t c' w = None \/ w = Supervisor.TaskCancelled)
  /\ (forall ws,
         Supervisor.run t c' (filter Supervisor.not_cancelled ws) = ([], (t, c'))).
Proof.
  cbv beta iota zeta delta [Sample.ready].
  cbn. repeat split.
  - intros w. destruct w as [o| | |]; cbn; auto.
  - intros ws. induction ws as [|w ws IH]; [reflexivity|].
    destruct w; cbn; exact IH.
Qed.

(** C4. From a task about to attempt a connection with the delay at its
    initial 15 seconds (as at task creation and after every success), a run
    of consecutive failed attempts waits 15, 30, 60, 120, 240, 300, 300, ...
    seconds before the successive retries (the k-th wait lasts
    min(15 * 2^k, 300)), and a successful connect-and-list sets the delay
    back to 15 and parks the task in [Ready]. *)
Theorem backoff_sequence :
  forall (t : Supervisor.Task) (c : Cog) (os : list Supervisor.AttemptOutcome),
    Supervisor.phase t = Supervisor.Listing ->
    Supervisor.reconnect_delay t = 15 ->
    shutdown_event c = false ->
    forallb Supervisor.is_failure os = true ->
    Supervisor.backoff_delays
      (fst (Supervisor.run t c (Supervisor.failure_wakes os)))
    = map (fun k => Z.min (15 * 2 ^ Z.of_nat k) 300) (seq 0 (length os))
    /\ map (fun k => Z.min (15 * 2 ^ Z.of_nat k) 300) (seq 0 7)
       = [15; 30; 60; 120; 240; 300; 300]
    /\ (forall k, (5 <= k)%nat -> Z.min (15 * 2 ^ Z.of_nat k) 300 = 300)
    /\ (forall nm u,
           Supervisor.start nm u c
           = ({| Supervisor.name := nm; Supervisor.url := u;
                 Supervisor.reconnect_delay := 15;
                 Supervisor.phase := Supervisor.Listing |}, c))
    /\ (forall t1 c1 tools,
           Supervisor.phase t1 = Supervisor.Listing ->
           shutdown_event c1 = false ->
           exists t' c',
             Supervisor.resume t1 c1
               (Supervisor.AttemptDone (Supervisor.Listed tools)) = Some (t', c')
             /\ Supervisor.reconnect_delay t' = 15
             /\ Supervisor.phase t' = Supervisor.Ready).
Proof.
  intros t c os Hp Hd Hs Hf.
  split; [|split; [reflexivity|split; [exact SupervisorFacts.nth_delay_capped|split]]].
  - rewrite SupervisorFacts.failure_run by assumption.
    rewrite Hd. exact (SupervisorFacts.delays_from_nth 0 (length os)).
  - intros nm u. unfold Supervisor.start, Supervisor.loop_head.
    rewrite Hs. reflexivity.
  - intros t1 c1 tools Hp1 Hs1.
    unfold Supervisor.resume. rewrite Hp1. cbn.
    rewrite Hs1. eexists _, _. repeat split.
Qed.

Lemma backoff_sequence_witness :
  Supervisor.backoff_delays
    (fst (Supervisor.run Sample.task0 new_cog
            (Supervisor.failure_wakes
               [Supervisor.ConnFailed; Supervisor.ListTimeout;
                Supervisor.Unexpected; Supervisor.ConnFailed;
                Supervisor.ConnFailed; Supervisor.ConnFailed;
                Supervisor.ListTimeout])))
  = [15; 30; 60; 120; 240; 300; 300].
Proof.
  exact (proj1 (backoff_sequence Sample.task0 new_cog
                  [Supervisor.ConnFailed; Supervisor.ListTimeout;
                   Supervisor.Unexpected; Supervisor.ConnFailed;
                   Supervisor.ConnFailed; Supervisor.ConnFailed;
                   Supervisor.ListTimeout] eq_refl eq_refl eq_refl eq_refl)).
Defined.

(** ** Router *)

Module RouterFacts.
Import Router.

Lemma get_In {V} (k : string) (v : V) (d : list (string * V)) :
  PyDict.get k d = Some v -> In (k, v) d.
Proof.
  induction d as [|[k0 v0] d IH]; simpl; [discriminate|].
  destruct (String.eqb k k0) eqn:E.
  - apply String.eqb_eq in E. intros [= ->]. subst. now left.
  - intros Hg. right. now apply IH.
Qed.

Lemma In_del {V} (k s : string) (v : V) (d : list (string * V)) :
  In (s, v) (PyDict.del k d) -> In (s, v) d /\ s <> k.
Proof.
  unfold PyDict.del. rewrite filter_In. simpl. intros [Hin Hk]. split; [assumption|].
  intros ->. now rewrite String.eqb_refl in Hk.
Qed.



Lemma find_origin_mem tn tools origin :
  find_origin tn tools = Some origin -> PyDict.mem origin tools = true.
Proof.
  unfold PyDict.mem.
  induction tools as [|[s ts] tools IH]; simpl; [discriminate|].
  destruct (lists_tool tn ts).
  - intros [= ->]. cbn. now rewrite String.eqb_refl.
  - intros Hf. cbn. destruct (String.eqb origin s); [reflexivity|]. now apply IH.
Qed.

Lemma keys_agree_evict server c :
  Lifecycle.keys_agree c -> Lifecycle.keys_agree (evict server c).
Proof.
  intros Ha s. cbn. now rewrite !mem_del, Ha.
Qed.

(** With agreeing keys the "exists but disconnected" answer is never given. *)
Lemma unresolved_not_unavailable c tn origin :
  Lifecycle.keys_agree c -> unresolved c tn <> ServerUnavailable origin.
Proof.
  intros Ha. unfold unresolved.
  destruct (mcp_connections c) eqn:Ec; [discriminate|]. rewrite <- Ec.
  destruct (find_origin tn (mcp_tools c)) as [o|] eqn:Ef; [|discriminate].
  apply find_origin_mem in Ef. rewrite <- Ha in Ef. rewrite Ef.
  destruct (str_truthy o); discriminate.
Qed.

Lemma settle_not_unavailable c server o origin :
  fst (settle c server o) <> Failed (ServerUnavailable origin).
Proof.
  destruct o as [r| | |msg]; cbn; try discriminate.
  destruct (error_code r) as [code|]; [|discriminate].
  destruct (negb (code =? 0)); discriminate.
Qed.

End RouterFacts.

(** C2 (as stated, refuted). The only server is evicted by a connection
    fault during [lookup]; the next [execute_tool] for [lookup] answers
    "no MCP servers currently connected", not "exists but disconnected". *)
Lemma execute_after_fault_is_not_unavailable :
  let c := snd Sample.ready in
  let c1 := snd (Router.execute_tool Sample.broken c "lookup" (PDict [])) in
  fst (Router.execute_tool Sample.broken c "lookup" (PDict []))
  = Router.Failed Router.ConnectionLost
  /\ fst (Router.execute_tool Sample.broken c1 "lookup" (PDict []))
     = Router.Failed Router.NoServersConnected
  /\ ~ (exists origin,
           fst (Router.execute_tool Sample.broken c1 "lookup" (PDict []))
           = Router.Failed (Router.ServerUnavailable origin)).
Proof.
  cbn. repeat split. intros [origin Ho]. discriminate Ho.
Qed.

(** C2 (amended). After a connection fault during a call of tool [tn] has
    evicted the connection and the tool list of the server it resolved to,
    and no server is left connected, an immediately following
    [execute_tool] for [tn] answers "no MCP servers currently connected",
    not "exists but disconnected", and leaves the cog as it is. *)
Theorem execute_after_connection_fault :
  forall (invoke : Router.Invoker) (c : Cog) (tn : string) (input : pyval)
         (server : string) (client : MCPClient),
    Router.resolve c tn = inr (server, client) ->
    let c1 := snd (Router.settle c server Router.ConnectionFault) in
    mcp_connections c1 = [] ->
    Router.execute_tool invoke c1 tn input
    = (Router.Failed Router.NoServersConnected, c1).
Proof.
  intros invoke c tn input server client _ c1 Hnone.
  unfold Router.execute_tool, Router.resolve, Router.unresolved.
  rewrite Hnone. reflexivity.
Qed.

Lemma execute_after_connection_fault_witness :
  Router.execute_tool Sample.broken
    (snd (Router.settle (snd Sample.ready) "srv" Router.ConnectionFault))
    "lookup" (PDict [])
  = (Router.Failed Router.NoServersConnected,
     snd (Router.settle (snd Sample.ready) "srv" Router.ConnectionFault)).
Proof.
  exact (execute_after_connection_fault Sample.broken (snd Sample.ready)
           "lookup" (PDict []) "srv" {| client_url := "http://srv/sse" |}
           eq_refl eq_refl).
Defined.

(** C7. When the invocation returns a result (no fault, no timeout):
    with [error_code] [None] or [0], [execute_tool] returns that result
    itself; with a non-zero [error_code] it returns the tool-reported error
    made of the code and, when there is one, the content; in both cases the
    cog, hence the server's connection and tool list, is left as it was. *)
Theorem execute_returned :
  forall (L : PyLib) (invoke : Router.Invoker) (c : Cog) (tn : string)
         (input : pyval) (server : string) (client : MCPClient)
         (r : ToolInvocationResult),
    Router.resolve c tn = inr (server, client) ->
    invoke client tn input = Router.Returned r ->
    match error_code r with
    | None | Some 0 =>
        Router.execute_tool invoke c tn input = (Router.Succeeded r, c)
    | Some code =>
        Router.execute_tool invoke c tn input
        = (Router.Failed (Router.ToolReported code (content r)), c)
        /\ Router.error_text tn (Router.ToolReported code (content r))
           = "Tool reported error code " ++ str_int code
             ++ (if truthy (content r) then ": " ++ py_str (content r) else "")
    end.
Proof.
  intros L invoke c tn input server client r Hres Hinv.
  unfold Router.execute_tool. rewrite Hres, Hinv. unfold Router.settle.
  destruct (error_code r) as [[|p|p]|]; cbn; auto.
Qed.

Lemma execute_returned_witness :
  let answer := {| content := PStr "x"; error_code := Some 7 |} in
  let invoke : Router.Invoker := fun _ _ _ => Router.Returned answer in
  Router.execute_tool invoke (snd Sample.ready) "lookup" (PDict [])
  = (Router.Failed (Router.ToolReported 7 (PStr "x")), snd Sample.ready)
  /\ @Router.error_text Sample.lib "lookup" (Router.ToolReported 7 (PStr "x"))
     = "Tool reported error code 7: x".
Proof.
  exact (execute_returned Sample.lib
           (fun _ _ _ => Router.Returned {| content := PStr "x"; error_code := Some 7 |})
           (snd Sample.ready) "lookup" (PDict []) "srv"
           {| client_url := "http://srv/sse" |}
           {| content := PStr "x"; error_code := Some 7 |} eq_refl eq_refl).
Defined.

(** ** Conversation history *)

Module HistoryFacts.
Import Engine History.

Lemma Zeqb_neq (a b : Z) : a <> b -> keqb a b = false.
Proof. intros Hne. cbn. now apply Z.eqb_neq. Qed.

Lemma others_kept_refl ch c : others_kept ch c c.
Proof. intros other _. reflexivity. Qed.

Lemma others_kept_trans ch a b c :
  others_kept ch a b -> others_kept ch b c -> others_kept ch a c.
Proof. intros Hab Hbc other Hne. now rewrite Hbc, Hab. Qed.

Lemma others_kept_same ch c c' :
  message_history c' = message_history c -> others_kept ch c c'.
Proof. intros He other _. now rewrite He. Qed.

Lemma others_kept_set ch h c :
  others_kept ch c (with_history c (PyDict.set ch h (message_history c))).
Proof.
  intros other Hne. cbn [message_history with_history].
  rewrite get_set. now rewrite (Zeqb_neq _ _ Hne).
Qed.

Lemma get_stored ch h c :
  PyDict.get ch (message_history
                   (with_history c (PyDict.set ch h (message_history c))))
  = Some h.
Proof.
  cbn [message_history with_history]. rewrite get_set.
  cbn. now rewrite Z.eqb_refl.
Qed.

Lemma grows_refl ch c h :
  PyDict.get ch (message_history c) = Some h -> grows ch c c.
Proof.
  intros Hg. split; [apply others_kept_refl|].
  exists h, []. now rewrite app_nil_r.
Qed.

Lemma grows_same ch c c' h :
  PyDict.get ch (message_history c) = Some h ->
  message_history c' = message_history c -> grows ch c c'.
Proof.
  intros Hg He. split; [now apply others_kept_same|].
  exists h, []. now rewrite app_nil_r, He.
Qed.

Lemma grows_trans ch a b c : grows ch a b -> grows ch b c -> grows ch a c.
Proof.
  intros [Ko (h & ms & Ha & Hb)] [Ko' (h' & ms' & Hb' & Hc)].
  split; [now apply (others_kept_trans ch a b c)|].
  rewrite Hb in Hb'. injection Hb' as <-.
  exists h, (ms ++ ms')%list. now rewrite app_assoc.
Qed.

(** [append] and [extend] add at the end of the stored list. *)
Lemma extend_history_grows ch ms c h :
  PyDict.get ch (message_history c) = Some h ->
  PyDict.get ch (message_history (extend_history ch ms c)) = Some (h ++ ms)%list
  /\ grows ch c (extend_history ch ms c).
Proof.
  intros Hg. unfold extend_history. rewrite Hg.
  split; [apply get_stored|].
  split; [apply others_kept_set|].
  exists h, ms. split; [exact Hg|apply get_stored].
Qed.

Lemma grows_stored ch c c' :
  grows ch c c' -> exists h, PyDict.get ch (message_history c') = Some h.
Proof. intros [_ (h & ms & _ & Hc)]. now exists (h ++ ms)%list. Qed.

Lemma grows_extend ch ms c c' :
  grows ch c c' -> grows ch c (extend_history ch ms c').
Proof.
  intros G. destruct (grows_stored ch c c' G) as [h Hh].
  apply (grows_trans ch c c'); [exact G|].
  now apply (extend_history_grows ch ms c' h).
Qed.

(** The router never touches the histories. *)
Lemma settle_history c server o :
  message_history (snd (Router.settle c server o)) = message_history c.
Proof.
  destruct o as [r| | |msg]; cbn; try reflexivity.
  destruct (error_code r) as [code|]; [|reflexivity].
  destruct (negb (code =? 0)); reflexivity.
Qed.

Lemma execute_tool_history invoke c tn input :
  message_history (snd (Router.execute_tool invoke c tn input))
  = message_history c.
Proof.
  unfold Router.execute_tool.
  destruct (Router.resolve c tn) as [e|[s cl]]; [reflexivity|].
  apply settle_history.
Qed.

Lemma run_tool_calls_history `{PyLib} invoke calls : forall n c,
  message_history (snd (run_tool_calls invoke n calls c)) = message_history c.
Proof.
  induction calls as [|tc calls IH]; intros n c; [reflexivity|].
  cbn [run_tool_calls].
  destruct (json_loads (fn_arguments tc)) as [[| | | | | |d|]|];
    try solve [specialize (IH (S n) c);
               destruct (run_tool_calls invoke (S n) calls c) as [[es evs] c2];
               exact IH].
  pose proof (execute_tool_history (invoke n) c (fn_name tc) (PDict d)) as He.
  destruct (Router.execute_tool (invoke n) c (fn_name tc) (PDict d)) as [r c1].
  specialize (IH (S n) c1).
  destruct (Formatter.format_calltoolresult_content _) as [formatted|exec_e];
    destruct (run_tool_calls invoke (S n) calls c1) as [[es evs] c2];
    cbn [snd] in *; now rewrite IH.
Qed.

Lemma follow_up_grows `{PyLib} cfg backend ch stream results c h :
  PyDict.get ch (message_history c) = Some h ->
  grows ch c (fst (follow_up cfg backend ch stream results c)).
Proof.
  intros Hg. rewrite CallFacts.follow_up_eq.
  destruct results as [|r results]; [now apply (grows_refl ch c h)|].
  assert (G : grows ch c (extend_history ch (r :: results) c))
    by now apply (extend_history_grows ch _ c h).
  cbv beta iota zeta.
  destruct (follow_up_text _ _ _ _) as [f|text]; [exact G|].
  destruct (strip_truthy text); [|exact G].
  now apply grows_extend.
Qed.

(** What [get_channel_history] returns is what it leaves stored: the
    system message alone for a new channel, and otherwise the first message
    and the last messages of the stored list, as many as the cap allows. *)
Lemma get_channel_history_read cfg c ch :
  well_formed cfg c ->
  exists c0,
    get_channel_history cfg c ch = Some (read cfg ch c, c0)
    /\ PyDict.get ch (message_history c0) = Some (read cfg ch c)
    /\ others_kept ch c c0
    /\ exists rest, read cfg ch c = system_entry cfg :: rest.
Proof.
  intros Hwf. unfold get_channel_history, read.
  destruct (PyDict.get ch (message_history c)) as [old|] eqn:Hg.
  - destruct (Hwf ch old Hg) as [rest ->]. cbn [kept].
    destruct (Z.gtb_spec (Z.of_nat (length (system_entry cfg :: rest)))
                         (max_history_length cfg + 1)) as [Hgt|Hle].
    + replace (Z.to_nat (Z.of_nat (length (system_entry cfg :: rest))
                         - (max_history_length cfg + 1) + 1))
        with (S (Z.to_nat (Z.of_nat (length rest) - max_history_length cfg)))
        by (cbn [length] in *; lia).
      cbn [skipn app]. eexists. split; [reflexivity|].
      split; [apply get_stored|]. split; [apply others_kept_set|].
      now eexists.
    + replace (Z.to_nat (Z.of_nat (length rest) - max_history_length cfg))
        with O by (cbn [length] in *; lia).
      cbn [skipn]. exists c. split; [reflexivity|].
      split; [exact Hg|]. split; [apply others_kept_refl|]. now eexists.
  - eexists. split; [reflexivity|].
    split; [apply get_stored|]. split; [apply others_kept_set|]. now eexists.
Qed.

(** After its read of the history, a turn only appends. *)
Lemma turn_grows `{PyLib} cfg backend invoke ch stream c message h c0 :
  get_channel_history cfg c ch = Some (h, c0) ->
  PyDict.get ch (message_history c0) = Some h ->
  grows ch c0 (fst (handle_chat_logic cfg backend invoke ch stream c message)).
Proof.
  intros Hread Hh. rewrite CallFacts.handle_chat_logic_eq, Hread. cbv beta iota zeta.
  set (c1 := extend_history ch [plain user message] c0).
  assert (G1 : grows ch c0 c1) by now apply (extend_history_grows ch _ c0 h).
  destruct (first_reply _ _ _ _) as [notice|text calls]; [exact G1|].
  assert (Hmain :
    grows ch c0
      (fst (let '(results, sent, c3) :=
              run_tool_calls invoke 0 calls
                (extend_history ch [assistant_message text calls] c1) in
            let '(c4, after) := follow_up cfg backend ch stream results c3 in
            (c4, ([Append [plain user message];
                   Completion (history_of ch c1)
                              (first_params cfg stream c1)]
                  ++ (if strip_truthy text then [Send text] else [])
                  ++ [Append [assistant_message text calls]]
                  ++ sent ++ after)%list)))).
  { set (c2 := extend_history ch [assistant_message text calls] c1).
    assert (G2 : grows ch c0 c2) by now apply grows_extend.
    pose proof (run_tool_calls_history invoke calls 0 c2) as Hrun.
    destruct (run_tool_calls invoke 0 calls c2) as [[results sent] c3].
    cbn [snd] in Hrun.
    destruct (grows_stored ch c0 c2 G2) as [h2 Hh2].
    assert (G3 : grows ch c0 c3).
    { apply (grows_trans ch c0 c2); [exact G2|].
      now apply (grows_same ch c2 c3 h2). }
    assert (Hh3 : PyDict.get ch (message_history c3) = Some h2)
      by now rewrite Hrun.
    pose proof (follow_up_grows cfg backend ch stream results c3 h2 Hh3) as G4.
    destruct (follow_up cfg backend ch stream results c3) as [c4 after].
    cbn [fst] in *. now apply (grows_trans ch c0 c3). }
  destruct (strip_truthy text); [exact Hmain|].
  destruct calls; [exact G1|exact Hmain].
Qed.

End HistoryFacts.

(** C6 (as stated, refuted). With a cap of 2, reading the history
    [system, u1, a1, u2, a2, u3] does not give [system, u3]. *)
Lemma trim_cap2_is_not_system_u3 :
  option_map fst (Engine.get_channel_history Sample.cfg2 Sample.cog6 7)
  <> Some [Sample.sys; Sample.u3].
Proof. cbn. discriminate. Qed.

(** C6 (amended). With a cap of 2, reading the history
    [system, u1, a1, u2, a2, u3] gives exactly [system, a2, u3], the system
    message and the last two entries, and that list is what stays stored. *)
Theorem trim_cap2_keeps_last_two :
  Engine.get_channel_history Sample.cfg2 Sample.cog6 7
  = Some ([Sample.sys; Sample.a2; Sample.u3],
          with_history new_cog [(7, [Sample.sys; Sample.a2; Sample.u3])]).
Proof. reflexivity. Qed.

(** ** Streaming aggregation *)

Module SlotFacts.
Import Engine Slots.

Lemma str_app_nil_r (s : string) : s ++ "" = s.
Proof. induction s as [|a s IH]; simpl; [reflexivity|now rewrite IH]. Qed.

Lemma str_app_assoc (a b c : string) : (a ++ b) ++ c = a ++ (b ++ c).
Proof. induction a as [|x a IH]; simpl; [reflexivity|now rewrite IH]. Qed.

Lemma concat_cons (x : string) (l : list string) :
  String.concat "" (x :: l) = x ++ String.concat "" l.
Proof. destruct l; simpl; [now rewrite str_app_nil_r|reflexivity]. Qed.

Lemma not_truthy_empty (s : string) : str_truthy s = false -> s = "".
Proof.
  unfold str_truthy. destruct (s =? "")%string eqn:E; [|discriminate].
  intros _. now apply String.eqb_eq.
Qed.

(** *** One fragment on one slot *)

Lemma absorb_name tc f : fn_name (absorb tc f) = fn_name tc ++ name_part f.
Proof.
  unfold name_part. cbn.
  destruct (chunk_function f) as [fn|]; [|now rewrite str_app_nil_r].
  destruct (chunk_name fn) as [n|]; cbn; [|now rewrite str_app_nil_r].
  destruct (str_truthy n) eqn:E; [reflexivity|].
  now rewrite (not_truthy_empty n E), str_app_nil_r.
Qed.

Lemma absorb_arguments tc f :
  fn_arguments (absorb tc f) = fn_arguments tc ++ arguments_part f.
Proof.
  unfold arguments_part. cbn.
  destruct (chunk_function f) as [fn|]; [|now rewrite str_app_nil_r].
  destruct (chunk_arguments fn) as [n|]; cbn; [|now rewrite str_app_nil_r].
  destruct (str_truthy n) eqn:E; [reflexivity|].
  now rewrite (not_truthy_empty n E), str_app_nil_r.
Qed.

Lemma absorb_id tc f :
  tc_id (absorb tc f)
  = match id_part f with Some i => Some i | None => tc_id tc end.
Proof.
  unfold id_part. cbn. destruct (chunk_id f) as [i|]; [|reflexivity].
  destruct (str_truthy i); reflexivity.
Qed.

Lemma absorbed_all fs : forall tc,
  fold_left absorb fs tc
  = {| tc_id := last_id (tc_id tc) fs;
       tc_type := tc_type tc;
       fn_name := fn_name tc ++ String.concat "" (map name_part fs);
       fn_arguments :=
         fn_arguments tc ++ String.concat "" (map arguments_part fs) |}.
Proof.
  induction fs as [|f fs IH]; intros tc.
  - cbn. rewrite !str_app_nil_r. now destruct tc.
  - cbn [fold_left map]. rewrite IH, !concat_cons.
    rewrite absorb_name, absorb_arguments, absorb_id, !str_app_assoc.
    reflexivity.
Qed.

(** *** One fragment on the table *)

Lemma update_at_length {A} (g : A -> A) (l : list A) : forall i,
  length (update_at i g l) = length l.
Proof.
  induction l as [|x l IH]; intros [|i]; simpl; try reflexivity.
  now rewrite IH.
Qed.

Lemma update_at_nth {A} (g : A -> A) (d : A) (l : list A) : forall i j,
  (i < length l)%nat ->
  nth j (update_at i g l) d = if (i =? j)%nat then g (nth j l d) else nth j l d.
Proof.
  induction l as [|x l IH]; intros i j Hi; simpl in Hi; [lia|].
  destruct i as [|i], j as [|j]; simpl; try reflexivity.
  apply IH. lia.
Qed.

Lemma ensure_slot_length idx slots :
  length (ensure_slot idx slots) = Nat.max (length slots) (S idx).
Proof.
  unfold ensure_slot. rewrite length_app, repeat_length. lia.
Qed.

Lemma ensure_slot_nth idx slots j :
  nth j (ensure_slot idx slots) empty_slot = nth j slots empty_slot.
Proof.
  unfold ensure_slot.
  destruct (Nat.lt_ge_cases j (length slots)) as [Hlt|Hge].
  - now rewrite app_nth1.
  - rewrite app_nth2 by exact Hge.
    rewrite nth_repeat. symmetry. now apply nth_overflow.
Qed.

Lemma apply_fragment_length slots f :
  length (apply_fragment slots f) = Nat.max (length slots) (S (index f)).
Proof.
  unfold apply_fragment. now rewrite update_at_length, ensure_slot_length.
Qed.

Lemma apply_fragment_nth slots f j :
  nth j (apply_fragment slots f) empty_slot
  = if (index f =? j)%nat then absorb (nth j slots empty_slot) f
    else nth j slots empty_slot.
Proof.
  unfold apply_fragment.
  rewrite update_at_nth by (rewrite ensure_slot_length; lia).
  now rewrite ensure_slot_nth.
Qed.

(** *** All fragments *)

Lemma table_length frags : forall slots,
  length (fold_left apply_fragment frags slots)
  = fold_left (fun n f => Nat.max n (S (index f))) frags (length slots).
Proof.
  induction frags as [|f frags IH]; intros slots; [reflexivity|].
  cbn [fold_left]. now rewrite IH, apply_fragment_length.
Qed.

Lemma table_nth frags j : forall slots,
  nth j (fold_left apply_fragment frags slots) empty_slot
  = fold_left absorb (addressed j frags) (nth j slots empty_slot).
Proof.
  induction frags as [|f frags IH]; intros slots; [reflexivity|].
  cbn [fold_left]. rewrite IH, apply_fragment_nth.
  unfold addressed. cbn [filter].
  destruct (index f =? j)%nat; reflexivity.
Qed.

(** The table the loop builds is the table of the specification. *)
Lemma table_is_slot_table frags :
  fold_left apply_fragment frags [] = slot_table frags.
Proof.
  apply (nth_ext _ _ empty_slot empty_slot).
  - unfold slot_table. rewrite table_length, length_map, length_seq. reflexivity.
  - intros j Hj. rewrite table_length in Hj. cbn [length] in Hj.
    fold (slot_count frags) in Hj.
    rewrite table_nth. unfold slot_table.
    replace (nth j [] empty_slot) with empty_slot by (destruct j; reflexivity).
    rewrite (nth_indep _ empty_slot (slot_of 0 frags));
      [|rewrite length_map, length_seq; exact Hj].
    rewrite (map_nth (fun i => slot_of i frags)), seq_nth by exact Hj.
    rewrite absorbed_all. reflexivity.
Qed.

Lemma stream_folded chunks : forall text slots,
  fold_left absorb_chunk chunks (text, slots)
  = (text ++ streamed_text chunks,
     fold_left apply_fragment (fragments chunks) slots).
Proof.
  unfold streamed_text.
  induction chunks as [|ch chunks IH]; intros text slots.
  - cbn. now rewrite str_app_nil_r.
  - cbn [fold_left map fragments flat_map]. rewrite concat_cons, fold_left_app.
    destruct ch as [|[delta|]]; cbn [absorb_chunk fst snd];
      try (rewrite IH; reflexivity).
    rewrite IH, str_app_assoc.
    destruct (delta_tool_calls delta); reflexivity.
Qed.

End SlotFacts.

(** C3. For every finite stream, the aggregator's result is the streamed
    text and the finalized slots of the slot table: slot [i] exists for
    every index up to the largest one addressed, starts empty, has as name
    and arguments the concatenation, in stream order, of the name and
    arguments texts of the fragments addressed to [i], and as id the last id
    such a fragment provides; a slot is finalized when its id and its name
    are both non-empty, and the others are dropped. On the stream of the
    example exactly the call [a], [getWeather], [{"city":"NY"}] remains. *)
Theorem aggregate_is_finalized_slot_table :
  (forall chunks : list Engine.Chunk,
      Engine.aggregate chunks
      = (Slots.streamed_text chunks,
         filter Slots.finalized (Slots.slot_table (Slots.fragments chunks))))
  /\ (forall i : nat, Slots.slot_of i [] = Engine.empty_slot)
  /\ Engine.aggregate Slots.weather_stream = ("", [Slots.weather_call]).
Proof.
  split; [|split; reflexivity].
  intros chunks. unfold Engine.aggregate.
  rewrite SlotFacts.stream_folded, SlotFacts.table_is_slot_table.
  reflexivity.
Qed.

(** ** The turn and its single follow-up *)

Module TurnFacts.
Import Engine Trace.

Lemma completions_app a b : completions (a ++ b) = (completions a ++ completions b)%list.
Proof. apply flat_map_app. Qed.

Lemma appended_app a b : appended (a ++ b) = (appended a ++ appended b)%list.
Proof. apply flat_map_app. Qed.

Lemma filter_all_tool (ms : list Message) :
  forallb is_tool ms = true -> filter is_tool ms = ms.
Proof.
  induction ms as [|m ms IH]; simpl; [reflexivity|].
  destruct (is_tool m); [|discriminate]. intros Hm. now rewrite IH.
Qed.

(** The tool loop adds one [tool] entry per call, only sends messages, and
    leaves the histories alone. *)
Lemma run_tool_calls_trace `{PyLib} invoke calls : forall n c,
  let '(results, sent, _) := run_tool_calls invoke n calls c in
  length results = length calls
  /\ forallb is_tool results = true
  /\ completions sent = []
  /\ appended sent = [].
Proof.
  induction calls as [|tc calls IH]; intros n c; [repeat split|].
  cbn [run_tool_calls].
  destruct (json_loads (fn_arguments tc)) as [[| | | | | |d|]|];
    try solve [specialize (IH (S n) c);
               destruct (run_tool_calls invoke (S n) calls c) as [[es evs] c2];
               destruct IH as (Hl & Ht & Hc & Ha); cbn;
               repeat split; auto].
  destruct (Router.execute_tool (invoke n) c (fn_name tc) (PDict d)) as [r c1].
  specialize (IH (S n) c1).
  destruct (Formatter.format_calltoolresult_content _) as [formatted|exec_e];
    destruct (run_tool_calls invoke (S n) calls c1) as [[es evs] c2];
    destruct IH as (Hl & Ht & Hc & Ha); cbn; repeat split; auto.
Qed.

Lemma follow_up_params_no_tools cfg stream :
  PyDict.mem "tools" (follow_up_params cfg stream) = false
  /\ PyDict.mem "tool_choice" (follow_up_params cfg stream) = false.
Proof.
  unfold follow_up_params. rewrite !mem_del. split; reflexivity.
Qed.

(** The follow-up is one call, on the history with the results at its end,
    and adds no [tool] entry but the results. *)
Lemma follow_up_trace `{PyLib} cfg backend ch stream results c h :
  PyDict.get ch (message_history c) = Some h ->
  let after := snd (follow_up cfg backend ch stream results c) in
  completions after
  = match results with
    | [] => []
    | _ :: _ => [((h ++ results)%list, follow_up_params cfg stream)]
    end
  /\ filter is_tool (appended after) = filter is_tool results.
Proof.
  intros Hg. rewrite CallFacts.follow_up_eq.
  destruct results as [|r results]; [split; reflexivity|].
  destruct (HistoryFacts.extend_history_grows ch (r :: results) c h Hg)
    as [Hh _].
  cbv beta iota zeta. unfold history_of. rewrite Hh.
  destruct (follow_up_text _ _ _ _) as [f|text]; cbn [snd].
  - cbn. rewrite app_nil_r. split; reflexivity.
  - destruct (strip_truthy text); cbn [snd].
    + cbn. rewrite filter_app. cbn. rewrite app_nil_r. split; reflexivity.
    + cbn. rewrite app_nil_r. split; reflexivity.
Qed.

Lemma get_channel_history_stored cfg c ch h c0 :
  get_channel_history cfg c ch = Some (h, c0) ->
  PyDict.get ch (message_history c0) = Some h.
Proof.
  unfold get_channel_history.
  destruct (PyDict.get ch (message_history c)) as [old|] eqn:Hg.
  - destruct (Z.of_nat (length old) >? max_history_length cfg + 1).
    + destruct old as [|h0 old]; [discriminate|].
      intros [= <- <-]. apply HistoryFacts.get_stored.
    + intros [= <- <-]. exact Hg.
  - intros [= <- <-]. apply HistoryFacts.get_stored.
Qed.

(** The tool loop followed by the follow-up. *)
Lemma tools_then_follow_up `{PyLib} cfg backend invoke ch stream calls c2 h2
      results sent c3 c4 after :
  PyDict.get ch (message_history c2) = Some h2 ->
  run_tool_calls invoke 0 calls c2 = (results, sent, c3) ->
  follow_up cfg backend ch stream results c3 = (c4, after) ->
  length results = length calls
  /\ filter is_tool (appended (sent ++ after)) = results
  /\ completions (sent ++ after)
     = match results with
       | [] => []
       | _ :: _ => [((h2 ++ results)%list, follow_up_params cfg stream)]
       end.
Proof.
  intros Hg Hrun Hfol.
  pose proof (run_tool_calls_trace invoke calls 0 c2) as Ht.
  pose proof (HistoryFacts.run_tool_calls_history invoke calls 0 c2) as Hh.
  rewrite Hrun in Ht, Hh.
  destruct Ht as (Hlen & Htool & Hcs & Has). cbn [snd] in Hh.
  rewrite <- Hh in Hg.
  pose proof (follow_up_trace cfg backend ch stream results c3 h2 Hg) as Hf.
  rewrite Hfol in Hf. cbn [snd] in Hf. destruct Hf as [Hfc Hfa].
  split; [exact Hlen|]. split.
  - rewrite appended_app, Has. cbn [app]. rewrite Hfa.
    now apply filter_all_tool.
  - rewrite completions_app, Hcs, Hfc. reflexivity.
Qed.

(** The effects of a turn: none on the backend when the history cannot
    be read; otherwise a first call and, exactly when the first reply
    carries tool calls, one entry per call and one follow-up. *)
Lemma turn_trace `{PyLib} cfg backend invoke ch stream c message :
  let evs := snd (handle_chat_logic cfg backend invoke ch stream c message) in
  (completions evs = [] /\ tool_entries evs = [])
  \/ exists messages params,
      match first_reply backend stream messages params with
      | Aborted _ =>
          completions evs = [(messages, params)] /\ tool_entries evs = []
      | Replied text calls =>
          exists results,
            length results = length calls
            /\ tool_entries evs = results
            /\ completions evs
               = (messages, params)
                 :: match results with
                    | [] => []
                    | _ :: _ =>
                        [((messages ++ assistant_message text calls :: results)%list,
                          follow_up_params cfg stream)]
                    end
      end.
Proof.
  rewrite CallFacts.handle_chat_logic_eq.
  destruct (get_channel_history cfg c ch) as [[h c0]|] eqn:Hread;
    [|left; split; reflexivity].
  right. cbv beta iota zeta.
  pose proof (get_channel_history_stored cfg c ch h c0 Hread) as Hh.
  set (asked := plain user message).
  destruct (HistoryFacts.extend_history_grows ch [asked] c0 h Hh) as [Hh1 _].
  set (c1 := extend_history ch [asked] c0) in *.
  assert (Hm : history_of ch c1 = (h ++ [asked])%list)
    by (unfold history_of; now rewrite Hh1).
  exists (history_of ch c1), (first_params cfg stream c1).
  destruct (first_reply backend stream (history_of ch c1)
                        (first_params cfg stream c1)) as [notice|text calls].
  { cbn. split; reflexivity. }
  set (answer := assistant_message text calls).
  destruct (HistoryFacts.extend_history_grows ch [answer] c1 _ Hh1) as [Hh2 _].
  assert (Hmain :
    forall said,
      completions said = [] -> appended said = [] ->
      let evs :=
        snd (let '(results, sent, c3) :=
               run_tool_calls invoke 0 calls (extend_history ch [answer] c1) in
             let '(c4, after) := follow_up cfg backend ch stream results c3 in
             (c4, ([Append [asked];
                    Completion (history_of ch c1) (first_params cfg stream c1)]
                   ++ said ++ [Append [answer]] ++ sent ++ after)%list)) in
      exists results,
        length results = length calls
        /\ tool_entries evs = results
        /\ completions evs
           = (history_of ch c1, first_params cfg stream c1)
             :: match results with
                | [] => []
                | _ :: _ =>
                    [((history_of ch c1 ++ answer :: results)%list,
                      follow_up_params cfg stream)]
                end).
  { intros said Hsc Hsa.
    destruct (run_tool_calls invoke 0 calls (extend_history ch [answer] c1))
      as [[results sent] c3] eqn:Hrun.
    destruct (follow_up cfg backend ch stream results c3) as [c4 after] eqn:Hfol.
    destruct (tools_then_follow_up cfg backend invoke ch stream calls _ _
                results sent c3 c4 after Hh2 Hrun Hfol) as (Hlen & Hte & Hco).
    cbn [snd]. exists results. split; [exact Hlen|]. split.
    - unfold tool_entries.
      rewrite (appended_app [_; _]), (appended_app said), (appended_app [_]), Hsa.
      cbn [appended flat_map app filter is_tool role plain asked answer
           assistant_message].
      exact Hte.
    - rewrite (completions_app [_; _]), (completions_app said),
        (completions_app [_]), Hsc.
      cbn [completions flat_map app]. rewrite Hco, Hm, <- !app_assoc.
      reflexivity. }
  destruct (strip_truthy text) eqn:Hs.
  - exact (Hmain [Send text] eq_refl eq_refl).
  - destruct calls as [|tc calls].
    + exists []. cbn. repeat split.
    + exact (Hmain [] eq_refl eq_refl).
Qed.

(** The text of the follow-up is what the backend gives to the call that
    the trace records. *)
Lemma follow_up_text_eq cfg backend stream messages :
  follow_up_text cfg backend stream messages
  = response_text backend stream messages (follow_up_params cfg stream).
Proof.
  unfold follow_up_text, follow_up_call, response_text, request, request_stream.
  destruct stream; reflexivity.
Qed.

Lemma completions_after_follow_up delivered :
  completions (after_follow_up delivered) = [].
Proof.
  destruct delivered as [f|text]; [reflexivity|].
  cbn. now destruct (strip_truthy text).
Qed.

(** The follow-up call is the last thing a follow-up does but for the
    emission of its text. *)
Lemma follow_up_ending cfg backend ch stream r results c :
  snd (follow_up cfg backend ch stream (r :: results) c)
  = let messages := history_of ch (extend_history ch (r :: results) c) in
    Append (r :: results)
    :: Completion messages (follow_up_params cfg stream)
    :: after_follow_up
         (response_text backend stream messages (follow_up_params cfg stream)).
Proof.
  rewrite CallFacts.follow_up_eq. cbv beta iota zeta.
  rewrite follow_up_text_eq.
  destruct (response_text backend stream _ _) as [f|text]; [reflexivity|].
  cbn [after_follow_up]. now destruct (strip_truthy text).
Qed.

(** A turn that appends [tool] entries ends with its follow-up call and
    what is made of the text of that call. *)
Lemma turn_ending `{PyLib} cfg backend invoke ch stream c message :
  let evs := snd (handle_chat_logic cfg backend invoke ch stream c message) in
  tool_entries evs <> [] ->
  exists before messages,
    evs = (before
           ++ Completion messages (follow_up_params cfg stream)
           :: after_follow_up
                (response_text backend stream messages
                               (follow_up_params cfg stream)))%list.
Proof.
  rewrite CallFacts.handle_chat_logic_eq.
  destruct (get_channel_history cfg c ch) as [[h c0]|];
    [|intros evs Hne; now elim Hne].
  cbv beta iota zeta.
  set (asked := plain user message).
  set (c1 := extend_history ch [asked] c0).
  destruct (first_reply backend stream (history_of ch c1)
                        (first_params cfg stream c1)) as [notice|text calls].
  { intros Hne. now elim Hne. }
  set (answer := assistant_message text calls).
  assert (Hmain :
    forall said,
      appended said = [] ->
      let evs :=
        snd (let '(results, sent, c3) :=
               run_tool_calls invoke 0 calls (extend_history ch [answer] c1) in
             let '(c4, after) := follow_up cfg backend ch stream results c3 in
             (c4, ([Append [asked];
                    Completion (history_of ch c1) (first_params cfg stream c1)]
                   ++ said ++ [Append [answer]] ++ sent ++ after)%list)) in
      tool_entries evs <> [] ->
      exists before messages,
        evs = (before
               ++ Completion messages (follow_up_params cfg stream)
               :: after_follow_up
                    (response_text backend stream messages
                                   (follow_up_params cfg stream)))%list).
  { intros said Hsa. cbv zeta.
    pose proof (run_tool_calls_trace invoke calls 0
                  (extend_history ch [answer] c1)) as Ht.
    destruct (run_tool_calls invoke 0 calls (extend_history ch [answer] c1))
      as [[results sent] c3].
    destruct Ht as (_ & _ & _ & Has).
    destruct results as [|r results].
    - rewrite CallFacts.follow_up_eq. cbn [snd]. intros Hne. elim Hne.
      unfold tool_entries.
      rewrite (appended_app [_; _]), (appended_app said), (appended_app [_]),
        (appended_app sent), Hsa, Has.
      reflexivity.
    - pose proof (follow_up_ending cfg backend ch stream r results c3) as He.
      destruct (follow_up cfg backend ch stream (r :: results) c3) as [c4 after].
      cbn [snd] in *. intros _. rewrite He. cbv zeta.
      exists ([Append [asked];
               Completion (history_of ch c1) (first_params cfg stream c1)]
              ++ said ++ [Append [answer]] ++ sent ++ [Append (r :: results)])%list.
      eexists. rewrite <- !app_assoc. cbn [app]. reflexivity. }
  destruct (strip_truthy text).
  - exact (Hmain [Send text] eq_refl).
  - destruct calls as [|tc calls].
    + intros Hne. now elim Hne.
    + exact (Hmain [] eq_refl).
Qed.

End TurnFacts.

(** C5. In one turn: when [tool] entries were appended to the history, the
    backend is called exactly twice, the second time (the follow-up) with
    the history of the first call extended by the assistant message and all
    the [tool] entries of the turn, and with parameters that have neither
    [tools] nor [tool_choice]; every [tool] entry of the turn precedes that
    call, one per tool call of the first reply, so no further round takes
    place, and all that follows the call is the emission of the text that
    the backend gives to it; when no [tool] entry was appended, and in
    particular when the first reply carries no tool call, no follow-up call
    is made. *)
Theorem single_follow_up :
  forall (L : PyLib) (cfg : Engine.Config) (backend : Engine.Backend)
         (invoke : nat -> Router.Invoker) (channel_id : Z) (stream : bool)
         (c : Cog) (message : string),
    let evs := snd (Engine.handle_chat_logic cfg backend invoke channel_id
                                             stream c message) in
    match Trace.tool_entries evs with
    | [] => (length (Trace.completions evs) <= 1)%nat
    | _ :: _ =>
        exists messages params answer before,
          Trace.completions evs
          = [(messages, params);
             ((messages ++ answer :: Trace.tool_entries evs)%list,
              Engine.follow_up_params cfg stream)]
          /\ role answer = assistant
          /\ evs
             = (before
                ++ Engine.Completion
                     (messages ++ answer :: Trace.tool_entries evs)%list
                     (Engine.follow_up_params cfg stream)
                :: Trace.after_follow_up
                     (Trace.response_text backend stream
                        (messages ++ answer :: Trace.tool_entries evs)%list
                        (Engine.follow_up_params cfg stream)))%list
    end
    /\ PyDict.mem "tools" (Engine.follow_up_params cfg stream) = false
    /\ PyDict.mem "tool_choice" (Engine.follow_up_params cfg stream) = false
    /\ match Trace.completions evs with
       | [] => Trace.tool_entries evs = []
       | (messages, params) :: follow_ups =>
           match Engine.first_reply backend stream messages params with
           | Engine.Replied _ (tool_call :: calls) =>
               length (Trace.tool_entries evs) = length (tool_call :: calls)
               /\ length follow_ups = 1%nat
           | _ => follow_ups = [] /\ Trace.tool_entries evs = []
           end
       end.
Proof.
  intros L cfg backend invoke ch stream c message evs.
  destruct (TurnFacts.follow_up_params_no_tools cfg stream) as [Hno1 Hno2].
  pose proof (TurnFacts.turn_trace cfg backend invoke ch stream c message) as Ht.
  pose proof (TurnFacts.turn_ending cfg backend invoke ch stream c message) as Hend.
  fold evs in Ht, Hend.
  destruct Ht as [[Hc He]|(messages & params & Ht)].
  - rewrite Hc, He. cbn. repeat split; auto.
  - destruct (Engine.first_reply backend stream messages params)
      as [notice|text calls] eqn:Hfirst.
    + destruct Ht as [Hc He]. rewrite Hc, He, Hfirst. cbn. repeat split; auto.
    + destruct Ht as (results & Hlen & He & Hc). rewrite Hc, He, Hfirst.
      destruct results as [|r results]; destruct calls as [|tc calls];
        try discriminate Hlen.
      * cbn. repeat split; auto.
      * repeat split; auto; try exact Hlen.
        destruct (Hend ltac:(rewrite He; discriminate)) as (before & m2 & Hevs).
        exists messages, params, (Engine.assistant_message text (tc :: calls)),
               before.
        split; [reflexivity|]. split; [reflexivity|].
        assert (Hm2 : m2 = (messages
                            ++ Engine.assistant_message text (tc :: calls)
                            :: r :: results)%list).
        { pose proof Hc as Hc'. rewrite Hevs in Hc'.
          rewrite TurnFacts.completions_app in Hc'. cbn [Trace.completions flat_map] in Hc'.
          fold (Trace.completions (Trace.after_follow_up
                  (Trace.response_text backend stream m2
                     (Engine.follow_up_params cfg stream)))) in Hc'.
          rewrite TurnFacts.completions_after_follow_up in Hc'.
          cbn [app] in Hc'.
          change [(messages, params);
                  ((messages ++ Engine.assistant_message text (tc :: calls)
                    :: r :: results)%list, Engine.follow_up_params cfg stream)]
            with ([(messages, params)]
                  ++ [((messages ++ Engine.assistant_message text (tc :: calls)
                        :: r :: results)%list,
                       Engine.follow_up_params cfg stream)])%list in Hc'.
          apply app_inj_tail in Hc' as [_ Hc']. now injection Hc'. }
        rewrite <- Hm2. exact Hevs.
Qed.

(** A turn on the ready cog of the sample: the backend asks for [lookup],
    the tool answers the text block "42", and the follow-up is the second
    and last call. *)
Example turn_with_one_tool_call :
  let evs := snd (@Engine.handle_chat_logic Sample.lib Sample.cfg2 Sample.backend
                    Sample.answers42 7 false (snd Sample.ready) "what is it?") in
  map (fun m => msg_content m) (Trace.tool_entries evs) = [Some "42"]
  /\ length (Trace.completions evs) = 2%nat
  /\ map (fun mp => PyDict.mem "tools" (snd mp)) (Trace.completions evs)
     = [true; false].
Proof. vm_compute. repeat split. Qed.

(** The schema of the sample tool: the type is mapped through its lower
    case, the description is generated, the parameter is required. *)
Example schema_of_lookup :
  Schema.format_tools_for_openai (snd Sample.ready)
  = [{| Schema.ot_name := "lookup";
        Schema.ot_description := "Looks a word up";
        Schema.ot_properties :=
          [("word", {| Schema.ps_type := "string";
                       Schema.ps_description := "Parameter word";
                       Schema.ps_enum := None; Schema.ps_default := None;
                       Schema.ps_items := None;
                       Schema.ps_properties := false |})];
        Schema.ot_required := Some ["word"] |}].
Proof. reflexivity. Qed.

(** ** Conversation history: what a turn leaves stored *)

Module StoredFacts.
Import Engine History Trace.

Lemma tool_role (ms : list Message) :
  forallb is_tool ms = true -> Forall (fun m => role m = tool) ms.
Proof.
  induction ms as [|m ms IH]; [constructor|].
  cbn [forallb]. intros Hm. apply andb_prop in Hm as [Hm Hms].
  constructor; [|now apply IH].
  unfold is_tool in Hm. now destruct (role m).
Qed.

(** The follow-up stores the results and, after them, at most the reply
    of the assistant; these are the messages its trace records. *)
Lemma follow_up_stored cfg backend ch stream results c h :
  PyDict.get ch (message_history c) = Some h ->
  let after := follow_up cfg backend ch stream results c in
  exists reply,
    appended (snd after) = (results ++ reply)%list
    /\ Forall (fun m => role m = assistant) reply
    /\ PyDict.get ch (message_history (fst after))
       = Some (h ++ results ++ reply)%list.
Proof.
  intros Hg. rewrite CallFacts.follow_up_eq.
  destruct results as [|r results].
  { exists []. cbn [fst snd appended flat_map app]. rewrite app_nil_r.
    repeat split; [constructor|exact Hg]. }
  destruct (HistoryFacts.extend_history_grows ch (r :: results) c h Hg)
    as [Hh _].
  cbv beta iota zeta.
  destruct (follow_up_text _ _ _ _) as [f|text].
  - exists []. cbn [fst snd appended flat_map app]. rewrite ?app_nil_r.
    repeat split; [constructor|exact Hh].
  - destruct (strip_truthy text); cbn [fst snd].
    + exists [plain assistant text]. split; [|split].
      * cbn [appended flat_map app]. rewrite ?app_nil_r. reflexivity.
      * repeat constructor.
      * destruct (HistoryFacts.extend_history_grows ch [plain assistant text]
                    _ _ Hh) as [Hh' _].
        rewrite Hh'. now rewrite <- app_assoc.
    + exists []. cbn [appended flat_map app]. rewrite ?app_nil_r.
      repeat split; [constructor|exact Hh].
Qed.

(** After a turn the stored history is what the read gave followed by the
    messages the turn appended, in the order of the trace: the message of
    the user, then messages of the assistant and of tools. *)
Lemma turn_stored `{PyLib} cfg backend invoke ch stream c message h c0 :
  get_channel_history cfg c ch = Some (h, c0) ->
  PyDict.get ch (message_history c0) = Some h ->
  let turn := handle_chat_logic cfg backend invoke ch stream c message in
  PyDict.get ch (message_history (fst turn))
  = Some (h ++ appended (snd turn))%list
  /\ exists more,
      appended (snd turn) = plain user message :: more
      /\ Forall (fun m => role m = assistant \/ role m = tool) more.
Proof.
  intros Hread Hh. rewrite CallFacts.handle_chat_logic_eq, Hread.
  cbv beta iota zeta.
  set (asked := plain user message).
  destruct (HistoryFacts.extend_history_grows ch [asked] c0 h Hh) as [Hh1 _].
  set (c1 := extend_history ch [asked] c0) in *.
  assert (Hstop : forall said,
             PyDict.get ch (message_history c1)
             = Some (h ++ appended ([Append [asked];
                                     Completion (history_of ch c1)
                                                (first_params cfg stream c1)]
                                    ++ [Send said]))%list
             /\ exists more,
                 appended ([Append [asked];
                            Completion (history_of ch c1)
                                       (first_params cfg stream c1)]
                           ++ [Send said])%list
                 = asked :: more
                 /\ Forall (fun m => role m = assistant \/ role m = tool) more).
  { intros said. cbn. split; [exact Hh1|]. exists []. split; [reflexivity|constructor]. }
  destruct (first_reply backend stream (history_of ch c1)
                        (first_params cfg stream c1)) as [notice|text calls];
    [apply Hstop|].
  set (answer := assistant_message text calls).
  destruct (HistoryFacts.extend_history_grows ch [answer] c1 _ Hh1) as [Hh2 _].
  assert (Hmain :
    forall said,
      appended said = [] ->
      let turn :=
        (let '(results, sent, c3) :=
           run_tool_calls invoke 0 calls (extend_history ch [answer] c1) in
         let '(c4, after) := follow_up cfg backend ch stream results c3 in
         (c4, ([Append [asked];
                Completion (history_of ch c1) (first_params cfg stream c1)]
               ++ said ++ [Append [answer]] ++ sent ++ after)%list)) in
      PyDict.get ch (message_history (fst turn))
      = Some (h ++ appended (snd turn))%list
      /\ exists more,
          appended (snd turn) = asked :: more
          /\ Forall (fun m => role m = assistant \/ role m = tool) more).
  { intros said Hsa. cbv zeta.
    pose proof (TurnFacts.run_tool_calls_trace invoke calls 0
                  (extend_history ch [answer] c1)) as Ht.
    pose proof (HistoryFacts.run_tool_calls_history invoke calls 0
                  (extend_history ch [answer] c1)) as Hrun.
    destruct (run_tool_calls invoke 0 calls (extend_history ch [answer] c1))
      as [[results sent] c3].
    destruct Ht as (_ & Htool & _ & Has). cbn [snd] in Hrun.
    rewrite <- Hrun in Hh2.
    destruct (follow_up_stored cfg backend ch stream results c3 _ Hh2)
      as (reply & Hafter & Hreply & Hstored).
    destruct (follow_up cfg backend ch stream results c3) as [c4 after].
    cbn [fst snd] in *.
    assert (Happ : appended ([Append [asked];
                              Completion (history_of ch c1)
                                         (first_params cfg stream c1)]
                             ++ said ++ [Append [answer]] ++ sent ++ after)%list
                   = asked :: answer :: (results ++ reply)%list).
    { rewrite (TurnFacts.appended_app [_; _]), (TurnFacts.appended_app said),
        (TurnFacts.appended_app [_]), (TurnFacts.appended_app sent),
        Hsa, Has, Hafter.
      reflexivity. }
    rewrite Happ. split.
    - rewrite Hstored. f_equal. rewrite <- !app_assoc. reflexivity.
    - exists (answer :: results ++ reply)%list. split; [reflexivity|].
      constructor; [left; reflexivity|]. apply Forall_app. split.
      + apply tool_role in Htool.
        eapply Forall_impl; [|exact Htool]. intros m Hm. now right.
      + eapply Forall_impl; [|exact Hreply]. intros m Hm. now left. }
  destruct (strip_truthy text).
  - exact (Hmain [Send text] eq_refl).
  - destruct calls as [|tc calls]; [apply Hstop|exact (Hmain [] eq_refl)].
Qed.

End StoredFacts.

(** C9. Over cogs whose stored histories start with the system message:
    the read of a history ([get_channel_history]) gives, and leaves stored,
    the system message alone for a new channel and otherwise the first
    message of the stored list followed by its last messages, as many as
    the cap allows, in the same order; [append]/[extend] add at the end;
    and after a whole turn every stored history still starts with the
    system message, the other channels are untouched, and the history of
    the channel is exactly what the read gave followed by the messages the
    turn appended, in the order in which it appended them: the message of
    the user first, then messages of the assistant and of tools. *)
Theorem history_invariant :
  forall (L : PyLib) (cfg : Engine.Config) (backend : Engine.Backend)
         (invoke : nat -> Router.Invoker) (channel_id : Z) (stream : bool)
         (c : Cog) (message : string),
    History.well_formed cfg c ->
    let turn := Engine.handle_chat_logic cfg backend invoke channel_id
                                         stream c message in
    let h := History.read cfg channel_id c in
    (exists c0,
        Engine.get_channel_history cfg c channel_id = Some (h, c0)
        /\ PyDict.get channel_id (message_history c0) = Some h
        /\ History.others_kept channel_id c c0)
    /\ (exists rest, h = Engine.system_entry cfg :: rest)
    /\ (forall h1 ms,
           PyDict.get channel_id (message_history c) = Some h1 ->
           PyDict.get channel_id
             (message_history (Engine.extend_history channel_id ms c))
           = Some (h1 ++ ms)%list
           /\ History.others_kept channel_id c
                (Engine.extend_history channel_id ms c))
    /\ History.well_formed cfg (fst turn)
    /\ History.others_kept channel_id c (fst turn)
    /\ PyDict.get channel_id (message_history (fst turn))
       = Some (h ++ Trace.appended (snd turn))%list
    /\ exists more,
        Trace.appended (snd turn) = Engine.plain user message :: more
        /\ Forall (fun m => role m = assistant \/ role m = tool) more.
Proof.
  intros L cfg backend invoke ch stream c message Hwf turn h.
  destruct (HistoryFacts.get_channel_history_read cfg c ch Hwf)
    as (c0 & Hread & Hstored & Hkept & rest & Hrest).
  fold h in Hread, Hstored, Hrest.
  pose proof (HistoryFacts.turn_grows cfg backend invoke ch stream c message
                h c0 Hread Hstored) as [Hkept' _].
  destruct (StoredFacts.turn_stored cfg backend invoke ch stream c message
              h c0 Hread Hstored) as [Hexact Hroles].
  fold turn in Hkept', Hexact, Hroles.
  assert (Hothers : History.others_kept ch c (fst turn))
    by now apply (HistoryFacts.others_kept_trans ch c c0 (fst turn)).
  split; [now exists c0|]. split; [now exists rest|]. split.
  { intros h1 ms1 Hg.
    destruct (HistoryFacts.extend_history_grows ch ms1 c h1 Hg) as [He [Ho _]].
    now split. }
  split; [|split; [exact Hothers|split; [exact Hexact|exact Hroles]]].
  intros other hx Hx.
  destruct (Z.eq_dec other ch) as [->|Hne].
  - rewrite Hexact in Hx. injection Hx as <-. rewrite Hrest. now eexists.
  - rewrite (Hothers other Hne) in Hx. exact (Hwf other hx Hx).
Qed.

Lemma history_invariant_witness :
  let turn := @Engine.handle_chat_logic Sample.lib Sample.cfg2 Sample.backend
                Sample.answers42 7 false Sample.cog6_ready "u4" in
  PyDict.get 7 (message_history (fst turn))
  = Some (History.read Sample.cfg2 7 Sample.cog6_ready
          ++ Trace.appended (snd turn))%list.
Proof.
  refine (proj1 (proj2 (proj2 (proj2 (proj2 (proj2
            (history_invariant Sample.lib Sample.cfg2 Sample.backend
               Sample.answers42 7 false Sample.cog6_ready "u4" _))))))).
  intros channel_id h. cbn.
  destruct (channel_id =? 7); [|discriminate].
  intros [= <-]. eexists. reflexivity.
Defined.

(** The turn of the sample on the stored history [system, u1, a1, u2, a2,
    u3] with a cap of 2: the read keeps [system, a2, u3], and the turn
    adds, in this order, the message of the user, the request of the
    assistant, the result of the tool and the reply of the assistant. *)
Example turn_on_six_messages :
  let turn := @Engine.handle_chat_logic Sample.lib Sample.cfg2 Sample.backend
                Sample.answers42 7 false Sample.cog6_ready "u4" in
  option_map (map (fun m => (role m, msg_content m)))
             (PyDict.get 7 (message_history (fst turn)))
  = Some [(system, Some "You are a helpful AI assistant.");
          (assistant, Some "a2"); (user, Some "u3"); (user, Some "u4");
          (assistant, None); (tool, Some "42"); (assistant, Some "done")].
Proof. vm_compute. reflexivity. Qed.

(** ** Characters *)

Module TextFacts.
Import Text.

Lemma concat_app (a b : list string) :
  String.concat "" (a ++ b) = String.concat "" a ++ String.concat "" b.
Proof.
  induction a as [|x a IH]; [reflexivity|].
  cbn [app]. rewrite !SlotFacts.concat_cons, IH.
  now rewrite SlotFacts.str_app_assoc.
Qed.

(** The characters of a string, one after the other, are the string. *)
Lemma chars_concat s : String.concat "" (chars s) = s.
Proof.
  induction s as [|c s IH]; [reflexivity|].
  cbn [chars]. destruct (chars s) as [|ch rest].
  - cbn in IH. now subst s.
  - rewrite SlotFacts.concat_cons in IH.
    destruct (starts_with_continuation ch);
      rewrite !SlotFacts.concat_cons; cbn [append]; now rewrite IH.
Qed.

Lemma head_chars s ch rest :
  chars s = ch :: rest ->
  starts_with_continuation ch = starts_with_continuation s.
Proof.
  destruct s as [|c s]; [discriminate|]. cbn [chars].
  destruct (chars s) as [|ch0 rest0];
    [|destruct (starts_with_continuation ch0)]; intros [= <- _]; reflexivity.
Qed.

Lemma chars_ok s : split_ok (chars s).
Proof.
  induction s as [|c s IH]; [exact I|].
  cbn [chars]. destruct (chars s) as [|ch rest].
  - split; [now exists c, ""|constructor].
  - destruct IH as [(c0 & t & -> & Ht) Hrest].
    destruct (starts_with_continuation (String c0 t)) eqn:Hc.
    + split; [|exact Hrest]. exists c, (String c0 t). split; [reflexivity|].
      cbn in *. now rewrite Hc, Ht.
    + split; [now exists c, ""|]. constructor; [|exact Hrest].
      split; [now exists c0, t|exact Hc].
Qed.

Lemma chars_char_app t s :
  all_continuation t = true -> starts_with_continuation s = false ->
  forall c, chars (String c (t ++ s)) = String c t :: chars s.
Proof.
  intros Ht Hs. induction t as [|c1 t IH]; intros c.
  - cbn [append chars]. destruct (chars s) as [|ch rest] eqn:E; [reflexivity|].
    now rewrite (head_chars s ch rest E), Hs.
  - cbn in Ht. apply andb_prop in Ht as [Hc1 Ht].
    assert (E : forall x,
               chars (String c x)
               = match chars x with
                 | ch :: rest =>
                     if starts_with_continuation ch then String c ch :: rest
                     else String c EmptyString :: ch :: rest
                 | [] => [String c EmptyString]
                 end) by reflexivity.
    cbn [append]. rewrite E, (IH Ht c1). cbn [starts_with_continuation]. now rewrite Hc1.
Qed.

Lemma chars_proper gs :
  Forall proper gs ->
  chars (String.concat "" gs) = gs
  /\ starts_with_continuation (String.concat "" gs) = false.
Proof.
  induction 1 as [|g gs [(c & t & -> & Ht) Hg] _ [IH1 IH2]]; [now split|].
  rewrite SlotFacts.concat_cons. cbn [append]. split; [|exact Hg].
  now rewrite (chars_char_app t _ Ht IH2 c), IH1.
Qed.

(** Cutting a text between characters and reading the piece again gives
    the same characters. *)
Lemma chars_resplit gs : split_ok gs -> chars (String.concat "" gs) = gs.
Proof.
  destruct gs as [|g gs]; [reflexivity|].
  intros [(c & t & -> & Ht) Hrest].
  destruct (chars_proper gs Hrest) as [H1 H2].
  rewrite SlotFacts.concat_cons. cbn [append].
  now rewrite (chars_char_app t _ Ht H2 c), H1.
Qed.

Lemma proper_split_ok gs : Forall proper gs -> split_ok gs.
Proof. destruct 1 as [|g gs [Hg _] Hgs]; [exact I|now split]. Qed.

Lemma split_ok_skipn n : forall gs, split_ok gs -> split_ok (skipn n gs).
Proof.
  destruct n as [|n]; intros gs Hok; [exact Hok|].
  destruct gs as [|g gs]; [exact I|]. destruct Hok as [_ Hrest].
  cbn [skipn]. apply proper_split_ok.
  rewrite <- (firstn_skipn n gs) in Hrest. now apply Forall_app in Hrest.
Qed.

Lemma split_ok_firstn n : forall gs, split_ok gs -> split_ok (firstn n gs).
Proof.
  destruct n as [|n]; intros gs Hok; [exact I|].
  destruct gs as [|g gs]; [exact I|]. destruct Hok as [Hg Hrest].
  cbn [firstn]. split; [exact Hg|].
  rewrite <- (firstn_skipn n gs) in Hrest. now apply Forall_app in Hrest.
Qed.

Lemma chars_slice a b s :
  chars (py_slice a b s) = firstn (b - a) (skipn a (chars s)).
Proof.
  unfold py_slice. apply chars_resplit, split_ok_firstn, split_ok_skipn, chars_ok.
Qed.

(** [len(s[a:b])] *)
Lemma py_len_slice a b s :
  py_len (py_slice a b s) = Nat.min (b - a) (py_len s - a).
Proof.
  unfold py_len. now rewrite chars_slice, length_firstn, length_skipn.
Qed.

(** [s[:n]] is the start of [s], and all of it when [s] is that short. *)
Lemma py_take_prefix n s : exists rest, s = py_take n s ++ rest.
Proof.
  exists (String.concat "" (skipn n (chars s))).
  unfold py_take, py_slice. cbn [skipn]. rewrite Nat.sub_0_r.
  now rewrite <- concat_app, firstn_skipn, chars_concat.
Qed.

Lemma py_take_all n s : (py_len s <= n)%nat -> py_take n s = s.
Proof.
  intros Hle. unfold py_take, py_slice. cbn [skipn].
  rewrite Nat.sub_0_r, firstn_all2 by exact Hle. apply chars_concat.
Qed.

End TextFacts.

(** Characters are code points: a two-byte character counts once, and the
    whitespace of [strip] is not only ASCII. *)
Example characters_are_code_points :
  py_len "é" = 1%nat
  /\ String.length "é" = 2%nat
  /\ py_len Sample.spaces = 3%nat
  /\ strip_truthy Sample.spaces = false
  /\ strip_truthy (Sample.spaces ++ "é") = true
  /\ py_strip (Sample.spaces ++ "é" ++ Sample.spaces) = "é"
  /\ py_take 2 (Sample.accents 3) = Sample.accents 2.
Proof. vm_compute. repeat split. Qed.

(** ** Result formatting *)

Module FormatterFacts.
Import Formatter.

Lemma try_str_throws `{PyLib} v e :
  try_str v = Throws e -> str_raises v = Some e.
Proof.
  destruct v; cbn; try discriminate;
    destruct (str_raises _); now intros [= ->].
Qed.

Lemma pretty_throws `{PyLib} v e :
  pretty v = Throws e -> str_raises v = Some e \/ json_dumps v = DumpOther e.
Proof.
  unfold pretty. destruct (json_dumps v) as [doc| |e'].
  - discriminate.
  - intros Ht. left. now apply try_str_throws.
  - intros [= ->]. now right.
Qed.

(** An exception that leaves the formatter is one that [str()] or
    [json.dumps] raised, and it is not the [TypeError] of [json.dumps]. *)
Lemma format_throws `{PyLib} result e :
  format_calltoolresult_content result = Throws e ->
  (exists v, str_raises v = Some e) \/ (exists v, json_dumps v = DumpOther e).
Proof.
  destruct result as [[v ec]|err|other]; cbn [format_calltoolresult_content content].
  - destruct v as [|b|z|f|s|l|d|shown]; try discriminate.
    + intros Ht. apply pretty_throws in Ht as [Ht|Ht]; eauto.
    + destruct (is_text_block d).
      * destruct (PyDict.get "text" d) as [[|b|z|f|s|l|d'|shown]|];
          try discriminate; intros Ht; apply try_str_throws in Ht; eauto.
      * intros Ht. apply pretty_throws in Ht as [Ht|Ht]; eauto.
    + intros Ht. apply try_str_throws in Ht. eauto.
  - discriminate.
  - destruct (try_str other) as [shown|e'] eqn:Ht; [discriminate|].
    intros [= ->]. apply try_str_throws in Ht. eauto.
Qed.

End FormatterFacts.

(** C8 (as stated, refuted). A successful result whose content is an
    object of an unexpected type with a [str()] of 300 characters is
    formatted as those 300 characters: it is neither cut nor turned into
    the diagnostic string. And the formatter is not total: when
    [json.dumps] raises [ValueError] on a list, the exception leaves it. *)
Lemma unexpected_content_is_not_truncated :
  let result :=
    Formatter.Invocation {| content := PObject Sample.long_text;
                            error_code := None |} in
  let out := @Formatter.format_calltoolresult_content Sample.lib result in
  out = Returns Sample.long_text
  /\ py_len Sample.long_text = 300%nat
  /\ out <> Returns ("Unexpected tool result format: "
                     ++ py_take 200 Sample.long_text)
  /\ @Formatter.format_calltoolresult_content Sample.cyclic
       (Formatter.Invocation {| content := PList [PInt 1]; error_code := Some 0 |})
     = Throws "Circular reference detected".
Proof. vm_compute. repeat split. discriminate. Qed.

(** C8 (amended). The formatter returns a string whenever the [str()] and
    [json.dumps] calls it makes return, and when [json.dumps] raises
    [TypeError]: the text block with text "42" gives exactly "42", and a
    text block gives the [str()] of its text; a result without content
    gives the fixed no-content message; an error dictionary gives its
    error after "Tool Error: "; a string, an integer, a float or a boolean
    gives its [str()]; a list, and a dictionary that is not a text block,
    gives its [json.dumps] with indent 2, and its [str()] when that raises
    [TypeError]; an argument that is neither a result nor an error
    dictionary gives "Unexpected tool result format: " followed by the
    first 200 characters of its [str()]; content of any other type inside
    a result gives its [str()] in full. An exception that leaves the
    formatter is one raised by [str()] or by [json.dumps]. *)
Theorem format_result_cases :
  forall L : PyLib,
    Formatter.format_calltoolresult_content
      (Formatter.Invocation
         {| content := PDict [("type", PStr "text"); ("text", PStr "42")];
            error_code := Some 0 |}) = Returns "42"
    /\ (forall d ec,
           Formatter.is_text_block d = true ->
           Formatter.format_calltoolresult_content
             (Formatter.Invocation {| content := PDict d; error_code := ec |})
           = match PyDict.get "text" d with
             | Some PNone | None => Returns ""
             | Some text => try_str text
             end)
    /\ (forall ec,
           Formatter.format_calltoolresult_content
             (Formatter.Invocation {| content := PNone; error_code := ec |})
           = Returns "Tool executed successfully but returned no content.")
    /\ (forall err,
           Formatter.format_calltoolresult_content (Formatter.ErrorDict err)
           = Returns ("Tool Error: " ++ err))
    /\ (forall tn e,
           Formatter.format_calltoolresult_content
             (Formatter.of_exec tn (Router.Failed e))
           = Returns ("Tool Error: " ++ Router.error_text tn e))
    /\ (forall s z f b ec,
           Formatter.format_calltoolresult_content
             (Formatter.Invocation {| content := PStr s; error_code := ec |})
           = Returns s
           /\ Formatter.format_calltoolresult_content
                (Formatter.Invocation {| content := PInt z; error_code := ec |})
              = Returns (str_int z)
           /\ Formatter.format_calltoolresult_content
                (Formatter.Invocation {| content := PFloat f; error_code := ec |})
              = Returns (float_str f)
           /\ Formatter.format_calltoolresult_content
                (Formatter.Invocation {| content := PBool b; error_code := ec |})
              = Returns (if b then "True" else "False"))
    /\ (forall v ec,
           match v with
           | PList _ => True
           | PDict d => Formatter.is_text_block d = false
           | _ => False
           end ->
           Formatter.format_calltoolresult_content
             (Formatter.Invocation {| content := v; error_code := ec |})
           = match json_dumps v with
             | DumpOk document => Returns document
             | DumpTypeError =>
                 match str_raises v with
                 | None => Returns (container_str v)
                 | Some e => Throws e
                 end
             | DumpOther e => Throws e
             end)
    /\ (forall other shown,
           try_str other = Returns shown ->
           exists cut rest,
             Formatter.format_calltoolresult_content (Formatter.OtherValue other)
             = Returns ("Unexpected tool result format: " ++ cut)
             /\ shown = cut ++ rest
             /\ py_len cut = Nat.min 200 (py_len shown)
             /\ ((py_len shown <= 200)%nat -> cut = shown))
    /\ (forall shown ec,
           str_raises (PObject shown) = None ->
           Formatter.format_calltoolresult_content
             (Formatter.Invocation {| content := PObject shown; error_code := ec |})
           = Returns shown)
    /\ ((forall v, str_raises v = None) ->
        (forall v e, json_dumps v <> DumpOther e) ->
        forall result,
          exists formatted,
            Formatter.format_calltoolresult_content result = Returns formatted)
    /\ (forall result e,
           Formatter.format_calltoolresult_content result = Throws e ->
           (exists v, str_raises v = Some e)
           \/ (exists v, json_dumps v = DumpOther e)).
Proof.
  intros L.
  split; [reflexivity|]. split.
  { intros d ec Hd. cbn. now rewrite Hd. }
  split; [reflexivity|]. split; [reflexivity|]. split; [reflexivity|].
  split; [intros s z f [|] ec; repeat split|]. split.
  { intros [| | | | |l|d|] ec Hv; try contradiction; cbn;
      [|rewrite Hv]; unfold Formatter.pretty;
      destruct (json_dumps _); reflexivity. }
  split.
  { intros other shown Hs.
    destruct (TextFacts.py_take_prefix 200 shown) as [rest Hrest].
    exists (py_take 200 shown), rest.
    cbn [Formatter.format_calltoolresult_content]. rewrite Hs.
    split; [reflexivity|]. split; [exact Hrest|]. split.
    - unfold py_take. rewrite TextFacts.py_len_slice. now rewrite !Nat.sub_0_r.
    - apply TextFacts.py_take_all. }
  split.
  { intros shown ec Hs. cbn. now rewrite Hs. }
  split.
  { intros Hstr Hdump result.
    destruct (Formatter.format_calltoolresult_content result) as [out|e] eqn:Hf;
      [now exists out|].
    apply FormatterFacts.format_throws in Hf as [[v Hv]|[v Hv]].
    - now rewrite Hstr in Hv.
    - now elim (Hdump v e). }
  intros result e. apply FormatterFacts.format_throws.
Qed.

Lemma format_result_cases_witness :
  (exists formatted,
      @Formatter.format_calltoolresult_content Sample.lib
        (Formatter.OtherValue (PObject (Sample.accents 300)))
      = Returns formatted)
  /\ (exists cut rest,
         @Formatter.format_calltoolresult_content Sample.lib
           (Formatter.OtherValue (PObject (Sample.accents 300)))
         = Returns ("Unexpected tool result format: " ++ cut)
         /\ Sample.accents 300 = cut ++ rest
         /\ py_len cut = Nat.min 200 (py_len (Sample.accents 300))
         /\ ((py_len (Sample.accents 300) <= 200)%nat -> cut = Sample.accents 300))
  /\ ((exists v, @str_raises Sample.cyclic v = Some "Circular reference detected")
      \/ (exists v, @json_dumps Sample.cyclic v
                    = DumpOther "Circular reference detected")).
Proof.
  pose proof (format_result_cases Sample.lib)
    as (_ & _ & _ & _ & _ & _ & _ & Hcut & _ & Htotal & _).
  pose proof (format_result_cases Sample.cyclic)
    as (_ & _ & _ & _ & _ & _ & _ & _ & _ & _ & Hthrows).
  split; [|split].
  - apply Htotal; [reflexivity|discriminate].
  - apply (Hcut (PObject (Sample.accents 300)) (Sample.accents 300)).
    reflexivity.
  - apply (Hthrows (Formatter.Invocation
                      {| content := PList [PInt 1]; error_code := Some 0 |})).
    reflexivity.
Defined.

(** ** Registry *)

Module RegistryFacts.
Import Lifecycle.

(** Agreement only looks at the two registries. *)
Lemma keys_agree_same c c' :
  mcp_connections c' = mcp_connections c -> mcp_tools c' = mcp_tools c ->
  keys_agree c -> keys_agree c'.
Proof. intros Hc Ht Ha s. now rewrite Hc, Ht. Qed.

Lemma keys_agree_new : keys_agree new_cog.
Proof. intros s. reflexivity. Qed.

Lemma keys_agree_publish t tools c :
  keys_agree c -> keys_agree (snd (Supervisor.publish t tools c)).
Proof. intros Ha s. cbn. now rewrite !mem_set, Ha. Qed.

Lemma keys_agree_finish t c :
  keys_agree c -> keys_agree (snd (Supervisor.finish t c)).
Proof. intros Ha. now apply RouterFacts.keys_agree_evict. Qed.

Lemma keys_agree_loop_head t c :
  keys_agree c -> keys_agree (snd (Supervisor.loop_head t c)).
Proof.
  intros Ha. unfold Supervisor.loop_head.
  destruct (shutdown_event c); [now apply keys_agree_finish|exact Ha].
Qed.

Lemma keys_agree_cleanup t c :
  keys_agree c -> keys_agree (snd (Supervisor.cleanup_and_wait t c)).
Proof.
  intros Ha. unfold Supervisor.cleanup_and_wait.
  pose proof (RouterFacts.keys_agree_evict (Supervisor.name t) c Ha) as He.
  destruct (shutdown_event (evict (Supervisor.name t) c));
    [now apply keys_agree_loop_head|exact He].
Qed.

Lemma some_snd {A B} (p : A * B) (a : A) (b : B) :
  Some p = Some (a, b) -> b = snd p.
Proof. now intros [= ->]. Qed.

Lemma keys_agree_resume t c w t' c' :
  Supervisor.resume t c w = Some (t', c') -> keys_agree c -> keys_agree c'.
Proof.
  intros Hr Ha. unfold Supervisor.resume in Hr.
  destruct (Supervisor.phase t); destruct w as [[tools| | |]| | |];
    try discriminate Hr;
    try (destruct (shutdown_event c); [|discriminate Hr]);
    try (apply some_snd in Hr; subst c';
         first [ apply (keys_agree_cleanup t c Ha)
               | apply (keys_agree_finish t c Ha)
               | apply keys_agree_loop_head; exact Ha ]).
  pose proof (keys_agree_publish t tools c Ha) as Hp.
  destruct (Supervisor.publish t tools c) as [t1 c1]. cbn [snd] in Hp.
  destruct (shutdown_event c1); apply some_snd in Hr; subst c';
    [now apply keys_agree_cleanup|exact Hp].
Qed.

Lemma keys_agree_settle c server o :
  keys_agree c -> keys_agree (snd (Router.settle c server o)).
Proof.
  intros Ha. destruct o as [r| | |msg]; cbn; try exact Ha.
  - destruct (error_code r) as [code|]; [|exact Ha].
    destruct (negb (code =? 0)); exact Ha.
  - now apply RouterFacts.keys_agree_evict.
Qed.

Lemma keys_agree_execute invoke c tn input :
  keys_agree c -> keys_agree (snd (Router.execute_tool invoke c tn input)).
Proof.
  intros Ha. unfold Router.execute_tool.
  destruct (Router.resolve c tn) as [e|[s cl]]; [exact Ha|].
  now apply keys_agree_settle.
Qed.

Lemma keys_agree_run_tool_calls `{PyLib} invoke calls : forall n c,
  keys_agree c -> keys_agree (snd (Engine.run_tool_calls invoke n calls c)).
Proof.
  induction calls as [|tc calls IH]; intros n c Ha; [exact Ha|].
  cbn [Engine.run_tool_calls].
  destruct (json_loads (fn_arguments tc)) as [[| | | | | |d|]|];
    try solve [specialize (IH (S n) c Ha);
               destruct (Engine.run_tool_calls invoke (S n) calls c)
                 as [[es evs] c2];
               exact IH].
  pose proof (keys_agree_execute (invoke n) c (fn_name tc) (PDict d) Ha) as He.
  destruct (Router.execute_tool (invoke n) c (fn_name tc) (PDict d)) as [r c1].
  specialize (IH (S n) c1 He).
  destruct (Formatter.format_calltoolresult_content _) as [formatted|exec_e];
    destruct (Engine.run_tool_calls invoke (S n) calls c1) as [[es evs] c2];
    exact IH.
Qed.

Lemma keys_agree_extend ch ms c :
  keys_agree c -> keys_agree (Engine.extend_history ch ms c).
Proof.
  unfold Engine.extend_history.
  destruct (PyDict.get ch (message_history c)); [|trivial].
  now apply keys_agree_same.
Qed.

Lemma keys_agree_read cfg c ch h c0 :
  Engine.get_channel_history cfg c ch = Some (h, c0) ->
  keys_agree c -> keys_agree c0.
Proof.
  unfold Engine.get_channel_history.
  destruct (PyDict.get ch (message_history c)) as [old|].
  - destruct (Z.of_nat (length old) >? Engine.max_history_length cfg + 1).
    + destruct old; [discriminate|]. intros [= <- <-].
      now apply keys_agree_same.
    + now intros [= <- <-].
  - intros [= <- <-]. now apply keys_agree_same.
Qed.

Lemma keys_agree_follow_up `{PyLib} cfg backend ch stream results c :
  keys_agree c ->
  keys_agree (fst (Engine.follow_up cfg backend ch stream results c)).
Proof.
  intros Ha. rewrite CallFacts.follow_up_eq.
  destruct results as [|r results]; [exact Ha|].
  cbv beta iota zeta.
  destruct (Engine.follow_up_text _ _ _ _) as [f|text]; cbn [fst].
  - now apply keys_agree_extend.
  - destruct (strip_truthy text); cbn [fst]; repeat apply keys_agree_extend;
      exact Ha.
Qed.

Lemma keys_agree_turn `{PyLib} cfg backend invoke ch stream c message :
  keys_agree c ->
  keys_agree (fst (Engine.handle_chat_logic cfg backend invoke ch stream
                                            c message)).
Proof.
  intros Ha. rewrite CallFacts.handle_chat_logic_eq.
  destruct (Engine.get_channel_history cfg c ch) as [[h c0]|] eqn:Hread;
    [|exact Ha].
  pose proof (keys_agree_read cfg c ch h c0 Hread Ha) as H0.
  pose proof (keys_agree_extend ch [Engine.plain user message] c0 H0) as H1.
  set (c1 := Engine.extend_history ch [Engine.plain user message] c0) in *.
  cbv beta iota zeta.
  destruct (Engine.first_reply _ _ _ _) as [notice|text calls]; [exact H1|].
  assert (Hmain :
    forall said,
      keys_agree
        (fst (let '(results, sent, c3) :=
                Engine.run_tool_calls invoke 0 calls
                  (Engine.extend_history ch
                     [Engine.assistant_message text calls] c1) in
              let '(c4, after) :=
                Engine.follow_up cfg backend ch stream results c3 in
              (c4, ([Engine.Append [Engine.plain user message];
                     Engine.Completion (Engine.history_of ch c1)
                                       (Engine.first_params cfg stream c1)]
                    ++ said
                    ++ [Engine.Append [Engine.assistant_message text calls]]
                    ++ sent ++ after)%list)))).
  { intros said.
    pose proof (keys_agree_extend ch [Engine.assistant_message text calls] c1 H1)
      as H2.
    pose proof (keys_agree_run_tool_calls invoke calls 0 _ H2) as H3.
    destruct (Engine.run_tool_calls invoke 0 calls _) as [[results sent] c3].
    cbn [snd] in H3.
    pose proof (keys_agree_follow_up cfg backend ch stream results c3 H3) as H4.
    destruct (Engine.follow_up cfg backend ch stream results c3) as [c4 after].
    exact H4. }
  destruct (strip_truthy text); [apply Hmain|].
  destruct calls; [exact H1|apply Hmain].
Qed.

Lemma keys_agree_step `{PyLib} c c' : step c c' -> keys_agree c -> keys_agree c'.
Proof.
  intros Hs Ha. destruct Hs.
  - now apply (keys_agree_same c).
  - unfold Supervisor.start. now apply keys_agree_loop_head.
  - now apply (keys_agree_resume t c w t' c').
  - now apply keys_agree_settle.
  - now apply keys_agree_turn.
  - now apply (keys_agree_same c).
  - intros s. reflexivity.
Qed.

End RegistryFacts.

(** C10. At every suspension point of every interleaving of the
    supervisors, the router, the turns, [cog_load] and [cog_unload],
    a server name has a connection exactly when it has a tool list; from
    there, a publish leaves the server with both entries and an eviction
    leaves it with neither, and both keep the agreement. *)
Theorem registry_keys_agree :
  forall (L : PyLib) (c : Cog),
    Lifecycle.reachable c ->
    Lifecycle.keys_agree c
    /\ (forall t tools,
           let c' := snd (Supervisor.publish t tools c) in
           PyDict.mem (Supervisor.name t) (mcp_connections c') = true
           /\ PyDict.mem (Supervisor.name t) (mcp_tools c') = true
           /\ Lifecycle.keys_agree c')
    /\ (forall server,
           let c' := evict server c in
           PyDict.mem server (mcp_connections c') = false
           /\ PyDict.mem server (mcp_tools c') = false
           /\ Lifecycle.keys_agree c')
    /\ mcp_connections (Lifecycle.cog_unload_clear c) = []
    /\ mcp_tools (Lifecycle.cog_unload_clear c) = [].
Proof.
  intros L c Hreach.
  assert (Ha : Lifecycle.keys_agree c).
  { induction Hreach as [|c c' _ IH Hstep].
    - exact RegistryFacts.keys_agree_new.
    - exact (RegistryFacts.keys_agree_step c c' Hstep IH). }
  split; [exact Ha|]. split; [|split; [|split; reflexivity]].
  - intros t tools c'. subst c'. cbn [snd Supervisor.publish with_registry
                                       mcp_connections mcp_tools].
    rewrite !mem_set. cbn [keqb string_KeyEq]. rewrite String.eqb_refl.
    repeat split. now apply RegistryFacts.keys_agree_publish.
  - intros server c'. subst c'. cbn [evict with_registry mcp_connections mcp_tools].
    rewrite !mem_del. cbn [keqb string_KeyEq]. rewrite String.eqb_refl.
    repeat split. now apply RouterFacts.keys_agree_evict.
Qed.

Lemma registry_keys_agree_witness :
  Lifecycle.keys_agree (snd Sample.ready).
Proof.
  refine (proj1 (registry_keys_agree Sample.lib (snd Sample.ready) _)).
  apply (@Lifecycle.reach_step Sample.lib new_cog).
  - apply Lifecycle.reach_new.
  - apply (@Lifecycle.step_resume Sample.lib Sample.task0 new_cog
             (Supervisor.AttemptDone (Supervisor.Listed [Sample.lookup]))
             (fst Sample.ready)).
    reflexivity.
Defined.

(** * Further properties of the code *)

(** ** Router: resolution and what a call leaves behind *)

Module ResolutionFacts.
Import Router Resolution.

(** The scan returns the first connection whose server serves the tool. *)
Lemma find_client_first tn tools : forall conns s cl,
  find_client tn conns tools = Some (s, cl) ->
  exists before after,
    conns = (before ++ (s, cl) :: after)%list
    /\ (forall s' cl', In (s', cl') before ->
                       match PyDict.get s' tools with
                       | Some ts => lists_tool tn ts
                       | None => false
                       end = false)
    /\ match PyDict.get s tools with
       | Some ts => lists_tool tn ts
       | None => false
       end = true.
Proof.
  induction conns as [|[s0 cl0] conns IH]; intros s cl; simpl; [discriminate|].
  destruct (match PyDict.get s0 tools with
            | Some ts => lists_tool tn ts
            | None => false
            end) eqn:E.
  - intros [= <- <-]. exists [], conns. repeat split; [intros ? ? []|exact E].
  - intros Hf. destruct (IH s cl Hf) as (before & after & -> & Hb & Hs).
    exists ((s0, cl0) :: before), after. repeat split; [|exact Hs].
    intros s' cl' [[= <- <-]|Hin]; [exact E|now apply (Hb s' cl')].
Qed.

Lemma find_client_some tn tools : forall conns s cl,
  In (s, cl) conns ->
  match PyDict.get s tools with
  | Some ts => lists_tool tn ts
  | None => false
  end = true ->
  exists s' cl', find_client tn conns tools = Some (s', cl')
                 /\ In (s', cl') conns.
Proof.
  induction conns as [|[s0 cl0] conns IH]; intros s cl Hin Hs; [destruct Hin|].
  simpl.
  destruct (match PyDict.get s0 tools with
            | Some ts => lists_tool tn ts
            | None => false
            end) eqn:E.
  - exists s0, cl0. split; [reflexivity|now left].
  - destruct Hin as [[= -> ->]|Hin]; [congruence|].
    destruct (IH s cl Hin Hs) as (s' & cl' & Hf & Hin').
    exists s', cl'. split; [exact Hf|now right].
Qed.

Lemma str_truthy_ne (s : string) : str_truthy s = true <-> s <> "".
Proof.
  unfold str_truthy. destruct (String.eqb_spec s ""); cbn; split; congruence.
Qed.

(** Eviction keeps the entries of every other server. *)
Lemma evict_others server c s :
  s <> server -> entries (evict server c) s = entries c s.
Proof.
  intros Hne. unfold entries. cbn [evict with_registry mcp_connections mcp_tools].
  rewrite !get_del. cbn [keqb string_KeyEq].
  destruct (String.eqb_spec s server); [contradiction|reflexivity].
Qed.

Lemma evict_own server c : entries (evict server c) server = (None, None).
Proof.
  unfold entries. cbn [evict with_registry mcp_connections mcp_tools].
  rewrite !get_del. cbn [keqb string_KeyEq]. now rewrite String.eqb_refl.
Qed.

(** In a reachable cog the keys of the two registries agree. *)
Lemma reachable_agree `{PyLib} c : Lifecycle.reachable c -> Lifecycle.keys_agree c.
Proof.
  induction 1 as [|c c' _ IH Hstep].
  - exact RegistryFacts.keys_agree_new.
  - exact (RegistryFacts.keys_agree_step c c' Hstep IH).
Qed.

(** The client found under key [k] after [d[k] = v] is [v]. *)
Lemma find_client_set tn tools k v : forall conns cl,
  find_client tn (PyDict.set k v conns) tools = Some (k, cl) -> cl = v.
Proof.
  induction conns as [|[k0 v0] conns IH]; intros cl; simpl.
  - destruct (match PyDict.get k tools with
              | Some ts => lists_tool tn ts
              | None => false
              end); [now intros [= <-]|discriminate].
  - destruct (String.eqb_spec k k0) as [<-|Hne]; simpl.
    + destruct (match PyDict.get k tools with
                | Some ts => lists_tool tn ts
                | None => false
                end) eqn:E; [now intros [= <-]|].
      intros Hf. apply find_client_first in Hf as (_ & _ & _ & _ & Hs).
      congruence.
    + destruct (match PyDict.get k0 tools with
                | Some ts => lists_tool tn ts
                | None => false
                end); [intros [= -> _]; contradiction|apply IH].
Qed.

(** The cogs of the sample are cogs of a run. *)
Lemma ready_reachable : @Lifecycle.reachable Sample.lib (snd Sample.ready).
Proof.
  refine (@Lifecycle.reach_step Sample.lib new_cog (snd Sample.ready)
            (@Lifecycle.reach_new Sample.lib) _).
  refine (@Lifecycle.step_resume Sample.lib Sample.task0 new_cog
            (Supervisor.AttemptDone (Supervisor.Listed [Sample.lookup]))
            (fst Sample.ready) (snd Sample.ready) _).
  reflexivity.
Qed.

Lemma faulted_reachable : @Lifecycle.reachable Sample.lib Sample.faulted.
Proof.
  refine (@Lifecycle.reach_step Sample.lib (snd Sample.both) Sample.faulted _
            (@Lifecycle.step_settle Sample.lib (snd Sample.both) "srv"
               Router.ConnectionFault)).
  refine (@Lifecycle.reach_step Sample.lib (snd Sample.aux0) (snd Sample.both)
            _ _).
  - exact (@Lifecycle.reach_step Sample.lib (snd Sample.ready) (snd Sample.aux0)
             ready_reachable
             (@Lifecycle.step_start Sample.lib "aux" "http://aux/sse"
                (snd Sample.ready))).
  - refine (@Lifecycle.step_resume Sample.lib (fst Sample.aux0) (snd Sample.aux0)
              (Supervisor.AttemptDone (Supervisor.Listed [Sample.clock]))
              (fst Sample.both) (snd Sample.both) _).
    reflexivity.
Qed.

End ResolutionFacts.

(** X1. When [execute_tool] resolves a tool name, it resolves it to the
    first connection, in registration order, whose server has a tool list
    with that name: no connection before it serves the tool. *)
Theorem resolve_first_match :
  forall (c : Cog) (tn server : string) (client : MCPClient),
    Router.resolve c tn = inr (server, client) ->
    server <> ""
    /\ Resolution.serves c server tn = true
    /\ exists before after,
        mcp_connections c = (before ++ (server, client) :: after)%list
        /\ forall s cl, In (s, cl) before -> Resolution.serves c s tn = false.
Proof.
  intros c tn server client. unfold Router.resolve.
  destruct (Router.find_client tn (mcp_connections c) (mcp_tools c))
    as [[s cl]|] eqn:Hf; [|discriminate].
  destruct (str_truthy s) eqn:Hs; [|discriminate].
  intros [= <- <-].
  apply ResolutionFacts.find_client_first in Hf
    as (before & after & Hc & Hb & Hserves).
  split; [now apply ResolutionFacts.str_truthy_ne|].
  split; [exact Hserves|]. now exists before, after.
Qed.

Lemma resolve_first_match_witness :
  Resolution.serves Resolution.two_servers "alpha" "lookup" = true
  /\ exists before after,
      mcp_connections Resolution.two_servers
      = (before ++ ("alpha", {| client_url := "http://alpha/sse" |}) :: after)%list
      /\ forall s cl, In (s, cl) before ->
                      Resolution.serves Resolution.two_servers s "lookup" = false.
Proof.
  exact (proj2 (resolve_first_match Resolution.two_servers "lookup" "alpha"
                  {| client_url := "http://alpha/sse" |} eq_refl)).
Defined.

(** X2. A tool name served by exactly one connection with a non-empty
    server name is resolved to that connection. *)
Theorem resolve_unique_server :
  forall (c : Cog) (tn server : string) (client : MCPClient),
    In (server, client) (mcp_connections c) ->
    server <> "" ->
    Resolution.serves c server tn = true ->
    (forall s cl, In (s, cl) (mcp_connections c) ->
                  Resolution.serves c s tn = true -> (s, cl) = (server, client)) ->
    Router.resolve c tn = inr (server, client).
Proof.
  intros c tn server client Hin Hne Hs Honly.
  destruct (ResolutionFacts.find_client_some tn (mcp_tools c)
              (mcp_connections c) server client Hin Hs)
    as (s' & cl' & Hf & Hin').
  pose proof (ResolutionFacts.find_client_first tn (mcp_tools c) _ _ _ Hf)
    as (_ & _ & _ & _ & Hs').
  injection (Honly s' cl' Hin' Hs') as -> ->.
  unfold Router.resolve. rewrite Hf.
  apply ResolutionFacts.str_truthy_ne in Hne. now rewrite Hne.
Qed.

Lemma resolve_unique_server_witness :
  Router.resolve (snd Sample.ready) "lookup"
  = inr ("srv", {| client_url := "http://srv/sse" |}).
Proof.
  apply resolve_unique_server.
  - left. reflexivity.
  - discriminate.
  - reflexivity.
  - intros s cl [[= <- <-]|[]] _. reflexivity.
Defined.

(** X3. [execute_tool] leaves the cog as it found it, except when the
    invocation on the resolved server raises a connection fault: then it
    removes the two entries of that server and nothing else. The shutdown
    event, the histories and the entries of every other server are never
    touched, and no entry is ever added. *)
Theorem execute_tool_frame :
  forall (invoke : Router.Invoker) (c : Cog) (tn : string) (input : pyval),
    let c' := snd (Router.execute_tool invoke c tn input) in
    (c' = c
     \/ exists server client,
         Router.resolve c tn = inr (server, client)
         /\ invoke client tn input = Router.ConnectionFault
         /\ c' = evict server c
         /\ Resolution.entries c' server = (None, None)
         /\ forall s, s <> server ->
                      Resolution.entries c' s = Resolution.entries c s)
    /\ shutdown_event c' = shutdown_event c
    /\ message_history c' = message_history c
    /\ (fst (Router.execute_tool invoke c tn input)
        = Router.Failed Router.ConnectionLost \/ c' = c).
Proof.
  intros invoke c tn input c'. subst c'. unfold Router.execute_tool.
  destruct (Router.resolve c tn) as [e|[server client]] eqn:Hres;
    [cbn; auto|].
  destruct (invoke client tn input) as [r| | |msg] eqn:Hinv; cbn;
    try (repeat split; auto; fail).
  - destruct (error_code r) as [code|]; [destruct (negb (code =? 0))|];
      cbn; auto.
  - repeat split; auto. right. exists server, client.
    repeat split; auto.
    + apply ResolutionFacts.evict_own.
    + intros s Hne. now apply ResolutionFacts.evict_others.
Qed.

(** X4. In every cog reachable by the steps of the system, whatever the
    tool name and the tool-provider, [execute_tool] never gives the answer
    "exists (on server ...), but the server is currently disconnected": a
    tool list without a connection is never observed. *)
Theorem unavailable_never_answered :
  forall (L : PyLib) (c : Cog),
    Lifecycle.reachable c ->
    forall (invoke : Router.Invoker) (tn : string) (input : pyval) (origin : string),
      fst (Router.execute_tool invoke c tn input)
      <> Router.Failed (Router.ServerUnavailable origin).
Proof.
  intros L c Hreach invoke tn input origin.
  pose proof (ResolutionFacts.reachable_agree c Hreach) as Ha.
  unfold Router.execute_tool, Router.resolve.
  destruct (Router.find_client tn (mcp_connections c) (mcp_tools c))
    as [[s cl]|]; [destruct (str_truthy s)|]; cbn [fst];
    try apply RouterFacts.settle_not_unavailable;
    intros [= Hu]; revert Hu; now apply RouterFacts.unresolved_not_unavailable.
Qed.

Lemma unavailable_never_answered_witness :
  fst (Router.execute_tool Sample.broken Sample.faulted "lookup" (PDict []))
  <> Router.Failed (Router.ServerUnavailable "srv").
Proof.
  exact (unavailable_never_answered Sample.lib Sample.faulted
           ResolutionFacts.faulted_reachable Sample.broken "lookup" (PDict [])
           "srv").
Defined.

(** On that cog [aux] is still connected and the tool list of [srv] is
    gone with its connection, so [lookup] is reported as not found. *)
Example lookup_after_the_fault :
  map fst (mcp_connections Sample.faulted) = ["aux"]
  /\ map fst (mcp_tools Sample.faulted) = ["aux"]
  /\ fst (Router.execute_tool Sample.broken Sample.faulted "lookup" (PDict []))
     = Router.Failed Router.ToolNotFound.
Proof. vm_compute. repeat split. Qed.



(** ** Supervisor: bounds, shutdown, and what it writes *)

Module TaskFacts.
Import Supervisor Interleaving Resolution.

Lemma finish_phase t c : phase (fst (finish t c)) = Finished.
Proof. reflexivity. Qed.

Lemma delay_of_loop_head t c :
  reconnect_delay (fst (loop_head t c)) = reconnect_delay t.
Proof. unfold loop_head. destruct (shutdown_event c); reflexivity. Qed.

Lemma delay_of_cleanup t c :
  reconnect_delay (fst (cleanup_and_wait t c)) = reconnect_delay t.
Proof.
  unfold cleanup_and_wait.
  destruct (shutdown_event (evict (name t) c)); [apply delay_of_loop_head|reflexivity].
Qed.

Lemma phase_of_loop_head t c :
  phase (fst (loop_head t c)) = if shutdown_event c then Finished else Listing.
Proof. unfold loop_head. destruct (shutdown_event c); reflexivity. Qed.

Lemma phase_of_cleanup t c :
  phase (fst (cleanup_and_wait t c))
  = if shutdown_event c then Finished else Backoff (reconnect_delay t).
Proof.
  unfold cleanup_and_wait. rewrite SupervisorFacts.shutdown_evict.
  destruct (shutdown_event c) eqn:E; [|reflexivity].
  rewrite phase_of_loop_head, SupervisorFacts.shutdown_evict. now rewrite E.
Qed.

(** One resumption keeps the delay within 15 and 300 seconds, and a wait it
    schedules lasts the delay. *)
Lemma resume_bounds t c w t' c' :
  in_bounds (reconnect_delay t) ->
  resume t c w = Some (t', c') ->
  in_bounds (reconnect_delay t')
  /\ forall d, phase t' = Backoff d -> in_bounds d.
Proof.
  unfold in_bounds, max_reconnect_delay. intros Hb Hr.
  assert (Hgoal : forall p : Task * Cog,
             Some p = Some (t', c') ->
             (reconnect_delay (fst p) = reconnect_delay t
              \/ reconnect_delay (fst p) = 15
              \/ reconnect_delay (fst p) = Z.min (reconnect_delay t * 2) 300) ->
             (forall d, phase (fst p) = Backoff d -> d = reconnect_delay (fst p)) ->
             15 <= reconnect_delay t' <= 300
             /\ forall d, phase t' = Backoff d -> 15 <= d <= 300).
  { intros p [= ->] Hd Hph. cbn [fst] in *.
    assert (15 <= reconnect_delay t' <= 300) by lia.
    split; [assumption|]. intros d Hp. rewrite (Hph d Hp). assumption. }
  assert (Hcw : forall t0 d,
             phase (fst (cleanup_and_wait t0 c)) = Backoff d ->
             d = reconnect_delay (fst (cleanup_and_wait t0 c))).
  { intros t0 d. rewrite phase_of_cleanup, delay_of_cleanup.
    destruct (shutdown_event c); [discriminate|now intros [= <-]]. }
  assert (Hlh : forall t0 c0 d, phase (fst (loop_head t0 c0)) <> Backoff d).
  { intros t0 c0 d. rewrite phase_of_loop_head.
    destruct (shutdown_event c0); discriminate. }
  unfold resume in Hr.
  destruct (phase t) eqn:Hp; destruct w as [[tools| | |]| | |];
    try discriminate Hr;
    try (destruct (shutdown_event c) eqn:Hs; [|discriminate Hr]);
    try (apply (Hgoal _ Hr);
         [ first [ left; apply delay_of_cleanup | left; reflexivity ]
         | first [ apply Hcw | intros d; discriminate ] ]).
  - (* a successful listing *)
    cbn [publish] in Hr.
    destruct (shutdown_event c) eqn:Hs; cbn [with_registry shutdown_event] in Hr;
      rewrite Hs in Hr; apply (Hgoal _ Hr).
    + right. left. now rewrite delay_of_cleanup.
    + intros d. rewrite phase_of_cleanup. cbn. rewrite Hs. discriminate.
    + right. left. reflexivity.
    + intros d. discriminate.
  - (* the wait has elapsed *)
    apply (Hgoal _ Hr).
    + right. right. now rewrite delay_of_loop_head.
    + intros d Hd. now apply Hlh in Hd.
Qed.

Lemma run_within_bounds steps : forall t,
  in_bounds (reconnect_delay t) ->
  Forall in_bounds (backoff_delays (fst (run_within t steps)))
  /\ in_bounds (reconnect_delay (snd (run_within t steps))).
Proof.
  induction steps as [|[c w] steps IH]; intros t Hb; [split; [constructor|exact Hb]|].
  cbn [run_within].
  destruct (resume t c w) as [[t' c']|] eqn:Hr; [|now apply IH].
  destruct (resume_bounds t c w t' c' Hb Hr) as [Hb' Hd].
  destruct (IH t' Hb') as [Hf Hl].
  destruct (run_within t' steps) as [ps r]. cbn [fst snd] in *.
  split; [|exact Hl].
  destruct (phase t') eqn:Hp; cbn [backoff_delays]; try exact Hf.
  constructor; [now apply Hd|exact Hf].
Qed.

Lemma some_pair {A B} (p : A * B) (a : A) (b : B) :
  Some p = Some (a, b) -> a = fst p /\ b = snd p.
Proof. now intros [= ->]. Qed.

(** The entries a resumption leaves for the other servers. *)
Lemma publish_others t tools c s :
  s <> name t ->
  entries (snd (publish t tools c)) s = entries c s.
Proof.
  intros Hne. unfold entries. cbn. rewrite !get_set. cbn.
  destruct (String.eqb_spec s (name t)); [contradiction|reflexivity].
Qed.

Lemma publish_own t tools c :
  entries (snd (publish t tools c)) (name t)
  = (Some {| client_url := url t |}, Some tools).
Proof.
  unfold entries. cbn. rewrite !get_set. cbn. now rewrite String.eqb_refl.
Qed.

Lemma finish_own_key t c : own_key_only (name t) (url t) c (finish t c).
Proof.
  repeat split. intros s Hne. now apply ResolutionFacts.evict_others.
Qed.

Lemma loop_head_own_key t c : own_key_only (name t) (url t) c (loop_head t c).
Proof.
  unfold loop_head. destruct (shutdown_event c); [apply finish_own_key|].
  repeat split.
Qed.

Lemma cleanup_own_key t c :
  own_key_only (name t) (url t) c (cleanup_and_wait t c).
Proof.
  unfold cleanup_and_wait, loop_head. rewrite !SupervisorFacts.shutdown_evict.
  destruct (shutdown_event c); repeat split;
    intros s Hne; cbn [snd finish]; rewrite ?ResolutionFacts.evict_others by exact Hne;
    reflexivity.
Qed.

Lemma own_key_after_publish t tools c p :
  own_key_only (name t) (url t) (snd (publish t tools c)) p ->
  own_key_only (name t) (url t) c p.
Proof.
  intros (Hn & Hu & He & Hs & Hh). repeat split; auto.
  intros s Hne. rewrite (He s Hne). now apply publish_others.
Qed.

End TaskFacts.

(** X6. From its creation on, however the task is interleaved with the
    others and whatever it is woken by, the reconnect delay of a supervisor
    stays between 15 and 300 seconds, and so does every wait it schedules. *)
Theorem reconnect_delay_stays_in_bounds :
  forall (nm u : string) (c : Cog) (steps : list (Cog * Supervisor.Wake)),
    let t0 := fst (Supervisor.start nm u c) in
    Forall Interleaving.in_bounds
           (Supervisor.backoff_delays (fst (Interleaving.run_within t0 steps)))
    /\ Interleaving.in_bounds
         (Supervisor.reconnect_delay (snd (Interleaving.run_within t0 steps))).
Proof.
  intros nm u c steps t0. apply TaskFacts.run_within_bounds.
  subst t0. unfold Supervisor.start. rewrite TaskFacts.delay_of_loop_head.
  unfold Interleaving.in_bounds, Supervisor.max_reconnect_delay. cbn. lia.
Qed.

(** X7. Once the shutdown event is set, the next wake that resumes a
    supervisor, whichever it is, ends the coroutine with the server's two
    entries removed and the event still set; a parked task has such a wake
    (the event itself in [Ready] and during the backoff wait, the outcome
    of the attempt otherwise), and a finished task is never resumed. *)
Theorem shutdown_ends_task_at_next_wake :
  forall (t : Supervisor.Task) (c : Cog),
    shutdown_event c = true ->
    (forall w t' c',
        Supervisor.resume t c w = Some (t', c') ->
        Supervisor.phase t' = Supervisor.Finished
        /\ Resolution.entries c' (Supervisor.name t) = (None, None)
        /\ shutdown_event c' = true)
    /\ match Supervisor.phase t with
       | Supervisor.Listing =>
           forall o, Supervisor.resume t c (Supervisor.AttemptDone o) <> None
       | Supervisor.Ready | Supervisor.Backoff _ =>
           Supervisor.resume t c Supervisor.EventSet <> None
       | Supervisor.Finished => forall w, Supervisor.resume t c w = None
       end.
Proof.
  intros t c Hs. split.
  - intros w t' c' Hr.
    assert (Hfin : forall t0 c0 p,
               Supervisor.name t0 = Supervisor.name t ->
               shutdown_event c0 = true ->
               (p = Supervisor.finish t0 c0 \/ p = Supervisor.cleanup_and_wait t0 c0
                \/ p = Supervisor.loop_head t0 c0) ->
               Supervisor.phase (fst p) = Supervisor.Finished
               /\ Resolution.entries (snd p) (Supervisor.name t) = (None, None)
               /\ shutdown_event (snd p) = true).
    { intros t0 c0 p Hn Hs0 [->|[->| ->]]; rewrite <- Hn.
      - repeat split; [apply ResolutionFacts.evict_own|exact Hs0].
      - unfold Supervisor.cleanup_and_wait, Supervisor.loop_head.
        rewrite !SupervisorFacts.shutdown_evict, Hs0. cbn [fst snd Supervisor.finish].
        repeat split; [apply ResolutionFacts.evict_own|exact Hs0].
      - unfold Supervisor.loop_head. rewrite Hs0.
        repeat split; [apply ResolutionFacts.evict_own|exact Hs0]. }
    unfold Supervisor.resume in Hr. rewrite ?Hs in Hr.
    destruct (Supervisor.phase t); destruct w as [[tools| | |]| | |];
      try discriminate Hr;
      cbn [Supervisor.publish with_registry shutdown_event] in Hr;
      rewrite ?Hs in Hr;
      destruct (TaskFacts.some_pair _ _ _ Hr) as [-> ->];
      first [ eapply Hfin; [| |left; reflexivity]; [reflexivity|exact Hs]
            | eapply Hfin; [| |right; left; reflexivity]; [reflexivity|exact Hs]
            | eapply Hfin; [| |right; right; reflexivity]; [reflexivity|exact Hs] ].
  - unfold Supervisor.resume. rewrite Hs.
    destruct (Supervisor.phase t); try discriminate.
    + intros [tools| | |]; cbn; try discriminate. rewrite Hs. discriminate.
    + intros w. now destruct w.
Qed.

Lemma shutdown_ends_task_at_next_wake_witness :
  Supervisor.resume (fst Sample.ready)
    (Lifecycle.cog_unload_signal (snd Sample.ready)) Supervisor.EventSet <> None.
Proof.
  exact (proj2 (shutdown_ends_task_at_next_wake (fst Sample.ready)
                  (Lifecycle.cog_unload_signal (snd Sample.ready)) eq_refl)).
Defined.

(** X8. A supervisor only writes under its own server name: a resumption
    keeps its name and url, the two entries of every other server, the
    shutdown event and all histories. *)
Theorem supervisor_writes_own_key_only :
  forall (t : Supervisor.Task) (c : Cog) (w : Supervisor.Wake)
         (t' : Supervisor.Task) (c' : Cog),
    Supervisor.resume t c w = Some (t', c') ->
    Supervisor.name t' = Supervisor.name t
    /\ Supervisor.url t' = Supervisor.url t
    /\ (forall s, s <> Supervisor.name t ->
                  Resolution.entries c' s = Resolution.entries c s)
    /\ shutdown_event c' = shutdown_event c
    /\ message_history c' = message_history c.
Proof.
  intros t c w t' c' Hr.
  change (Interleaving.own_key_only (Supervisor.name t) (Supervisor.url t) c (t', c')).
  unfold Supervisor.resume in Hr.
  destruct (Supervisor.phase t); destruct w as [[tools| | |]| | |];
    try discriminate Hr;
    try (destruct (shutdown_event c); [|discriminate Hr]);
    try (destruct (TaskFacts.some_pair _ _ _ Hr) as [-> ->];
         rewrite <- surjective_pairing;
         first [ apply TaskFacts.finish_own_key
               | apply TaskFacts.cleanup_own_key
               | apply (TaskFacts.loop_head_own_key (Supervisor.with_delay t _)) ];
         fail).
  apply (TaskFacts.own_key_after_publish t tools).
  cbn [Supervisor.publish] in Hr. cbn [snd Supervisor.publish].
  set (c1 := with_registry c _ _) in *.
  destruct (shutdown_event c1);
    destruct (TaskFacts.some_pair _ _ _ Hr) as [-> ->];
    rewrite <- surjective_pairing.
  - apply (TaskFacts.cleanup_own_key (Supervisor.with_delay t 15)).
  - repeat split.
Qed.

Lemma supervisor_writes_own_key_only_witness :
  Resolution.entries (snd Sample.ready) "other"
  = Resolution.entries new_cog "other".
Proof.
  refine (proj1 (proj2 (proj2
            (supervisor_writes_own_key_only Sample.task0 new_cog
               (Supervisor.AttemptDone (Supervisor.Listed [Sample.lookup]))
               (fst Sample.ready) (snd Sample.ready) eq_refl))) "other" _).
  discriminate.
Defined.

(** X9. What a resumption leaves in the registry goes with the phase it
    parks the task at: in [Ready] the server has the new client and the
    listed tools; at a backoff wait and at the end it has neither entry;
    back at the attempt (the wait has elapsed) the cog is as it was. *)
Theorem registry_follows_phase :
  forall (t : Supervisor.Task) (c : Cog) (w : Supervisor.Wake)
         (t' : Supervisor.Task) (c' : Cog),
    Supervisor.resume t c w = Some (t', c') ->
    match Supervisor.phase t' with
    | Supervisor.Ready =>
        exists tools,
          w = Supervisor.AttemptDone (Supervisor.Listed tools)
          /\ Resolution.entries c' (Supervisor.name t)
             = (Some {| client_url := Supervisor.url t |}, Some tools)
    | Supervisor.Backoff _ | Supervisor.Finished =>
        Resolution.entries c' (Supervisor.name t) = (None, None)
    | Supervisor.Listing => c' = c
    end.
Proof.
  intros t c w t' c' Hr.
  assert (Hok : forall t0 c0 p,
             Supervisor.name t0 = Supervisor.name t ->
             (p = Supervisor.finish t0 c0 \/ p = Supervisor.cleanup_and_wait t0 c0) ->
             match Supervisor.phase (fst p) with
             | Supervisor.Ready => False
             | Supervisor.Backoff _ | Supervisor.Finished =>
                 Resolution.entries (snd p) (Supervisor.name t) = (None, None)
             | Supervisor.Listing => False
             end).
  { intros t0 c0 p Hn [->| ->]; rewrite <- Hn.
    - apply ResolutionFacts.evict_own.
    - unfold Supervisor.cleanup_and_wait, Supervisor.loop_head.
      rewrite !SupervisorFacts.shutdown_evict.
      destruct (shutdown_event c0); apply ResolutionFacts.evict_own. }
  assert (Huse : forall (p : Supervisor.Task * Cog),
             Some p = Some (t', c') ->
             match Supervisor.phase (fst p) with
             | Supervisor.Ready => False
             | Supervisor.Backoff _ | Supervisor.Finished =>
                 Resolution.entries (snd p) (Supervisor.name t) = (None, None)
             | Supervisor.Listing => False
             end ->
             match Supervisor.phase t' with
             | Supervisor.Ready =>
                 exists tools,
                   w = Supervisor.AttemptDone (Supervisor.Listed tools)
                   /\ Resolution.entries c' (Supervisor.name t)
                      = (Some {| client_url := Supervisor.url t |}, Some tools)
             | Supervisor.Backoff _ | Supervisor.Finished =>
                 Resolution.entries c' (Supervisor.name t) = (None, None)
             | Supervisor.Listing => c' = c
             end).
  { intros p [= ->]. cbn [fst snd].
    destruct (Supervisor.phase t'); tauto. }
  unfold Supervisor.resume in Hr.
  destruct (Supervisor.phase t); destruct w as [[tools| | |]| | |];
    try discriminate Hr;
    try (destruct (shutdown_event c) eqn:Hs; [|discriminate Hr]);
    try (apply (Huse _ Hr); apply (Hok t c); auto; fail).
  - cbn [Supervisor.publish] in Hr.
    set (c1 := with_registry c _ _) in Hr.
    destruct (shutdown_event c1).
    + apply (Huse _ Hr).
      apply (Hok (Supervisor.with_delay t 15) c1); [reflexivity|right; reflexivity].
    + injection Hr as <- <-. cbn [Supervisor.phase Supervisor.at_phase].
      exists tools. split; [reflexivity|].
      apply (TaskFacts.publish_own t tools c).
  - injection Hr as Hr. unfold Supervisor.loop_head in Hr.
    destruct (shutdown_event c).
    + apply (Huse _ (f_equal Some Hr)).
      eapply Hok; [|left; reflexivity]; reflexivity.
    + injection Hr as <- <-. reflexivity.
Qed.

Lemma registry_follows_phase_witness :
  exists tools,
    Supervisor.AttemptDone (Supervisor.Listed [Sample.lookup])
    = Supervisor.AttemptDone (Supervisor.Listed tools)
    /\ Resolution.entries (snd Sample.ready) "srv"
       = (Some {| client_url := "http://srv/sse" |}, Some tools).
Proof.
  exact (registry_follows_phase Sample.task0 new_cog
           (Supervisor.AttemptDone (Supervisor.Listed [Sample.lookup]))
           (fst Sample.ready) (snd Sample.ready) eq_refl).
Defined.

(** X10. A tool that a supervisor has just listed can be called: after a
    successful connect-and-list with the shutdown event clear, a tool name
    of the new list that no other server's list has is resolved by
    [execute_tool] to this server and to the client just created. *)
Theorem listed_tool_is_resolved :
  forall (t : Supervisor.Task) (c : Cog) (tools : list ToolDef) (tn : string)
         (t' : Supervisor.Task) (c' : Cog),
    Supervisor.phase t = Supervisor.Listing ->
    shutdown_event c = false ->
    Supervisor.name t <> "" ->
    Router.lists_tool tn tools = true ->
    (forall s ts, In (s, ts) (mcp_tools c) -> s <> Supervisor.name t ->
                  Router.lists_tool tn ts = false) ->
    Supervisor.resume t c (Supervisor.AttemptDone (Supervisor.Listed tools))
    = Some (t', c') ->
    Supervisor.phase t' = Supervisor.Ready
    /\ Router.resolve c' tn
       = inr (Supervisor.name t, {| client_url := Supervisor.url t |}).
Proof.
  intros t c tools tn t' c' Hp Hs Hne Hl Hothers Hr.
  unfold Supervisor.resume in Hr. rewrite Hp in Hr.
  cbn [Supervisor.publish with_registry shutdown_event] in Hr. rewrite Hs in Hr.
  injection Hr as <- <-. split; [reflexivity|].
  cbn [mcp_connections mcp_tools with_registry]. unfold Router.resolve.
  cbn [mcp_connections mcp_tools with_registry].
  set (cl := {| client_url := Supervisor.url t |}).
  set (conns := PyDict.set (Supervisor.name t) cl (mcp_connections c)).
  set (tls := PyDict.set (Supervisor.name t) tools (mcp_tools c)).
  assert (Hserve : forall s,
             match PyDict.get s tls with
             | Some ts => Router.lists_tool tn ts
             | None => false
             end = true -> s = Supervisor.name t).
  { intros s. subst tls. rewrite get_set. cbn [keqb string_KeyEq].
    destruct (String.eqb_spec s (Supervisor.name t)) as [->|Hd]; [reflexivity|].
    destruct (PyDict.get s (mcp_tools c)) as [ts|] eqn:G; [|discriminate].
    rewrite (Hothers s ts (RouterFacts.get_In s ts _ G) Hd). discriminate. }
  assert (Hin : exists cl0, In (Supervisor.name t, cl0) conns).
  { assert (Hg : PyDict.get (Supervisor.name t) conns = Some cl).
    { subst conns. rewrite get_set. cbn. now rewrite String.eqb_refl. }
    exists cl. now apply RouterFacts.get_In. }
  destruct Hin as [cl0 Hin].
  assert (Hown : match PyDict.get (Supervisor.name t) tls with
                 | Some ts => Router.lists_tool tn ts
                 | None => false
                 end = true).
  { subst tls. rewrite get_set. cbn. now rewrite String.eqb_refl. }
  destruct (ResolutionFacts.find_client_some tn tls conns _ _ Hin Hown)
    as (s' & cl' & Hf & _).
  pose proof (ResolutionFacts.find_client_first tn tls conns s' cl' Hf)
    as (_ & _ & _ & _ & Hs').
  apply Hserve in Hs'. subst s'.
  pose proof (ResolutionFacts.find_client_set tn tls _ cl _ cl' Hf) as ->.
  rewrite Hf. apply ResolutionFacts.str_truthy_ne in Hne. now rewrite Hne.
Qed.

Lemma listed_tool_is_resolved_witness :
  Supervisor.phase (fst Sample.ready) = Supervisor.Ready
  /\ Router.resolve (snd Sample.ready) "lookup"
     = inr ("srv", {| client_url := "http://srv/sse" |}).
Proof.
  apply (listed_tool_is_resolved Sample.task0 new_cog [Sample.lookup] "lookup");
    try reflexivity.
  - discriminate.
  - intros s ts [].
Defined.

(** ** History: what a read keeps *)

(** X11. With a cap [N >= 0], a read of a stored history [h0 :: rest]
    returns and stores [h0] followed by the last [N] messages of [rest]
    (all of [rest] when it has at most [N]), so at most [N + 1] messages;
    a second read right after returns the same list and changes nothing. *)
Theorem read_keeps_last_entries :
  forall (cfg : Engine.Config) (c : Cog) (channel_id : Z) (h0 : Message)
         (rest : list Message),
    0 <= Engine.max_history_length cfg ->
    PyDict.get channel_id (message_history c) = Some (h0 :: rest) ->
    let kept :=
      h0 :: skipn (length rest - Z.to_nat (Engine.max_history_length cfg)) rest in
    exists c0,
      Engine.get_channel_history cfg c channel_id = Some (kept, c0)
      /\ PyDict.get channel_id (message_history c0) = Some kept
      /\ Z.of_nat (length kept) <= Engine.max_history_length cfg + 1
      /\ Engine.get_channel_history cfg c0 channel_id = Some (kept, c0).
Proof.
  intros cfg c ch h0 rest HN Hg kept.
  assert (Hlen : Z.of_nat (length kept) <= Engine.max_history_length cfg + 1).
  { subst kept. cbn [length]. rewrite length_skipn. lia. }
  assert (Hagain : forall c0,
             PyDict.get ch (message_history c0) = Some kept ->
             Engine.get_channel_history cfg c0 ch = Some (kept, c0)).
  { intros c0 H0. unfold Engine.get_channel_history. rewrite H0.
    destruct (Z.gtb_spec (Z.of_nat (length kept))
                         (Engine.max_history_length cfg + 1)); [lia|reflexivity]. }
  unfold Engine.get_channel_history. rewrite Hg.
  destruct (Z.gtb_spec (Z.of_nat (length (h0 :: rest)))
                       (Engine.max_history_length cfg + 1)) as [Hgt|Hle].
  - eexists. split; [|split; [apply HistoryFacts.get_stored|split; [exact Hlen|]]].
    + replace (Z.to_nat (Z.of_nat (length (h0 :: rest))
                         - (Engine.max_history_length cfg + 1) + 1))
        with (S (length rest - Z.to_nat (Engine.max_history_length cfg)))
        by (cbn [length] in *; lia).
      reflexivity.
    + apply Hagain.
      replace (Z.to_nat (Z.of_nat (length (h0 :: rest))
                         - (Engine.max_history_length cfg + 1) + 1))
        with (S (length rest - Z.to_nat (Engine.max_history_length cfg)))
        by (cbn [length] in *; lia).
      apply HistoryFacts.get_stored.
  - assert (Hk : kept = h0 :: rest).
    { subst kept. cbn [length] in Hle.
      replace (length rest - Z.to_nat (Engine.max_history_length cfg))%nat
        with O by lia.
      reflexivity. }
    assert (Hg' : PyDict.get ch (message_history c) = Some kept)
      by (rewrite Hk; exact Hg).
    exists c. split; [|split; [exact Hg'|split; [exact Hlen|now apply Hagain]]].
    rewrite Hk. reflexivity.
Qed.

Lemma read_keeps_last_entries_witness :
  exists c0,
    Engine.get_channel_history Sample.cfg2 Sample.cog6 7
    = Some ([Sample.sys; Sample.a2; Sample.u3], c0)
    /\ PyDict.get 7 (message_history c0) = Some [Sample.sys; Sample.a2; Sample.u3]
    /\ Z.of_nat (length [Sample.sys; Sample.a2; Sample.u3]) <= 2 + 1
    /\ Engine.get_channel_history Sample.cfg2 c0 7
       = Some ([Sample.sys; Sample.a2; Sample.u3], c0).
Proof.
  refine (read_keeps_last_entries Sample.cfg2 Sample.cog6 7 Sample.sys
            [Sample.u1; Sample.a1; Sample.u2; Sample.a2; Sample.u3] _ eq_refl).
  cbn. lia.
Defined.

(** ** Schema formatter *)

Module SchemaFacts.
Import Schema SchemaSpec.

Lemma keys_set {V} (k : string) (v : V) (d : list (string * V)) :
  PyDict.keys (PyDict.set k v d)
  = if PyDict.mem k d then PyDict.keys d else (PyDict.keys d ++ [k])%list.
Proof.
  unfold PyDict.mem, PyDict.keys.
  induction d as [|[k0 v0] d IH]; simpl; [reflexivity|].
  destruct (String.eqb k k0) eqn:E; simpl; [reflexivity|].
  rewrite IH. destruct (PyDict.get k d); reflexivity.
Qed.

Lemma mem_keys {V} (k : string) (d : list (string * V)) :
  PyDict.mem k d = true <-> In k (PyDict.keys d).
Proof.
  unfold PyDict.mem, PyDict.keys.
  induction d as [|[k0 v0] d IH]; simpl; [split; [discriminate|tauto]|].
  destruct (String.eqb_spec k k0) as [->|Hne].
  - split; auto.
  - rewrite IH. split; [auto|]. intros [Heq|Hin]; [congruence|exact Hin].
Qed.

Lemma NoDup_keys_set {V} (k : string) (v : V) (d : list (string * V)) :
  NoDup (PyDict.keys d) -> NoDup (PyDict.keys (PyDict.set k v d)).
Proof.
  intros Hnd. rewrite keys_set.
  destruct (PyDict.mem k d) eqn:E; [exact Hnd|].
  apply NoDup_app; [exact Hnd|repeat constructor; intros []|].
  intros x Hin [<-|[]]. apply mem_keys in Hin. congruence.
Qed.

Lemma In_set {V} (k : string) (v : V) (d : list (string * V)) k' v' :
  In (k', v') (PyDict.set k v d) -> (k', v') = (k, v) \/ In (k', v') d.
Proof.
  induction d as [|[k0 v0] d IH]; simpl.
  - intros [H|[]]; auto.
  - destruct (String.eqb_spec k k0) as [->|Hne]; simpl.
    + intros [H|H]; auto.
    + intros [H|H]; auto. destruct (IH H); auto.
Qed.

Lemma build_parameters_built all : forall ps properties required_params,
  (forall p, In p ps -> In p all) ->
  built all (properties, required_params) ->
  built all (build_parameters ps properties required_params).
Proof.
  induction ps as [|p ps IH]; intros properties required Hsub Hb; [exact Hb|].
  cbn [build_parameters].
  assert (Hsub' : forall q, In q ps -> In q all)
    by (intros q Hq; apply Hsub; now right).
  destruct (str_truthy (param_name p)) eqn:Hn; [|now apply IH].
  apply IH; [exact Hsub'|].
  destruct Hb as (Hnd & Hfrom & Hreq). cbn [fst snd] in *.
  assert (Hkey : In (param_name p)
                    (PyDict.keys (PyDict.set (param_name p) (param_schema p)
                                             properties))).
  { apply mem_keys. rewrite mem_set. cbn. now rewrite String.eqb_refl. }
  assert (Hmono : forall k, In k (PyDict.keys properties) ->
                            In k (PyDict.keys (PyDict.set (param_name p)
                                                 (param_schema p) properties))).
  { intros k Hk. apply mem_keys. rewrite mem_set.
    apply mem_keys in Hk. rewrite Hk. apply orb_true_r. }
  repeat split.
  - now apply NoDup_keys_set.
  - destruct (In_set _ _ _ _ _ H) as [[= -> ->]|Hin];
      [now apply ResolutionFacts.str_truthy_ne|now apply (Hfrom k sch)].
  - destruct (In_set _ _ _ _ _ H) as [[= -> ->]|Hin].
    + exists p. repeat split. apply Hsub. now left.
    + now apply (Hfrom k sch).
  - intros k Hk. destruct (param_required p); [|now apply Hmono, Hreq].
    apply in_app_or in Hk as [Hk|[<-|[]]]; [now apply Hmono, Hreq|exact Hkey].
Qed.

Lemma openai_tool_name t : ot_name (openai_tool t) = tool_name t.
Proof.
  unfold openai_tool.
  destruct (build_parameters (tool_parameters t) [] []). reflexivity.
Qed.

End SchemaFacts.

(** X12. Whatever the declared MCP type, the JSON type given to a parameter
    is one of string, integer, number, boolean, array and object: it is the
    declared type in lower case when that is one of the six, and [string]
    otherwise. *)
Theorem json_type_is_valid :
  forall mcp_type : string,
    In (Schema.map_mcp_type_to_json_type mcp_type)
       ["string"; "integer"; "number"; "boolean"; "array"; "object"]
    /\ (Schema.map_mcp_type_to_json_type mcp_type = str_lower mcp_type
        \/ (~ In (str_lower mcp_type)
                 ["string"; "integer"; "number"; "boolean"; "array"; "object"]
            /\ Schema.map_mcp_type_to_json_type mcp_type = "string")).
Proof.
  intros mcp_type. unfold Schema.map_mcp_type_to_json_type, Schema.type_map.
  cbn [PyDict.get keqb string_KeyEq].
  repeat match goal with
         | |- context [String.eqb ?a ?b] =>
             destruct (String.eqb_spec a b) as [->|?];
             [cbn; split; [tauto|left; reflexivity]|]
         end.
  split; [cbn; tauto|]. right. split; [|reflexivity].
  cbn. intros [H|[H|[H|[H|[H|[H|[]]]]]]]; congruence.
Qed.

(** X13. The schema built for a tool is well formed: the property names
    are distinct and non-empty, each property is the schema of a parameter
    of the tool with that name, [required] is absent or a non-empty list of
    property names, and the name of the tool is kept. *)
Theorem openai_tool_schema_well_formed :
  forall t : ToolDef,
    let ot := Schema.openai_tool t in
    Schema.ot_name ot = tool_name t
    /\ NoDup (PyDict.keys (Schema.ot_properties ot))
    /\ Forall (fun kv =>
                 fst kv <> ""
                 /\ exists p, In p (tool_parameters t)
                              /\ param_name p = fst kv
                              /\ snd kv = Schema.param_schema p)
              (Schema.ot_properties ot)
    /\ match Schema.ot_required ot with
       | None => True
       | Some required =>
           required <> []
           /\ Forall (fun k => In k (PyDict.keys (Schema.ot_properties ot)))
                     required
       end.
Proof.
  intros t ot. split; [apply SchemaFacts.openai_tool_name|].
  subst ot. unfold Schema.openai_tool.
  pose proof (SchemaFacts.build_parameters_built (tool_parameters t)
                (tool_parameters t) [] [] (fun p H => H)) as Hb.
  destruct (Schema.build_parameters (tool_parameters t) [] [])
    as [properties required].
  destruct Hb as (Hnd & Hfrom & Hreq).
  { unfold SchemaSpec.built. cbn.
    split; [constructor|split; [intros k sch []|intros k []]]. }
  cbn [fst snd Schema.ot_properties Schema.ot_required] in *.
  split; [exact Hnd|]. split.
  - apply Forall_forall. intros [k sch] Hin. now apply Hfrom.
  - destruct required as [|r required]; [exact I|].
    split; [discriminate|]. apply Forall_forall. exact Hreq.
Qed.

(** X14. The tools offered to the backend are exactly the schemas of the
    named tools in the tool lists of the connected servers: nothing else
    is offered, and no such tool is left out. *)
Theorem offered_tools_are_published_tools :
  forall (c : Cog) (ot : Schema.OpenAITool),
    In ot (Schema.format_tools_for_openai c)
    <-> exists td, SchemaSpec.published c td /\ ot = Schema.openai_tool td.
Proof.
  intros c ot. unfold Schema.format_tools_for_openai, SchemaSpec.published.
  rewrite in_flat_map. split.
  - intros (server & Hk & Hin). unfold PyDict.keys in Hk.
    apply in_map_iff in Hk as ([s client] & <- & Hc). cbn [fst] in Hin.
    destruct (PyDict.get s (mcp_tools c)) as [tool_defs|] eqn:G; [|destruct Hin].
    apply in_map_iff in Hin as (td & <- & Hf).
    apply filter_In in Hf as [Htd Hn].
    exists td. split; [|reflexivity].
    exists s, client, tool_defs. repeat split; auto.
    now apply ResolutionFacts.str_truthy_ne.
  - intros (td & (server & client & tool_defs & Hc & G & Htd & Hn) & ->).
    exists server. split.
    + unfold PyDict.keys. apply in_map_iff. now exists (server, client).
    + rewrite G. apply in_map. apply filter_In. split; [exact Htd|].
      now apply ResolutionFacts.str_truthy_ne.
Qed.

(** X15. Every tool offered to the backend can be called: when no
    connection has an empty server name, the name of each offered tool is
    not empty and [execute_tool] resolves it to a connection. *)
Theorem offered_tools_resolve :
  forall (c : Cog) (ot : Schema.OpenAITool),
    (forall s cl, In (s, cl) (mcp_connections c) -> s <> "") ->
    In ot (Schema.format_tools_for_openai c) ->
    Schema.ot_name ot <> ""
    /\ exists server client,
        Router.resolve c (Schema.ot_name ot) = inr (server, client).
Proof.
  intros c ot Hnames Hin.
  unfold Schema.format_tools_for_openai in Hin.
  apply in_flat_map in Hin as (server & Hk & Hin).
  unfold PyDict.keys in Hk.
  apply in_map_iff in Hk as ([s client] & <- & Hc). cbn [fst] in Hin.
  destruct (PyDict.get s (mcp_tools c)) as [tool_defs|] eqn:G; [|destruct Hin].
  apply in_map_iff in Hin as (td & <- & Hf).
  apply filter_In in Hf as [Htd Hn].
  rewrite SchemaFacts.openai_tool_name.
  split; [now apply ResolutionFacts.str_truthy_ne|].
  assert (Hserve : match PyDict.get s (mcp_tools c) with
                   | Some ts => Router.lists_tool (tool_name td) ts
                   | None => false
                   end = true).
  { rewrite G. unfold Router.lists_tool. apply existsb_exists.
    exists td. split; [exact Htd|apply String.eqb_refl]. }
  destruct (ResolutionFacts.find_client_some (tool_name td) (mcp_tools c)
              (mcp_connections c) s client Hc Hserve)
    as (s' & cl' & Hf & Hin').
  exists s', cl'. unfold Router.resolve. rewrite Hf.
  pose proof (Hnames s' cl' Hin') as Hne.
  apply ResolutionFacts.str_truthy_ne in Hne. now rewrite Hne.
Qed.

Lemma offered_tools_resolve_witness :
  Schema.ot_name (Schema.openai_tool Sample.lookup) <> ""
  /\ exists server client,
      Router.resolve (snd Sample.ready)
        (Schema.ot_name (Schema.openai_tool Sample.lookup))
      = inr (server, client).
Proof.
  apply (offered_tools_resolve (snd Sample.ready)).
  - intros s cl [[= <- <-]|[]]. discriminate.
  - left. reflexivity.
Defined.

(** X16. Every tool call that a first reply hands to the tool loop,
    streamed or not, has an id and a name, neither of them empty. *)
Theorem requested_calls_have_id_and_name :
  forall (backend : Engine.Backend) (stream : bool) (messages : list Message)
         (params : Engine.ChatParams) (text : string) (calls : list ToolCall),
    Engine.first_reply backend stream messages params = Engine.Replied text calls ->
    Forall (fun tc => exists id, tc_id tc = Some id /\ id <> ""
                                 /\ fn_name tc <> "")
           calls.
Proof.
  intros backend stream messages params text calls.
  assert (Hok : forall tc, Engine.complete_slot tc = true ->
                           exists id, tc_id tc = Some id /\ id <> ""
                                      /\ fn_name tc <> "").
  { intros tc. unfold Engine.complete_slot.
    destruct (tc_id tc) as [id|]; [|discriminate].
    intros H. apply andb_true_iff in H as [H1 H2].
    exists id. repeat split; now apply ResolutionFacts.str_truthy_ne. }
  rewrite CallFacts.first_reply_eq. destruct stream.
  - destruct (Engine.create_stream backend messages params) as [f|chunks];
      [discriminate|].
    unfold Engine.aggregate.
    destruct (fold_left Engine.absorb_chunk chunks ("", [])) as [t slots].
    intros [= _ <-]. apply Forall_forall. intros tc Hin.
    apply filter_In in Hin as [_ Hc]. now apply Hok.
  - destruct (Engine.create backend messages params) as [f|[m|]];
      try discriminate.
    intros [= _ <-]. destruct (Engine.resp_tool_calls m) as [raw|];
      [|constructor].
    apply Forall_forall. intros tc Hin. unfold Engine.of_raw in Hin.
    apply in_flat_map in Hin as (r & _ & Hin).
    destruct (Engine.raw_function r) as [[n a]|]; [|destruct Hin].
    destruct ((Engine.raw_type r =? "function")%string
              && str_truthy (Engine.raw_id r) && str_truthy n) eqn:E;
      [|destruct Hin].
    destruct Hin as [<-|[]]. apply Hok. unfold Engine.complete_slot. cbn.
    apply andb_true_iff in E as [E1 E3]. apply andb_true_iff in E1 as [_ E2].
    now rewrite E2, E3.
Qed.

Lemma requested_calls_have_id_and_name_witness :
  Forall (fun tc => exists id, tc_id tc = Some id /\ id <> "" /\ fn_name tc <> "")
         [{| tc_id := Some "call_1"; tc_type := "function"; fn_name := "lookup";
             fn_arguments := "{}" |}].
Proof.
  exact (requested_calls_have_id_and_name Sample.backend false []
           [("tools", Engine.PV PNone)] "" _ eq_refl).
Defined.

(** ** The turn: tool entries, failures, and the registry *)

Module TurnMore.
Import Engine Trace ToolLoop Resolution.



(** Nothing is added to the registry. *)
Lemma only_removed_refl c : only_removed c c.
Proof. split; [reflexivity|]. intros s. now left. Qed.

Lemma only_removed_trans a b c :
  only_removed a b -> only_removed b c -> only_removed a c.
Proof.
  intros [Hs1 H1] [Hs2 H2]. split; [congruence|].
  intros s. destruct (H2 s) as [E|E]; [|now right].
  rewrite E. apply H1.
Qed.

Lemma only_removed_same c c' :
  mcp_connections c' = mcp_connections c -> mcp_tools c' = mcp_tools c ->
  shutdown_event c' = shutdown_event c -> only_removed c c'.
Proof.
  intros Hc Ht Hs. split; [exact Hs|]. intros s. left.
  unfold entries. now rewrite Hc, Ht.
Qed.

Lemma only_removed_evict server c : only_removed c (evict server c).
Proof.
  split; [reflexivity|]. intros s.
  destruct (String.eqb_spec s server) as [->|Hne].
  - right. apply ResolutionFacts.evict_own.
  - left. now apply ResolutionFacts.evict_others.
Qed.

Lemma only_removed_execute invoke c tn input :
  only_removed c (snd (Router.execute_tool invoke c tn input)).
Proof.
  unfold Router.execute_tool.
  destruct (Router.resolve c tn) as [e|[s cl]]; [apply only_removed_refl|].
  destruct (invoke cl tn input) as [r| | |msg]; cbn;
    try apply only_removed_refl; [|apply only_removed_evict].
  destruct (error_code r) as [code|]; [destruct (negb (code =? 0))|];
    apply only_removed_refl.
Qed.

Lemma only_removed_run `{PyLib} invoke calls : forall n c,
  only_removed c (snd (run_tool_calls invoke n calls c)).
Proof.
  induction calls as [|tc calls IH]; intros n c; [apply only_removed_refl|].
  cbn [run_tool_calls].
  destruct (json_loads (fn_arguments tc)) as [[| | | | | |d|]|];
    try solve [specialize (IH (S n) c);
               destruct (run_tool_calls invoke (S n) calls c) as [[es evs] c2];
               exact IH].
  pose proof (only_removed_execute (invoke n) c (fn_name tc) (PDict d)) as He.
  destruct (Router.execute_tool (invoke n) c (fn_name tc) (PDict d)) as [r c1].
  specialize (IH (S n) c1).
  destruct (Formatter.format_calltoolresult_content _) as [formatted|exec_e];
    destruct (run_tool_calls invoke (S n) calls c1) as [[es evs] c2];
    cbn [snd] in *; now apply (only_removed_trans c c1 c2).
Qed.

Lemma only_removed_extend ch ms c : only_removed c (extend_history ch ms c).
Proof.
  unfold extend_history.
  destruct (PyDict.get ch (message_history c));
    [now apply only_removed_same|apply only_removed_refl].
Qed.

Lemma only_removed_read cfg c ch h c0 :
  get_channel_history cfg c ch = Some (h, c0) -> only_removed c c0.
Proof.
  unfold get_channel_history.
  destruct (PyDict.get ch (message_history c)) as [old|].
  - destruct (Z.of_nat (length old) >? max_history_length cfg + 1).
    + destruct old; [discriminate|]. intros [= <- <-].
      now apply only_removed_same.
    + intros [= <- <-]. apply only_removed_refl.
  - intros [= <- <-]. now apply only_removed_same.
Qed.

Lemma only_removed_follow_up `{PyLib} cfg backend ch stream results c :
  only_removed c (fst (follow_up cfg backend ch stream results c)).
Proof.
  rewrite CallFacts.follow_up_eq.
  destruct results as [|r results]; [apply only_removed_refl|].
  cbv beta iota zeta.
  destruct (follow_up_text _ _ _ _) as [f|text]; cbn [fst].
  - apply only_removed_extend.
  - destruct (strip_truthy text); cbn [fst];
      [eapply only_removed_trans|]; apply only_removed_extend.
Qed.

Lemma only_removed_turn `{PyLib} cfg backend invoke ch stream c message :
  only_removed c (fst (handle_chat_logic cfg backend invoke ch stream c message)).
Proof.
  rewrite CallFacts.handle_chat_logic_eq.
  destruct (get_channel_history cfg c ch) as [[h c0]|] eqn:Hread;
    [|apply only_removed_refl].
  pose proof (only_removed_read cfg c ch h c0 Hread) as H0.
  assert (H1 : only_removed c (extend_history ch [plain user message] c0))
    by (eapply only_removed_trans; [exact H0|apply only_removed_extend]).
  set (c1 := extend_history ch [plain user message] c0) in *.
  cbv beta iota zeta.
  destruct (first_reply _ _ _ _) as [notice|text calls]; [exact H1|].
  assert (Hmain :
    forall said,
      only_removed c
        (fst (let '(results, sent, c3) :=
                run_tool_calls invoke 0 calls
                  (extend_history ch [assistant_message text calls] c1) in
              let '(c4, after) := follow_up cfg backend ch stream results c3 in
              (c4, ([Append [plain user message];
                     Completion (history_of ch c1) (first_params cfg stream c1)]
                    ++ said ++ [Append [assistant_message text calls]]
                    ++ sent ++ after)%list)))).
  { intros said.
    pose proof (only_removed_extend ch [assistant_message text calls] c1) as H2.
    pose proof (only_removed_run invoke calls 0
                  (extend_history ch [assistant_message text calls] c1)) as H3.
    destruct (run_tool_calls invoke 0 calls _) as [[results sent] c3].
    cbn [snd] in H3.
    pose proof (only_removed_follow_up cfg backend ch stream results c3) as H4.
    destruct (follow_up cfg backend ch stream results c3) as [c4 after].
    cbn [fst] in *.
    eapply only_removed_trans; [exact H1|].
    eapply only_removed_trans; [exact H2|].
    eapply only_removed_trans; [exact H3|exact H4]. }
  destruct (strip_truthy text); [apply Hmain|].
  destruct calls; [exact H1|apply Hmain].
Qed.




End TurnMore.






(** X20. A turn never adds to the registry and never touches the shutdown
    event: after it, every server has its connection and its tool list as
    before the turn, or has lost both. *)
Theorem turn_only_removes_from_registry :
  forall (L : PyLib) (cfg : Engine.Config) (backend : Engine.Backend)
         (invoke : nat -> Router.Invoker) (channel_id : Z) (stream : bool)
         (c : Cog) (message : string),
    let c' := fst (Engine.handle_chat_logic cfg backend invoke channel_id
                                            stream c message) in
    shutdown_event c' = shutdown_event c
    /\ forall s, Resolution.entries c' s = Resolution.entries c s
                 \/ Resolution.entries c' s = (None, None).
Proof.
  intros L cfg backend invoke ch stream c message.
  exact (TurnMore.only_removed_turn cfg backend invoke ch stream c message).
Qed.

(** ** Message delivery *)

Module DeliveryFacts.
Import Delivery.

Lemma max_length_pos : (0 < max_length)%nat.
Proof. unfold max_length. apply Nat.lt_0_succ. Qed.

Lemma firstn_add {A} a : forall b (l : list A),
  firstn (a + b) l = (firstn a l ++ firstn b (skipn a l))%list.
Proof.
  induction a as [|a IH]; intros b l; [reflexivity|].
  destruct l as [|x l]; cbn; [now destruct b|now rewrite IH].
Qed.

Lemma slice_eq start s :
  slice start s = String.concat "" (firstn max_length (skipn start (chars s))).
Proof.
  unfold slice, py_slice. now replace (start + max_length - start)%nat
    with max_length by lia.
Qed.

Lemma py_take_eq n s : py_take n s = String.concat "" (firstn n (chars s)).
Proof. unfold py_take, py_slice. cbn [skipn]. now rewrite Nat.sub_0_r. Qed.

(** [len(content_str[start:start + 2000])] *)
Lemma slice_len start s :
  py_len (slice start s) = Nat.min max_length (py_len s - start).
Proof.
  unfold slice. rewrite TextFacts.py_len_slice. f_equal. lia.
Qed.

(** The texts of a list of attempts, one after the other. *)
Lemma texts_cons a l :
  String.concat "" (map text (a :: l)) = text a ++ String.concat "" (map text l).
Proof. cbn [map]. apply SlotFacts.concat_cons. Qed.

(** The [n] slices that start at [start], one after the other. *)
Lemma slices_concat n : forall start s,
  String.concat ""
    (map (fun i => slice (start + i * max_length) s) (seq 0 n))
  = String.concat "" (firstn (n * max_length) (skipn start (chars s))).
Proof.
  induction n as [|n IH]; intros start s; [reflexivity|].
  cbn [seq map]. rewrite SlotFacts.concat_cons.
  rewrite <- seq_shift, map_map.
  rewrite (map_ext _ (fun i => slice (start + max_length + i * max_length) s))
    by (intros i; f_equal; cbn [Nat.mul]; lia).
  rewrite IH. replace (start + 0 * max_length)%nat with start by lia.
  replace (S n * max_length)%nat with (max_length + n * max_length)%nat by lia.
  rewrite firstn_add, TextFacts.concat_app, skipn_skipn, slice_eq.
  now replace (max_length + start)%nat with (start + max_length)%nat by lia.
Qed.

(** A text that is not blank has a character. *)
Lemma strip_truthy_len s : strip_truthy s = true -> (0 < py_len s)%nat.
Proof.
  unfold strip_truthy, py_len. destruct (chars s); [discriminate|].
  intros _. apply Nat.lt_0_succ.
Qed.

(** The loop, from [start] on: slices at [start], [start + 2000], ... are
    delivered one after the other until the content is covered or a
    request raises; an [HTTPException] is followed by the notice and
    nothing else, any other exception by nothing at all. *)
Lemma send_chunks_shape wire interaction followup ephemeral content :
  forall fuel start k first_chunk done,
    (py_len content - start <= fuel)%nat ->
    exists ok rest exit,
      send_chunks wire interaction followup ephemeral content fuel start k
                  first_chunk done
      = ((ok ++ rest)%list, exit)
      /\ map text ok
         = map (fun i => slice (start + i * max_length) content)
               (seq 0 (length ok))
      /\ Forall (fun a => outcome a = Sent) ok
      /\ (forall i, (i < length ok)%nat ->
                    (start + i * max_length < py_len content)%nat)
      /\ (rest = [] /\ exit = Completed
          /\ (py_len content <= start + length ok * max_length)%nat
          \/ exists failed,
              text failed = slice (start + length ok * max_length) content
              /\ outcome failed = wire (k + length ok)%nat
              /\ ((exists code done',
                      wire (k + length ok)%nat = HTTPException code
                      /\ rest = failed :: notice wire interaction done' code
                                                 (S (k + length ok))
                      /\ exit = Completed)
                  \/ (wire (k + length ok)%nat = OtherException
                      /\ rest = [failed] /\ exit = Escaped))).
Proof.
  pose proof max_length_pos as Hpos.
  induction fuel as [|fuel IH]; intros start k first_chunk done Hfuel.
  - exists [], [], Completed. cbn [send_chunks app map length seq].
    split; [reflexivity|]. split; [reflexivity|]. split; [constructor|].
    split; [intros i Hi; inversion Hi|].
    left. split; [reflexivity|]. split; [reflexivity|lia].
  - cbn [send_chunks].
    destruct (Nat.ltb_spec start (py_len content)) as [Hlt|Hge].
    2:{ exists [], [], Completed. cbn [app map length seq].
        split; [reflexivity|]. split; [reflexivity|]. split; [constructor|].
        split; [intros i Hi; inversion Hi|].
        left. split; [reflexivity|]. split; [reflexivity|lia]. }
    destruct (if interaction
              then route followup ephemeral (py_len content) start
                         first_chunk done
              else (ContextSend, false)) as [ep eph].
    destruct (wire k) as [|code|] eqn:Hw.
    + destruct (IH (start + max_length)%nat (S k) false
                   (done || match ep with ResponseSendMessage => true | _ => false end)
                   ltac:(lia))
        as (ok & rest & exit & -> & Htexts & Hok & Hin & Hend).
      exists ({| endpoint := ep; text := slice start content;
                 as_ephemeral := eph; outcome := Sent |} :: ok), rest, exit.
      split; [reflexivity|]. split; [|split; [|split]].
      * cbn [map length seq text]. rewrite Nat.mul_0_l, Nat.add_0_r. f_equal.
        rewrite Htexts, <- seq_shift, map_map. apply map_ext.
        intros i. f_equal. cbn [Nat.mul]. lia.
      * constructor; [reflexivity|exact Hok].
      * intros [|i] Hi; [lia|]. cbn [length] in Hi.
        specialize (Hin i ltac:(lia)). cbn [Nat.mul]. lia.
      * cbn [length]. cbn [Nat.mul].
        replace (S (k + S (length ok))) with (S (S k + length ok)) by lia.
        replace (k + S (length ok))%nat with (S k + length ok)%nat by lia.
        replace (start + (max_length + length ok * max_length))%nat
          with (start + max_length + length ok * max_length)%nat by lia.
        destruct Hend as [(-> & -> & Hcov)|Hfail]; [|right; exact Hfail].
        left. split; [reflexivity|]. split; [reflexivity|lia].
    + exists [], ({| endpoint := ep; text := slice start content;
                     as_ephemeral := eph; outcome := HTTPException code |}
                  :: notice wire interaction done code (S k)), Completed.
      cbn [app map length seq]. rewrite !Nat.add_0_r.
      split; [reflexivity|]. split; [reflexivity|]. split; [constructor|].
      split; [intros i Hi; inversion Hi|].
      right.
      exists {| endpoint := ep; text := slice start content;
                as_ephemeral := eph; outcome := HTTPException code |}.
      split; [reflexivity|]. split; [now rewrite Hw|].
      left. exists code, done. now rewrite Hw.
    + exists [], [{| endpoint := ep; text := slice start content;
                     as_ephemeral := eph; outcome := OtherException |}], Escaped.
      cbn [app map length seq]. rewrite !Nat.add_0_r.
      split; [reflexivity|]. split; [reflexivity|]. split; [constructor|].
      split; [intros i Hi; inversion Hi|].
      right.
      exists {| endpoint := ep; text := slice start content;
                as_ephemeral := eph; outcome := OtherException |}.
      split; [reflexivity|]. split; [now rewrite Hw|].
      right. now rewrite Hw.
Qed.

(** After the first chunk of an interaction has been delivered, every
    chunk goes through the follow-up and is not ephemeral. *)
Lemma later_chunks followup ephemeral content :
  forall fuel start k,
    (0 < start)%nat ->
    Forall (fun a => endpoint a = FollowupSend /\ as_ephemeral a = false)
           (fst (send_chunks reliable true followup ephemeral content fuel
                             start k false true)).
Proof.
  induction fuel as [|fuel IH]; intros start k Hs; [constructor|].
  cbn [send_chunks].
  destruct (start <? py_len content)%nat; [|constructor].
  unfold route. replace (0 <? start)%nat with true
    by (symmetry; now apply Nat.ltb_lt).
  rewrite !orb_true_r. cbn [orb negb andb reliable].
  rewrite andb_false_r.
  specialize (IH (start + max_length)%nat (S k) ltac:(lia)).
  destruct (send_chunks reliable true followup ephemeral content fuel
              (start + max_length) (S k) false true) as [more exit].
  constructor; [split; reflexivity|exact IH].
Qed.

(** On a context every chunk goes through [send]. *)
Lemma context_chunks wire followup ephemeral content :
  forall fuel start k first_chunk done,
    Forall (fun a => endpoint a = ContextSend)
           (fst (send_chunks wire false followup ephemeral content fuel
                             start k first_chunk done)).
Proof.
  induction fuel as [|fuel IH]; intros start k first_chunk done; [constructor|].
  cbn [send_chunks].
  destruct (start <? py_len content)%nat; [|constructor].
  destruct (wire k).
  - specialize (IH (start + max_length)%nat (S k) false (done || false)).
    destruct (send_chunks wire false followup ephemeral content fuel
                (start + max_length) (S k) false (done || false)) as [more exit].
    constructor; [reflexivity|exact IH].
  - repeat constructor.
  - repeat constructor.
Qed.

End DeliveryFacts.

(** X21. When no request fails, a message that is not blank is sent whole
    and the call returns: the chunks, in the order sent, concatenate to the
    content; each request carries between 1 and 2000 characters; and there
    are as many requests as pieces of 2000 characters are needed, no
    more. Characters are code points, whatever their size in bytes. *)
Theorem long_message_is_split_and_reassembled :
  forall (sendable : Delivery.Sendable) (content : string)
         (followup ephemeral : bool),
    strip_truthy content = true ->
    let call := Delivery.send_long_message Delivery.reliable sendable content
                                           followup ephemeral in
    snd call = Delivery.Completed
    /\ String.concat "" (map Delivery.text (fst call)) = content
    /\ Forall (fun a => Delivery.outcome a = Delivery.Sent
                        /\ (1 <= py_len (Delivery.text a)
                            <= Delivery.max_length)%nat) (fst call)
    /\ (py_len content <= length (fst call) * Delivery.max_length
        < py_len content + Delivery.max_length)%nat.
Proof.
  intros sendable content followup ephemeral Hs call.
  pose proof DeliveryFacts.max_length_pos as Hpos.
  assert (Hshape : exists interaction done,
             call = Delivery.send_chunks Delivery.reliable interaction followup
                      ephemeral content (py_len content) 0 0 true done).
  { subst call. unfold Delivery.send_long_message. rewrite Hs.
    destruct sendable as [|done]; [now exists false, false|now exists true, done]. }
  destruct Hshape as (interaction & done & Hcall).
  destruct (DeliveryFacts.send_chunks_shape Delivery.reliable interaction
              followup ephemeral content (py_len content) 0 0 true done
              ltac:(lia))
    as (ok & rest & exit & Heq & Htexts & Hok & Hin & Hend).
  rewrite <- Hcall in Heq.
  destruct Hend as [(-> & -> & Hcov)|(failed & _ & _ & Hw)].
  2:{ destruct Hw as [(code & d & Hw & _)|(Hw & _)]; discriminate Hw. }
  rewrite app_nil_r in Heq. rewrite Heq. cbn [fst snd].
  split; [reflexivity|]. split; [|split].
  - rewrite Htexts, (DeliveryFacts.slices_concat (length ok) 0 content).
    cbn [skipn]. rewrite firstn_all2 by (unfold py_len in Hcov; lia).
    apply TextFacts.chars_concat.
  - apply Forall_forall. intros a Ha. split.
    + rewrite Forall_forall in Hok. now apply Hok.
    + apply (in_map Delivery.text) in Ha. rewrite Htexts in Ha.
      apply in_map_iff in Ha as (i & <- & Hi). apply in_seq in Hi.
      specialize (Hin i ltac:(lia)).
      rewrite DeliveryFacts.slice_len. lia.
  - split; [lia|].
    destruct (length ok) as [|n] eqn:Hn;
      [apply DeliveryFacts.strip_truthy_len in Hs; lia|].
    specialize (Hin n ltac:(lia)). cbn [Nat.mul]. lia.
Qed.

Lemma long_message_is_split_and_reassembled_witness :
  let call := Delivery.send_long_message Delivery.reliable
                (Delivery.Interaction true) (Sample.accents 2001) true false in
  snd call = Delivery.Completed
  /\ String.concat "" (map Delivery.text (fst call)) = Sample.accents 2001
  /\ Forall (fun a => Delivery.outcome a = Delivery.Sent
                      /\ (1 <= py_len (Delivery.text a)
                          <= Delivery.max_length)%nat) (fst call)
  /\ (py_len (Sample.accents 2001) <= length (fst call) * Delivery.max_length
      < py_len (Sample.accents 2001) + Delivery.max_length)%nat.
Proof.
  apply (long_message_is_split_and_reassembled
           (Delivery.Interaction true) (Sample.accents 2001) true false).
  vm_compute. reflexivity.
Defined.

(** A text of 1001 characters of two bytes each goes out in one request,
    one of 2001 such characters in two, of 2000 characters and of 1. *)
Example accents_are_counted_as_characters :
  map (fun a => py_len (Delivery.text a))
      (fst (Delivery.send_long_message Delivery.reliable Delivery.Context
              (Sample.accents 1001) false false)) = [1001%nat]
  /\ map (fun a => py_len (Delivery.text a))
         (fst (Delivery.send_long_message Delivery.reliable Delivery.Context
                 (Sample.accents 2001) false false)) = [2000%nat; 1%nat]
  /\ String.length (Sample.accents 1001) = 2002%nat.
Proof. vm_compute. repeat split. Qed.

(** X22. Whatever each request does, the requests of a call are: chunks
    delivered in order, which concatenate to the first [2000 * n]
    characters of the content; then nothing more and the call returns, or
    the one chunk whose request raised. When that was an [HTTPException],
    the call returns after a single ephemeral notice with the error code
    on an interaction, and after nothing on a context; when it was any
    other exception, nothing more is sent and the exception leaves the
    call. No chunk is sent after a failure. *)
Theorem delivery_stops_at_first_failure :
  forall (wire : Delivery.Wire) (sendable : Delivery.Sendable) (content : string)
         (followup ephemeral : bool),
    let call := Delivery.send_long_message wire sendable content followup
                                           ephemeral in
    exists ok rest,
      fst call = (ok ++ rest)%list
      /\ Forall (fun a => Delivery.outcome a = Delivery.Sent) ok
      /\ String.concat "" (map Delivery.text ok)
         = py_take (length ok * Delivery.max_length) content
      /\ (rest = [] /\ snd call = Delivery.Completed
          \/ exists failed tail,
              rest = failed :: tail
              /\ Delivery.outcome failed = wire (length ok)
              /\ Delivery.text failed
                 = Delivery.slice (length ok * Delivery.max_length) content
              /\ match wire (length ok) with
                 | Delivery.Sent => False
                 | Delivery.HTTPException code =>
                     snd call = Delivery.Completed
                     /\ match sendable with
                        | Delivery.Context => tail = []
                        | Delivery.Interaction _ =>
                            exists n,
                              tail = [n]
                              /\ Delivery.text n = Delivery.error_msg code
                              /\ Delivery.as_ephemeral n = true
                        end
                 | Delivery.OtherException =>
                     tail = [] /\ snd call = Delivery.Escaped
                 end).
Proof.
  intros wire sendable content followup ephemeral call. subst call.
  unfold Delivery.send_long_message.
  destruct (strip_truthy content).
  2:{ exists [], []. repeat split; [constructor|now left]. }
  set (interaction := match sendable with
                      | Delivery.Context => false
                      | Delivery.Interaction _ => true
                      end).
  set (done := match sendable with
               | Delivery.Context => false
               | Delivery.Interaction d => d
               end).
  assert (Hcall : match sendable with
                  | Delivery.Context =>
                      Delivery.send_chunks wire false followup ephemeral content
                        (py_len content) 0 0 true false
                  | Delivery.Interaction d =>
                      Delivery.send_chunks wire true followup ephemeral content
                        (py_len content) 0 0 true d
                  end
                  = Delivery.send_chunks wire interaction followup ephemeral
                      content (py_len content) 0 0 true done)
    by (destruct sendable; reflexivity).
  rewrite Hcall.
  destruct (DeliveryFacts.send_chunks_shape wire interaction followup
              ephemeral content (py_len content) 0 0 true done ltac:(lia))
    as (ok & rest & exit & Heq & Htexts & Hok & _ & Hend).
  rewrite Heq. cbn [fst snd].
  exists ok, rest. split; [reflexivity|]. split; [exact Hok|]. split.
  - rewrite Htexts, (DeliveryFacts.slices_concat (length ok) 0 content).
    now rewrite DeliveryFacts.py_take_eq.
  - destruct Hend as [(-> & -> & _)|(failed & Ht & Ho & Hw)]; [now left|].
    right. cbn [Nat.add] in *.
    destruct Hw as [(code & d & Hw & -> & ->)|(Hw & -> & ->)];
      eexists failed, _; (split; [reflexivity|]); (split; [exact Ho|]);
      (split; [exact Ht|]); rewrite Hw.
    + split; [reflexivity|]. unfold Delivery.notice, interaction.
      destruct sendable; [reflexivity|]. eexists. repeat split.
    + split; reflexivity.
Qed.

(** X23. How an interaction is answered when no request fails: the first
    chunk goes through the response if it is not done yet and through the
    follow-up otherwise, and is ephemeral exactly when that was asked and
    the message is a follow-up, or the response is done, or the content has
    at most 2000 characters; all later chunks go through the follow-up and
    are not ephemeral. On a context every chunk goes through [send]. *)
Theorem interaction_chunks_are_routed :
  forall (sendable : Delivery.Sendable) (content : string)
         (followup ephemeral : bool),
    strip_truthy content = true ->
    let sent := fst (Delivery.send_long_message Delivery.reliable sendable
                                                content followup ephemeral) in
    match sendable with
    | Delivery.Context =>
        Forall (fun a => Delivery.endpoint a = Delivery.ContextSend) sent
    | Delivery.Interaction done =>
        exists first rest,
          sent = first :: rest
          /\ Delivery.endpoint first
             = (if done then Delivery.FollowupSend
                else Delivery.ResponseSendMessage)
          /\ Delivery.as_ephemeral first
             = ephemeral
               && (followup || done
                   || (py_len content <=? Delivery.max_length)%nat)
          /\ Forall (fun a => Delivery.endpoint a = Delivery.FollowupSend
                              /\ Delivery.as_ephemeral a = false) rest
    end.
Proof.
  intros sendable content followup ephemeral Hs sent. subst sent.
  unfold Delivery.send_long_message. rewrite Hs.
  destruct sendable as [|done]; [apply DeliveryFacts.context_chunks|].
  apply DeliveryFacts.strip_truthy_len in Hs.
  destruct (py_len content) as [|n] eqn:Hlen; [lia|].
  cbn [Delivery.send_chunks Delivery.reliable]. rewrite Hlen.
  change (0 <? S n)%nat with true. cbv iota.
  unfold Delivery.route. cbn [Nat.ltb Nat.leb orb].
  pose proof DeliveryFacts.max_length_pos as Hpos.
  assert (Hlater : forall k,
             Forall (fun a => Delivery.endpoint a = Delivery.FollowupSend
                              /\ Delivery.as_ephemeral a = false)
                    (fst (Delivery.send_chunks Delivery.reliable true followup
                            ephemeral content n (0 + Delivery.max_length) k
                            false true)))
    by (intros k; apply DeliveryFacts.later_chunks; lia).
  specialize (Hlater 1%nat).
  destruct followup, done; cbn [orb andb negb];
    destruct (Delivery.send_chunks Delivery.reliable true _ ephemeral content n
                (0 + Delivery.max_length) 1 false true) as [more exit];
    cbn [fst] in *;
    eexists _, _; (split; [reflexivity|]);
    cbn [Delivery.endpoint Delivery.as_ephemeral orb andb];
    (split; [reflexivity|]); (split; [|exact Hlater]);
    destruct ephemeral, (S n <=? Delivery.max_length)%nat; reflexivity.
Qed.

Lemma interaction_chunks_are_routed_witness :
  exists first rest,
    fst (Delivery.send_long_message Delivery.reliable
           (Delivery.Interaction false) (Sample.accents 1001) false true)
    = first :: rest
    /\ Delivery.endpoint first = Delivery.ResponseSendMessage
    /\ Delivery.as_ephemeral first
       = true && (false || false
                  || (py_len (Sample.accents 1001) <=? Delivery.max_length)%nat)
    /\ Forall (fun a => Delivery.endpoint a = Delivery.FollowupSend
                        /\ Delivery.as_ephemeral a = false) rest.
Proof.
  apply (interaction_chunks_are_routed (Delivery.Interaction false)
           (Sample.accents 1001) false true).
  vm_compute. reflexivity.
Defined.

(** The text of 1001 characters of two bytes each is answered by one
    ephemeral response, and by nothing else. *)
Example accents_fit_in_one_response :
  map (fun a => (Delivery.endpoint a, Delivery.as_ephemeral a,
                 py_len (Delivery.text a)))
      (fst (Delivery.send_long_message Delivery.reliable
              (Delivery.Interaction false) (Sample.accents 1001) false true))
  = [(Delivery.ResponseSendMessage, true, 1001%nat)].
Proof. vm_compute. reflexivity. Qed.

(** ** Start-up *)

Module LoaderFacts.
Import Loader.

Lemma update_keys {V} (other : list (string * V)) : forall d k,
  PyDict.mem k (update d other)
  = PyDict.mem k d || existsb (fun kv => (k =? fst kv)%string) other.
Proof.
  unfold update.
  induction other as [|[k0 v0] other IH]; intros d k; cbn [fold_left existsb fst snd].
  - now rewrite orb_false_r.
  - rewrite IH, mem_set. cbn [keqb string_KeyEq].
    destruct (k =? k0)%string, (PyDict.mem k d); reflexivity.
Qed.

(** A running task stays what it is through the loop. *)
Lemma load_keeps_running servers : forall tasks n name task,
  PyDict.get name tasks = Some task -> handle_done task = false ->
  PyDict.get name (fst (load_servers servers tasks n)) = Some task.
Proof.
  induction servers as [|server servers IH]; intros tasks n name task Hg Hr;
    [exact Hg|].
  cbn [load_servers].
  destruct (valid_entry server) as [[nm url]|]; [|now apply IH].
  destruct (PyDict.get nm tasks) as [t0|] eqn:G0.
  - destruct (handle_done t0) eqn:Hd; [|now apply IH].
    apply IH; [|exact Hr]. rewrite get_set. cbn [keqb string_KeyEq].
    destruct (String.eqb_spec name nm) as [->|_]; [congruence|exact Hg].
  - apply IH; [|exact Hr]. rewrite get_set. cbn [keqb string_KeyEq].
    destruct (String.eqb_spec name nm) as [->|_]; [congruence|exact Hg].
Qed.

(** After the loop every valid entry has a running task. *)
Lemma load_starts_valid servers : forall tasks n server name url,
  In server servers -> valid_entry server = Some (name, url) ->
  running (fst (load_servers servers tasks n)) name = true.
Proof.
  induction servers as [|s0 servers IH]; intros tasks n server name url Hin Hv;
    [destruct Hin|].
  destruct Hin as [->|Hin].
  - cbn [load_servers]. rewrite Hv. unfold running.
    destruct (PyDict.get name tasks) as [t0|] eqn:G0.
    + destruct (handle_done t0) eqn:Hd.
      * rewrite (load_keeps_running servers _ _ name (create_task url name));
          [reflexivity| |reflexivity].
        rewrite get_set. cbn. now rewrite String.eqb_refl.
      * rewrite (load_keeps_running servers _ _ name t0 G0 Hd). now rewrite Hd.
    + rewrite (load_keeps_running servers _ _ name (create_task url name));
        [reflexivity| |reflexivity].
      rewrite get_set. cbn. now rewrite String.eqb_refl.
  - cbn [load_servers].
    destruct (valid_entry s0) as [[nm u]|]; [|now apply (IH _ _ server name url)].
    destruct (match PyDict.get nm tasks with
              | Some task => handle_done task
              | None => true
              end); now apply (IH _ _ server name url).
Qed.

(** When every valid entry already has a running task, the loop changes
    nothing. *)
Lemma load_nothing_new servers : forall tasks n,
  (forall server name url, In server servers ->
                           valid_entry server = Some (name, url) ->
                           running tasks name = true) ->
  fst (load_servers servers tasks n) = tasks.
Proof.
  induction servers as [|s0 servers IH]; intros tasks n Hall; [reflexivity|].
  cbn [load_servers].
  assert (Hrest : forall server name url, In server servers ->
                                          valid_entry server = Some (name, url) ->
                                          running tasks name = true)
    by (intros server name url Hin; apply Hall; now right).
  destruct (valid_entry s0) as [[nm u]|] eqn:Hv; [|now apply IH].
  pose proof (Hall s0 nm u (or_introl eq_refl) Hv) as Hr. unfold running in Hr.
  destruct (PyDict.get nm tasks) as [t0|]; [|discriminate].
  destruct (handle_done t0); [discriminate|]. now apply IH.
Qed.

Lemma load_count servers : forall tasks n,
  snd (load_servers servers tasks n)
  = (n + length (filter (fun s => match valid_entry s with
                                  | Some _ => true
                                  | None => false
                                  end) servers))%nat.
Proof.
  induction servers as [|s0 servers IH]; intros tasks n; cbn [load_servers filter];
    [cbn; lia|].
  destruct (valid_entry s0) as [[nm u]|]; [|apply IH].
  destruct (match PyDict.get nm tasks with
            | Some task => handle_done task
            | None => true
            end); rewrite IH; cbn [length]; lia.
Qed.

End LoaderFacts.

(** X24. After [cog_load], every configuration entry that is a dict with a
    string name and a string url has a running connection task under its
    name, and every task that was running before is still the same task: a
    running supervisor is never started a second time. The count of active
    tasks is the number of such entries; the shutdown event is clear and
    the registry is as before. *)
Theorem cog_load_starts_each_server_once :
  forall (mcp_servers : list pyval) (tasks : list (string * Loader.Handle))
         (c : Cog),
    let tasks' := fst (Loader.cog_load mcp_servers tasks c) in
    let c' := snd (Loader.cog_load mcp_servers tasks c) in
    Forall (fun server =>
              match Loader.valid_entry server with
              | Some (name, _) => Loader.running tasks' name = true
              | None => True
              end) mcp_servers
    /\ Forall (fun nt =>
                 Loader.running tasks (fst nt) = true ->
                 PyDict.get (fst nt) tasks' = PyDict.get (fst nt) tasks) tasks
    /\ snd (Loader.load_servers mcp_servers tasks 0)
       = length (filter (fun s => match Loader.valid_entry s with
                                  | Some _ => true
                                  | None => false
                                  end) mcp_servers)
    /\ shutdown_event c' = false
    /\ mcp_connections c' = mcp_connections c
    /\ mcp_tools c' = mcp_tools c.
Proof.
  intros mcp_servers tasks c tasks' c'. subst tasks' c'. cbn [fst snd Loader.cog_load].
  split; [|split; [|split; [|repeat split]]].
  - apply Forall_forall. intros server Hin.
    destruct (Loader.valid_entry server) as [[name url]|] eqn:Hv; [|exact I].
    now apply (LoaderFacts.load_starts_valid mcp_servers tasks 0 server name url).
  - apply Forall_forall. intros [name t0] _. cbn [fst]. unfold Loader.running.
    destruct (PyDict.get name tasks) as [task|] eqn:G; [|discriminate].
    intros Hr. apply LoaderFacts.load_keeps_running; [exact G|].
    now destruct (Loader.handle_done task).
  - apply (LoaderFacts.load_count mcp_servers tasks 0).
Qed.

(** X25. Loading twice is loading once: a second [cog_load] with the same
    configuration, while the tasks of the first are running, creates no
    task and leaves the task table as it is. *)
Theorem cog_load_again_creates_nothing :
  forall (mcp_servers : list pyval) (tasks : list (string * Loader.Handle))
         (c : Cog),
    let loaded := Loader.cog_load mcp_servers tasks c in
    Loader.cog_load mcp_servers (fst loaded) (snd loaded) = loaded.
Proof.
  intros mcp_servers tasks c loaded. subst loaded. unfold Loader.cog_load.
  cbn [fst snd]. f_equal.
  apply LoaderFacts.load_nothing_new.
  intros server name url Hin Hv.
  now apply (LoaderFacts.load_starts_valid mcp_servers tasks 0 server name url).
Qed.

Module ParamFacts.
Import Loader.

Lemma allowed_in k : allowed k = true -> In k ALLOWED_FOR_LLM_CHAT.
Proof.
  unfold allowed. rewrite existsb_exists.
  intros (a & Hin & He). apply String.eqb_eq in He. now subst.
Qed.

Lemma init_keys_allowed endpoint k :
  PyDict.mem k (init_chat_params endpoint) = true -> In k ALLOWED_FOR_LLM_CHAT.
Proof.
  unfold init_chat_params. rewrite LoaderFacts.update_keys.
  intros H. apply orb_true_iff in H as [H|H].
  - unfold PyDict.mem in H. cbn in H.
    destruct (String.eqb_spec k "model") as [E|_]; [rewrite E; cbn; tauto|].
    destruct (String.eqb_spec k "temperature") as [E|_]; [rewrite E; cbn; tauto|].
    discriminate.
  - apply existsb_exists in H as ([k0 v0] & Hin & He).
    apply filter_In in Hin as [_ Ha]. cbn [fst] in *.
    apply String.eqb_eq in He. subst. now apply allowed_in.
Qed.

Lemma mem_map_values {V W} (f : V -> W) (d : list (string * V)) k :
  PyDict.mem k (map (fun kv => (fst kv, f (snd kv))) d) = PyDict.mem k d.
Proof.
  unfold PyDict.mem. induction d as [|[k0 v0] d IH]; [reflexivity|].
  cbn. destruct (String.eqb k k0); [reflexivity|exact IH].
Qed.

End ParamFacts.

(** X26. The chat parameters that [__init__] keeps have keys among model,
    temperature, max_tokens and top_p only, with model and temperature
    always there; so the keyword arguments of every call to the backend are
    among those four, stream, tools and tool_choice, and never clash with
    the [messages] and [user] arguments passed beside them. *)
Theorem chat_params_never_clash :
  forall (llm_endpoint_config : list (string * pyval)) (system_message : string)
         (max_history_length : Z) (stream : bool) (c : Cog),
    let cfg := {| Engine.system_message := system_message;
                  Engine.max_history_length := max_history_length;
                  Engine.llm_chat_params :=
                    Loader.init_chat_params llm_endpoint_config |} in
    Forall (fun k => In k Loader.ALLOWED_FOR_LLM_CHAT)
           (PyDict.keys (Loader.init_chat_params llm_endpoint_config))
    /\ PyDict.mem "model" (Loader.init_chat_params llm_endpoint_config) = true
    /\ PyDict.mem "temperature" (Loader.init_chat_params llm_endpoint_config) = true
    /\ Forall (fun k => In k (Loader.ALLOWED_FOR_LLM_CHAT
                              ++ ["stream"; "tools"; "tool_choice"]))
              (PyDict.keys (Engine.first_params cfg stream c))
    /\ Forall (fun k => In k (Loader.ALLOWED_FOR_LLM_CHAT ++ ["stream"]))
              (PyDict.keys (Engine.follow_up_params cfg stream))
    /\ PyDict.mem "stream" (Engine.first_params cfg stream c) = true
    /\ PyDict.mem "stream" (Engine.follow_up_params cfg stream) = true.
Proof.
  intros endpoint sm N stream c cfg.
  assert (Hbase : forall k,
             PyDict.mem k (Engine.base_params cfg stream)
             = (k =? "stream")%string
               || PyDict.mem k (Loader.init_chat_params endpoint)).
  { intros k. unfold Engine.base_params. rewrite mem_set.
    cbn [keqb string_KeyEq Engine.llm_chat_params cfg].
    now rewrite ParamFacts.mem_map_values. }
  assert (Hin : forall k, PyDict.mem k (Engine.base_params cfg stream) = true ->
                          In k (Loader.ALLOWED_FOR_LLM_CHAT ++ ["stream"])).
  { intros k. rewrite Hbase. intros H. apply in_or_app.
    apply orb_true_iff in H as [H|H].
    - right. apply String.eqb_eq in H. subst. now left.
    - left. now apply (ParamFacts.init_keys_allowed endpoint). }
  split; [|split; [|split; [|split; [|split; [|split]]]]].
  - apply Forall_forall. intros k Hk. apply SchemaFacts.mem_keys in Hk.
    now apply (ParamFacts.init_keys_allowed endpoint).
  - unfold Loader.init_chat_params. rewrite LoaderFacts.update_keys. reflexivity.
  - unfold Loader.init_chat_params. rewrite LoaderFacts.update_keys. reflexivity.
  - apply Forall_forall. intros k Hk. apply SchemaFacts.mem_keys in Hk.
    unfold Engine.first_params in Hk.
    destruct (Schema.format_tools_for_openai c).
    + apply Hin in Hk. apply in_app_or in Hk as [Hk|[<-|[]]];
        apply in_or_app; [now left|right; now left].
    + rewrite !mem_set in Hk. cbn [keqb string_KeyEq] in Hk.
      apply orb_true_iff in Hk as [Hk|Hk];
        [apply String.eqb_eq in Hk; subst; apply in_or_app; right; cbn; tauto|].
      apply orb_true_iff in Hk as [Hk|Hk];
        [apply String.eqb_eq in Hk; subst; apply in_or_app; right; cbn; tauto|].
      apply Hin in Hk. apply in_app_or in Hk as [Hk|[<-|[]]];
        apply in_or_app; [now left|right; now left].
  - apply Forall_forall. intros k Hk. apply SchemaFacts.mem_keys in Hk.
    unfold Engine.follow_up_params in Hk. rewrite !mem_del in Hk.
    apply andb_true_iff in Hk as [_ Hk]. apply andb_true_iff in Hk as [_ Hk].
    now apply Hin.
  - unfold Engine.first_params.
    destruct (Schema.format_tools_for_openai c);
      rewrite ?mem_set, Hbase; cbn [keqb string_KeyEq]; reflexivity.
  - unfold Engine.follow_up_params. rewrite !mem_del, Hbase. reflexivity.
Qed.

(** ** Status query *)

Module StatusFacts.
Import StatusList.

Lemma insert_perm x l : Permutation (x :: l) (insert x l).
Proof.
  induction l as [|y l IH]; cbn [insert]; [reflexivity|].
  destruct (String.leb x y); [reflexivity|].
  rewrite perm_swap. now apply perm_skip.
Qed.

Lemma sorted_perm l : Permutation l (sorted l).
Proof.
  induction l as [|x l IH]; [reflexivity|].
  cbn [sorted fold_right]. rewrite <- insert_perm. now apply perm_skip.
Qed.

Lemma leb_flip x y : String.leb x y = false -> String.leb y x = true.
Proof.
  intros H. destruct (String.leb_total x y) as [E|E]; [congruence|exact E].
Qed.

Lemma insert_sorted x l :
  Sorted (fun a b => String.leb a b = true) l ->
  Sorted (fun a b => String.leb a b = true) (insert x l).
Proof.
  induction l as [|y l IH]; intros Hs; cbn [insert];
    [repeat constructor|].
  destruct (String.leb x y) eqn:E;
    [constructor; [exact Hs|constructor; exact E]|].
  inversion Hs as [|? ? Hs' Hhd]; subst.
  constructor; [now apply IH|].
  destruct l as [|z l]; cbn [insert].
  - constructor. now apply leb_flip.
  - destruct (String.leb x z); constructor;
      [now apply leb_flip|now inversion Hhd].
Qed.

Lemma sorted_sorted l : Sorted (fun a b => String.leb a b = true) (sorted l).
Proof.
  induction l as [|x l IH]; [constructor|].
  cbn [sorted fold_right]. now apply insert_sorted.
Qed.

(** The lines of the tools from position [i] on, [d <= 7] of them being
    displayed already. *)
Lemma preview_lines total : forall tools i d,
  (d <= tool_limit)%nat ->
  preview tools total i d
  = (map (fun it => tool_line (fst it) (snd it))
         (combine (seq i (tool_limit - d)) tools)
     ++ if (tool_limit - d <? length tools)%nat
        then if 0 <? Z.of_nat total - Z.of_nat tool_limit
             then [more_line (Z.of_nat total - Z.of_nat tool_limit)]
             else []
        else [])%list.
Proof.
  induction tools as [|t tools IH]; intros i d Hd.
  - cbn [preview length]. now destruct (seq i (tool_limit - d)).
  - cbn [preview].
    destruct (Nat.ltb_spec d tool_limit) as [Hlt|Hge].
    + rewrite (IH (S i) (S d)) by lia.
      replace (tool_limit - d)%nat with (S (tool_limit - S d)) by lia.
      cbn [seq combine map fst snd app length]. reflexivity.
    + replace d with tool_limit by lia. rewrite Nat.eqb_refl, Nat.sub_diag.
      cbn [seq combine map app length]. reflexivity.
Qed.

End StatusFacts.

(** X27. The servers of the status message are listed in ascending order
    of name, each once, and they are exactly the servers that are
    configured, connected, or have a tool list. *)
Theorem status_names_sorted_and_complete :
  forall (configured : list string) (c : Cog),
    let names := StatusList.all_server_names configured c in
    Sorted (fun a b => String.leb a b = true) names
    /\ NoDup names
    /\ forall k,
        In k names
        <-> In k configured
            \/ PyDict.mem k (mcp_connections c) = true
            \/ PyDict.mem k (mcp_tools c) = true.
Proof.
  intros configured c names. subst names. unfold StatusList.all_server_names.
  set (all := (configured ++ PyDict.keys (mcp_connections c)
               ++ PyDict.keys (mcp_tools c))%list).
  pose proof (StatusFacts.sorted_perm (nodup string_dec all)) as Hp.
  split; [apply StatusFacts.sorted_sorted|]. split.
  - apply (Permutation_NoDup Hp). apply NoDup_nodup.
  - intros k. split.
    + intros Hin. apply (Permutation_in k (Permutation_sym Hp)) in Hin.
      apply nodup_In in Hin. subst all.
      apply in_app_or in Hin as [H|H]; [now left|].
      apply in_app_or in H as [H|H]; apply SchemaFacts.mem_keys in H; auto.
    + intros H. apply (Permutation_in k Hp). apply nodup_In. subst all.
      apply in_or_app. destruct H as [H|[H|H]]; [now left| |];
        right; apply in_or_app; apply SchemaFacts.mem_keys in H; auto.
Qed.

(** X28. In every cog reachable by the steps of the system, no server is
    reported as "Connected (Listing Tools Failed?)": a connected server is
    reported as connected with its tools listed, and a server without
    connection as connecting when its task runs, as disconnected when it is
    only configured, and as unknown otherwise. *)
Theorem status_is_never_connected_without_tools :
  forall (L : PyLib) (c : Cog),
    Lifecycle.reachable c ->
    forall (configured : list string) (tasks : list (string * Loader.Handle))
           (name : string),
      StatusList.status_of configured tasks c name
      = if PyDict.mem name (mcp_connections c) then StatusList.ConnectedListed
        else if Loader.running tasks name then StatusList.Connecting
        else if existsb (String.eqb name) configured then StatusList.Disconnected
        else StatusList.UnknownState.
Proof.
  intros L c Hreach configured tasks name.
  pose proof (ResolutionFacts.reachable_agree c Hreach name) as Ha.
  unfold StatusList.status_of. rewrite <- Ha.
  destruct (PyDict.mem name (mcp_connections c)); reflexivity.
Qed.

Lemma status_is_never_connected_without_tools_witness :
  StatusList.status_of ["srv"; "aux"] [] (snd Sample.ready) "srv"
  = StatusList.ConnectedListed
  /\ StatusList.status_of ["srv"; "aux"] [] Sample.faulted "srv"
     = StatusList.Disconnected.
Proof.
  split.
  - exact (status_is_never_connected_without_tools Sample.lib (snd Sample.ready)
             ResolutionFacts.ready_reachable ["srv"; "aux"] [] "srv").
  - exact (status_is_never_connected_without_tools Sample.lib Sample.faulted
             ResolutionFacts.faulted_reachable ["srv"; "aux"] [] "srv").
Defined.

(** X29. The tool preview of a server shows its first seven tools, in
    order and numbered from their position, and after them, when there are
    more than seven, one line with the number of tools left out: at most
    eight lines, whatever the length of the tool list. *)
Theorem tool_preview_is_bounded :
  forall tools : list ToolDef,
    let lines := StatusList.preview tools (length tools) 0 0 in
    lines
    = (map (fun it => StatusList.tool_line (fst it) (snd it))
           (combine (seq 0 StatusList.tool_limit) tools)
       ++ if (StatusList.tool_limit <? length tools)%nat
          then [StatusList.more_line
                  (Z.of_nat (length tools) - Z.of_nat StatusList.tool_limit)]
          else [])%list
    /\ (length lines <= S StatusList.tool_limit)%nat
    /\ length lines
       = (Nat.min (length tools) StatusList.tool_limit
          + if (StatusList.tool_limit <? length tools)%nat then 1 else 0)%nat.
Proof.
  intros tools lines. subst lines.
  rewrite (StatusFacts.preview_lines (length tools) tools 0 0) by (cbv; lia).
  rewrite Nat.sub_0_r.
  assert (Hmore : (if (StatusList.tool_limit <? length tools)%nat
                   then if 0 <? Z.of_nat (length tools)
                                - Z.of_nat StatusList.tool_limit
                        then [StatusList.more_line
                                (Z.of_nat (length tools)
                                 - Z.of_nat StatusList.tool_limit)]
                        else []
                   else [])
                  = if (StatusList.tool_limit <? length tools)%nat
                    then [StatusList.more_line
                            (Z.of_nat (length tools)
                             - Z.of_nat StatusList.tool_limit)]
                    else []).
  { destruct (Nat.ltb_spec StatusList.tool_limit (length tools)) as [H|H];
      [|reflexivity].
    destruct (Z.ltb_spec 0 (Z.of_nat (length tools)
                            - Z.of_nat StatusList.tool_limit)); [reflexivity|lia]. }
  rewrite Hmore. split; [reflexivity|].
  rewrite length_app, length_map, length_combine, length_seq.
  destruct (StatusList.tool_limit <? length tools)%nat; cbn [length];
    unfold StatusList.tool_limit; lia.
Qed.

(** ** Chat commands *)

Module CommandFacts.
Import Engine Commands.

Lemma sent_app (a b : list Event) : sent (a ++ b) = (sent a ++ sent b)%list.
Proof. unfold sent. apply flat_map_app. Qed.

Lemma run_tool_calls_sends `{PyLib} invoke : forall calls n c,
  calls <> [] -> sent (snd (fst (run_tool_calls invoke n calls c))) <> [].
Proof.
  intros [|tool_call rest] n c Hne; [congruence|].
  cbn [run_tool_calls].
  destruct (json_loads (fn_arguments tool_call)) as [[| | | | | |tool_args|]|];
    try (destruct (run_tool_calls invoke (S n) rest c) as [[entries evs] c2];
         cbn; discriminate).
  destruct (Router.execute_tool (invoke n) c (fn_name tool_call) (PDict tool_args))
    as [tool_result_obj c1].
  destruct (Formatter.format_calltoolresult_content _) as [formatted|exec_e];
    destruct (run_tool_calls invoke (S n) rest c1) as [[entries evs] c2];
    cbn; discriminate.
Qed.

(** Every turn calls [send_long_message] at least once. *)
Lemma turn_sends `{PyLib} cfg backend invoke ch stream c message :
  sent (snd (handle_chat_logic cfg backend invoke ch stream c message)) <> [].
Proof.
  rewrite CallFacts.handle_chat_logic_eq.
  destruct (get_channel_history cfg c ch) as [[h c0]|]; [|cbn; discriminate].
  cbv beta iota zeta.
  set (c1 := extend_history ch [plain user message] c0).
  destruct (first_reply backend stream (history_of ch c1)
              (first_params cfg stream c1)) as [notice|text calls].
  - cbn [snd]. rewrite sent_app. cbn. discriminate.
  - destruct (strip_truthy text) eqn:Ht.
    + destruct (run_tool_calls invoke 0 calls _) as [[results evs] c3].
      destruct (follow_up cfg backend ch stream results c3) as [c4 after].
      cbn [snd]. rewrite !sent_app. cbn. discriminate.
    + destruct calls as [|tool_call rest].
      * cbn [snd]. rewrite sent_app. cbn. discriminate.
      * pose proof (run_tool_calls_sends invoke (tool_call :: rest) 0
                      (extend_history ch
                         [assistant_message text (tool_call :: rest)] c1)
                      ltac:(discriminate)) as Hs.
        destruct (run_tool_calls invoke 0 (tool_call :: rest) _)
          as [[results evs] c3].
        destruct (follow_up cfg backend ch stream results c3) as [c4 after].
        cbn [snd fst] in *. rewrite !sent_app. cbn [sent flat_map app].
        intros E. apply app_eq_nil in E as [E _].
        fold (sent evs) in E. congruence.
Qed.

End CommandFacts.

(** X30. Each invocation of the chat command, in its prefix and in its
    slash form, answers the user: at least one message is sent, whatever
    the message, the stored state and the behaviour of the backend and of
    the tool servers. A message that is blank after stripping is answered
    with the notice alone: the cog is unchanged and the backend is not
    called. *)
Theorem chat_command_always_answers :
  forall (L : PyLib) (cfg : Engine.Config) (backend : Engine.Backend)
         (invoke : nat -> Router.Invoker) (channel_id : Z) (c : Cog)
         (message : string),
    let prefix := Commands.chat_command cfg backend invoke channel_id c message in
    let slash := Commands.chat_slash cfg backend invoke channel_id c message in
    Commands.sent (snd prefix) <> []
    /\ Commands.sent (snd slash) <> []
    /\ (strip_truthy message = false ->
        prefix = (c, [Engine.Send Commands.blank_notice])
        /\ slash = (c, [Engine.Send Commands.blank_notice])
        /\ Trace.completions (snd prefix) = []
        /\ Trace.completions (snd slash) = []).
Proof.
  intros L cfg backend invoke channel_id c message prefix slash.
  subst prefix slash. unfold Commands.chat_command, Commands.chat_slash.
  destruct (strip_truthy message) eqn:Hm; cbn [negb].
  - split; [apply CommandFacts.turn_sends|].
    split; [apply CommandFacts.turn_sends|discriminate].
  - split; [cbn; discriminate|]. split; [cbn; discriminate|].
    intros _. repeat split; reflexivity.
Qed.

Lemma chat_command_always_answers_witness :
  @Commands.chat_command Sample.lib Sample.cfg2 Sample.backend
    Sample.answers42 7 Sample.cog6 "   "
  = (Sample.cog6, [Engine.Send Commands.blank_notice]).
Proof.
  exact (proj1 (proj2 (proj2
    (chat_command_always_answers Sample.lib Sample.cfg2 Sample.backend
       Sample.answers42 7 Sample.cog6 "   ")) eq_refl)).
Defined.
